(** * BOING! : a shallow embedding of the simulation core of [BOING.py]

    The development follows the Python source function by function:
    [Paddle.move], [Ball.reset], [Ball.update], [Particle.update],
    [ai_move], [get_particle_count], [emit_particles], the collision,
    scoring and win blocks of [run_game], and [load_settings] /
    [save_settings]; then the joystick poll and the event dispatch of
    [run_game], the value cycling of [settings_menu], the event loop of
    [controls_rebind_menu], the colour and alpha computed by
    [Paddle.draw] and [Particle.draw], the frame-time lists of the debug
    overlay and the word wrap of [colored_confirm_popup].

    Number model.  Python [int] is [Z].  Python [float] is idealised as a
    real number ([R]): rounding, infinities and NaN are outside the model,
    [math.hypot] is the exact Euclidean norm and [int(x)] on a float is
    truncation toward zero ([py_int]).  Products are named as the source
    writes them rather than given a decimal value, and the fields of a
    [pg.Rect] and the milliseconds of [clock.tick], C integers in pygame,
    are used within their range.  Where the rounding itself decides a
    property - the stop of [Paddle.move] at the bottom of the board -
    the function is given a second time over binary64 numbers
    ([Paddle64.move]) and evaluated there.  Draws of the [random] module
    and the values returned by pygame ([clock.tick], the QUIT event
    during the winner banner) are explicit inputs of the functions that
    consume them. *)

From Stdlib Require Import Floats.PrimFloat.
From Stdlib Require Floats.FloatOps Floats.SpecFloat.
From Stdlib Require Import Reals Lra Lia ZArith List.
From stdpp Require Import gmap strings fin_maps.

Local Open Scope Z_scope.

(** ** Python numeric helpers *)

(** [int(x)] for a float [x]: truncation toward zero. *)
Definition py_int (r : R) : Z :=
  if Rle_dec 0 r then Int_part r else - Int_part (- r).

(** [clamp(n, a, b)] of the source: [max(a, min(b, n))]. *)
Definition clamp (n a b : R) : R := Rmax a (Rmin b n).

(** [math.hypot]. *)
Definition hypot (a b : R) : R := sqrt (a * a + b * b).

(** ** Configuration constants *)

Definition WIDTH : Z := 900.
Definition HEIGHT : Z := 600.
Definition FPS : Z := 144.
Definition PADDLE_WIDTH : Z := 12.
Definition PADDLE_HEIGHT : Z := 100.
Definition PADDLE_SPEED : R := 360.
Definition BALL_SIZE : Z := 14.
Definition BALL_SPEED_START : R := 300.
Definition BALL_SPEED_INCREMENT : R := 0.8.
Definition MAX_BALL_SPEED : R := 1200.

(** ** pygame rectangles

    [pg.Rect] holds four integers; the derived attributes use C integer
    division, and [colliderect] is the strict overlap test of pygame
    (rectangles of zero size collide with nothing). *)
Module Rect.

Record t : Type := mk { x : Z; y : Z; w : Z; h : Z }.

Definition left (r : t) : Z := x r.
Definition top (r : t) : Z := y r.
Definition right (r : t) : Z := x r + w r.
Definition bottom (r : t) : Z := y r + h r.
Definition centerx (r : t) : Z := x r + Z.quot (w r) 2.
Definition centery (r : t) : Z := y r + Z.quot (h r) 2.

Definition set_y (v : Z) (r : t) : t := mk (x r) v (w r) (h r).
Definition set_centerx (v : Z) (r : t) : t :=
  mk (v - Z.quot (w r) 2) (y r) (w r) (h r).
Definition set_centery (v : Z) (r : t) : t :=
  mk (x r) (v - Z.quot (h r) 2) (w r) (h r).
Definition set_center (cx cy : Z) (r : t) : t :=
  mk (cx - Z.quot (w r) 2) (cy - Z.quot (h r) 2) (w r) (h r).

(** The fields of a [pg.Rect] are C [int]s, which the model widens to
    [Z]: a value assigned to a field is represented faithfully only
    when it lies in the range of a 32-bit signed integer.  [fits v]
    says so of [v]. *)
Definition INT_MIN : Z := - 2147483648.
Definition INT_MAX : Z := 2147483647.
Definition fits (v : Z) : Prop := INT_MIN <= v <= INT_MAX.

Definition colliderect (a b : t) : bool :=
  if (w a =? 0) || (h a =? 0) || (w b =? 0) || (h b =? 0) then false
  else (Z.min (x a) (x a + w a) <? Z.max (x b) (x b + w b))
       && (Z.min (y a) (y a + h a) <? Z.max (y b) (y b + h b))
       && (Z.min (x b) (x b + w b) <? Z.max (x a) (x a + w a))
       && (Z.min (y b) (y b + h b) <? Z.max (y a) (y a + h a)).

End Rect.

(** ** class Paddle *)
Module Paddle.

Record t : Type := mk {
  rect : Rect.t;
  y : R;
  speed : R;
  flash_timer : R
}.

(** [Paddle.__init__(x, y)]. *)
Definition init (x0 y0 : Z) : t :=
  let r := Rect.mk x0 y0 PADDLE_WIDTH PADDLE_HEIGHT in
  mk r (IZR (Rect.y r)) 0 0.

(** [Paddle.move(dt)]. *)
Definition move (dt : R) (p : t) : t :=
  let y1 := (y p + speed p * dt)%R in
  let y2 := if Rlt_dec y1 0 then 0%R else y1 in
  let y3 := if Rgt_dec (y2 + IZR (Rect.h (rect p))) (IZR HEIGHT)
            then IZR (HEIGHT - Rect.h (rect p)) else y2 in
  let rect' := Rect.set_y (py_int y3) (rect p) in
  let ft := if Rgt_dec (flash_timer p) 0
            then Rmax 0 (flash_timer p - dt) else flash_timer p in
  mk rect' y3 (speed p) ft.

End Paddle.

(** ** class Paddle, in double precision

    The same [Paddle.move] with Python's [float] as the binary64 numbers
    of the machine, each operation rounded as the interpreter rounds
    it. *)

(** [float(n)] for an integer [n] (exact below [2^53]). *)
Definition Z2float (z : Z) : float :=
  if z <? 0 then (- of_uint63 (Uint63Axioms.of_Z (- z)))%float
  else of_uint63 (Uint63Axioms.of_Z z).

(** [int(x)] for a double [x]: truncation toward zero; [None] stands for
    the exception raised on an infinity or a NaN. *)
Definition float_int (f : float) : option Z :=
  match FloatOps.Prim2SF f with
  | SpecFloat.S754_zero _ => Some 0
  | SpecFloat.S754_finite s m e =>
      let a := if 0 <=? e then Z.pos m * 2 ^ e else Z.pos m / 2 ^ (- e) in
      Some (if s then - a else a)
  | _ => None
  end.

(** [dt = clock.tick(FPS) / 1000.0] as a double. *)
Definition frame_dt64 (ms : Z) : float := (Z2float ms / 1000)%float.

Module Paddle64.

Record t : Type := mk {
  rect : Rect.t;
  y : float;
  speed : float;
  flash_timer : float
}.

(** [Paddle.move(dt)].  The integers [0] and [HEIGHT - self.rect.height]
    stored in [self.y] by the two stops are held as the doubles of the
    same value, which is what the next addition makes of them. *)
Definition move (dt : float) (p : t) : option t :=
  let y1 := (y p + speed p * dt)%float in
  let y2 := if (y1 <? 0)%float then 0%float else y1 in
  let y3 := if (Z2float HEIGHT <? y2 + Z2float (Rect.h (rect p)))%float
            then Z2float (HEIGHT - Rect.h (rect p)) else y2 in
  match float_int y3 with
  | None => None
  | Some iy =>
      let ft := if (0 <? flash_timer p)%float
                then (if (0 <? flash_timer p - dt)%float
                      then flash_timer p - dt else 0)%float
                else flash_timer p in
      Some (mk (Rect.set_y iy (rect p)) y3 (speed p) ft)
  end.

(** A paddle carried through successive frames: each entry holds the
    velocity the keys have set for the frame and the milliseconds
    [clock.tick] returned for it. *)
Fixpoint drive (frames : list (float * Z)) (p : t) : option t :=
  match frames with
  | nil => Some p
  | (v, ms) :: rest =>
      match move (frame_dt64 ms) (mk (rect p) (y p) v (flash_timer p)) with
      | Some p' => drive rest p'
      | None => None
      end
  end.

(** The left paddle held against the bottom of the board, where [move]
    has set its position to [HEIGHT - PADDLE_HEIGHT]. *)
Definition bottom_stop : t :=
  mk (Rect.mk 20 500 PADDLE_WIDTH PADDLE_HEIGHT) 500 0 0.

(** Two frames of 7 ms with the up key held, then a frame of 6 ms and one
    of 8 ms with the down key held. *)
Definition up_and_back : list (float * Z) :=
  ((- 360)%float, 7) :: ((- 360)%float, 7) :: (360%float, 6) :: (360%float, 8)
  :: nil.

End Paddle64.

(** ** class Ball *)
Module Ball.

Record t : Type := mk {
  rect : Rect.t;
  x : R;
  y : R;
  vx : R;
  vy : R
}.

(** [Ball.reset(direction)].  [angle] is the value drawn by
    [random.uniform(-0.5, 0.5)] and [choice] the one drawn by
    [random.choice([-1, 1])]; the latter is consulted only when
    [direction] is [None]. *)
Definition reset (angle : R) (choice : Z) (direction : option Z) (b : t) : t :=
  let x' := IZR (Z.div WIDTH 2) in
  let y' := IZR (Z.div HEIGHT 2) in
  let speed := BALL_SPEED_START in
  let d := match direction with None => choice | Some d => d end in
  mk (Rect.set_center (py_int x') (py_int y') (rect b))
     x' y'
     (IZR d * speed * (1 + Rabs angle))%R
     (speed * angle * 2)%R.

(** [Ball.__init__()]: a 14x14 rectangle, then [reset(direction=1)]. *)
Definition init (angle : R) (choice : Z) : t :=
  reset angle choice (Some 1)
    (mk (Rect.mk 0 0 BALL_SIZE BALL_SIZE)
        (IZR (Z.div WIDTH 2)) (IZR (Z.div HEIGHT 2)) 0 0).

(** [Ball.update(dt)]. *)
Definition update (dt : R) (b : t) : t :=
  let x1 := (x b + vx b * dt)%R in
  let y1 := (y b + vy b * dt)%R in
  let half_h := (IZR (Rect.h (rect b)) / 2)%R in
  let '(y2, vy2) :=
    if Rle_dec (y1 - half_h) 0 then (half_h, (- vy b)%R) else (y1, vy b) in
  let '(y3, vy3) :=
    if Rge_dec (y2 + half_h) (IZR HEIGHT)
    then ((IZR HEIGHT - half_h)%R, (- vy2)%R) else (y2, vy2) in
  mk (Rect.set_centery (py_int y3) (Rect.set_centerx (py_int x1) (rect b)))
     x1 y3 (vx b) vy3.

End Ball.

(** ** class Particle *)
Module Particle.

Record t : Type := mk {
  x : R; y : R;
  vx : R; vy : R;
  life : R;
  age : R;
  size : R;
  color : Z * Z * Z
}.

(** [Particle.__init__(pos, vel, life, size, color)]. *)
Definition init (pos : R * R) (vel : R * R) (life0 size0 : R)
    (color0 : Z * Z * Z) : t :=
  mk (fst pos) (snd pos) (fst vel) (snd vel) life0 0 size0 color0.

(** [Particle.update(dt)]. *)
Definition update (dt : R) (p : t) : t :=
  let age' := (age p + dt)%R in
  let x' := (x p + vx p * dt)%R in
  let y' := (y p + vy p * dt)%R in
  let vy1 := (vy p + 60 * dt)%R in
  let vx' := (vx p * (1 - 0.3 * dt))%R in
  let vy' := (vy1 * (1 - 0.1 * dt))%R in
  mk x' y' vx' vy' (life p) age' (size p) (color p).

(** [Particle.is_dead()]. *)
Definition is_dead (p : t) : bool :=
  if Rge_dec (age p) (life p) then true else false.

End Particle.

(** ** Settings dictionaries

    A settings object is a Python [dict] with string keys.  Its values
    are strings, booleans, integers, [None], or (under ["controls"]) a
    nested [dict] from action names to key codes or [None]. *)

Inductive pyatom : Type :=
| PNone
| PBool (b : bool)
| PInt (z : Z)
| PStr (s : string).

Inductive pyval : Type :=
| Atom (a : pyatom)
| Dict (d : gmap string pyatom).

(** [d.get(k, dflt)]. *)
Definition dict_get {A : Type} (d : gmap string A) (k : string) (dflt : A) : A :=
  match d !! k with Some v => v | None => dflt end.

(** [v == s] for a string literal [s]. *)
Definition eq_str (v : pyval) (s : string) : bool :=
  match v with
  | Atom (PStr s') => bool_decide (s' = s)
  | _ => false
  end.

(** Key codes of pygame 2 used by the default bindings. *)
Definition K_w : Z := 119.
Definition K_s : Z := 115.
Definition K_r : Z := 114.
Definition K_m : Z := 109.
Definition K_UP : Z := 1073741906.
Definition K_DOWN : Z := 1073741905.
Definition K_F3 : Z := 1073741884.

Definition DEFAULT_CONTROLS : gmap string pyatom :=
  <["left_up" := PInt K_w]>
  (<["left_down" := PInt K_s]>
  (<["right_up" := PInt K_UP]>
  (<["right_down" := PInt K_DOWN]>
  (<["reset" := PInt K_r]>
  (<["menu" := PInt K_m]>
  (<["debug" := PInt K_F3]> ∅)))))).

Definition DEFAULT_SETTINGS : gmap string pyval :=
  <["ai_difficulty" := Atom (PStr "Normal")]>
  (<["particle_quality" := Atom (PStr "Normal")]>
  (<["sound" := Atom (PBool true)]>
  (<["controls" := Dict DEFAULT_CONTROLS]> ∅))).

(** [settings_set_label_value(settings, label, value)]. *)
Definition settings_set_label_value (settings : gmap string pyval)
    (label value : string) : gmap string pyval :=
  if bool_decide (label = "AI Difficulty") then
    <["ai_difficulty" := Atom (PStr value)]> settings
  else if bool_decide (label = "Particles") then
    <["particle_quality" := Atom (PStr value)]> settings
  else if bool_decide (label = "Sound") then
    <["sound" := Atom (PBool (bool_decide (value = "On")))]> settings
  else settings.

(** The commit of [controls_rebind_menu] on "Apply":
    [settings["controls"] = bindings.copy()]. *)
Definition apply_bindings (settings : gmap string pyval)
    (bindings : gmap string pyatom) : gmap string pyval :=
  <["controls" := Dict bindings]> settings.

(** ** Persistence: [load_settings] and [save_settings]

    The configuration file lives at the per-user path; [save_settings]
    writes to a fallback directory when the per-user directory cannot be
    created.  A file either unpickles to an object or makes
    [pickle.load] raise. *)

Inductive pickled : Type :=
| PickDict (d : gmap string pyval)
| PickOther.

Inductive file : Type :=
| Pickle (o : pickled)
| Garbage.

Record FS : Type := mkFS {
  primary_dir : bool;          (* the per-user config directory exists *)
  primary_file : option file;  (* <config_dir>/config.pickle *)
  fallback_file : option file; (* ~/.pong/config.pickle *)
  mkdir_ok : bool;             (* os.makedirs(config_dir) succeeds *)
  open_ok : bool               (* open(path, "wb") succeeds *)
}.

(** The merge performed by [load_settings] on an unpickled [dict]. *)
Definition merge_settings (data : gmap string pyval) : gmap string pyval :=
  let settings := DEFAULT_SETTINGS in
  let controls := DEFAULT_CONTROLS in
  let controls :=
    match data !! "controls" with
    | Some (Dict c) => c ∪ controls      (* controls.update(data["controls"]) *)
    | _ => controls
    end in
  let settings := data ∪ settings in     (* settings.update(data) *)
  <["controls" := Dict controls]> settings.

Definition load_settings (fs : FS) : gmap string pyval :=
  match primary_file fs with
  | Some (Pickle (PickDict data)) => merge_settings data
  | Some Garbage => DEFAULT_SETTINGS
  | Some (Pickle PickOther) | None =>
      <["controls" := Dict DEFAULT_CONTROLS]> DEFAULT_SETTINGS
  end.

(** [ensure_config_dir] followed by the body of [save_settings]. *)
Definition save_settings (settings : gmap string pyval) (fs : FS) : FS :=
  let dir' := primary_dir fs || mkdir_ok fs in
  if open_ok fs then
    if dir' then
      mkFS dir' (Some (Pickle (PickDict settings))) (fallback_file fs)
           (mkdir_ok fs) (open_ok fs)
    else
      mkFS dir' (primary_file fs) (Some (Pickle (PickDict settings)))
           (mkdir_ok fs) (open_ok fs)
  else
    mkFS dir' (primary_file fs) (fallback_file fs) (mkdir_ok fs) (open_ok fs).

(** ** AI controller and particle emitters *)

(** [ai_move(paddle, ball, settings)]. *)
Definition ai_move (paddle : Paddle.t) (ball : Ball.t)
    (settings : gmap string pyval) : Paddle.t :=
  let diff := dict_get settings "ai_difficulty" (Atom (PStr "Normal")) in
  let '(maxspeed, deadzone) :=
    if eq_str diff "Easy" then ((PADDLE_SPEED * 0.7)%R, 14%R)
    else if eq_str diff "Hard" then ((PADDLE_SPEED * 1.35)%R, 4%R)
    else (PADDLE_SPEED, 8%R) in
  let pc := IZR (Rect.centery (Paddle.rect paddle)) in
  let bc := IZR (Rect.centery (Ball.rect ball)) in
  let speed' :=
    if Rlt_dec pc (bc - deadzone) then maxspeed
    else if Rgt_dec pc (bc + deadzone) then (- maxspeed)%R
    else 0%R in
  Paddle.mk (Paddle.rect paddle) (Paddle.y paddle) speed'
            (Paddle.flash_timer paddle).

(** [get_particle_count(settings, base)]. *)
Definition get_particle_count (settings : gmap string pyval) (base : Z) : Z :=
  let q := dict_get settings "particle_quality" (Atom (PStr "Normal")) in
  if eq_str q "Low" then Z.max 1 (py_int (IZR base * 0.5))
  else if eq_str q "High" then py_int (IZR base * 1.8)
  else base.

(** The random values one iteration of [emit_particles] consumes, in
    program order. *)
Record impact_draw : Type := mkImpactDraw {
  i_speed : R;    (* random.uniform(80.0, 360.0) *)
  i_rand : R;     (* random.random() *)
  i_angle : R;    (* random.uniform(-0.9, 0.9) *)
  i_life : R;     (* random.uniform(0.18, 0.7) *)
  i_size : R;     (* random.uniform(2.0, 6.0) *)
  i_color : Z * Z * Z  (* random.choice(PARTICLE_COLORS) *)
}.

(** The body of the [for] loop of [emit_particles]. *)
Definition impact_particle (pos : Z * Z) (direction : Z) (intensity : R)
    (d : impact_draw) : Particle.t :=
  let speed := (i_speed d * (0.7 + i_rand d * 0.8) * intensity)%R in
  let angle := (i_angle d + (if direction =? 1 then 0 else PI))%R in
  let vx := (cos angle * speed)%R in
  let vy := (sin angle * speed)%R in
  let size := (i_size d * (0.6 + 0.8 * Rmin 1 intensity))%R in
  Particle.init (IZR (fst pos), IZR (snd pos)) (vx, vy) (i_life d) size
                (i_color d).

(** The number of iterations of the loop of [emit_particles]. *)
Definition impact_count (settings : gmap string pyval) (intensity : R) : Z :=
  let base := 12 in
  let count := py_int (IZR (get_particle_count settings base) * intensity) in
  Z.max 2 (Z.min 200 count).

(** [emit_particles(particles_list, pos, direction, settings, intensity)];
    [draws k] are the random values of iteration [k]. *)
Definition emit_particles (particles_list : list Particle.t) (pos : Z * Z)
    (direction : Z) (settings : gmap string pyval) (intensity : R)
    (draws : nat -> impact_draw) : list Particle.t :=
  let count := impact_count settings intensity in
  particles_list ++
  map (fun k => impact_particle pos direction intensity (draws k))
      (seq 0 (Z.to_nat count)).

Record score_draw : Type := mkScoreDraw {
  s_speed : R;    (* random.uniform(120.0, 420.0) *)
  s_angle : R;    (* random.uniform(0, math.tau) *)
  s_life : R;     (* random.uniform(0.5, 1.1) *)
  s_size : R;     (* random.uniform(3.0, 6.0) *)
  s_color : Z * Z * Z
}.

(** [emit_score_burst(particles_list, pos, settings)]. *)
Definition emit_score_burst (particles_list : list Particle.t) (pos : Z * Z)
    (settings : gmap string pyval) (draws : nat -> score_draw)
    : list Particle.t :=
  let base := 48 in
  let count := get_particle_count settings base in
  particles_list ++
  map (fun k =>
         let d := draws k in
         Particle.init (IZR (fst pos), IZR (snd pos))
           ((cos (s_angle d) * s_speed d)%R, (sin (s_angle d) * s_speed d)%R)
           (s_life d) (s_size d) (s_color d))
      (seq 0 (Z.to_nat count)).

(** ** The game loop of [run_game]

    The session state is the set of local variables of [run_game] that
    the simulation reads or writes.  One iteration of the [while] loop is
    modelled from the first use of [dt] after event dispatch to the decay
    of the screen shake.  Event dispatch is not part of [frame]: it sets
    the paddle speeds the iteration starts from, and a Reset, Menu or
    Quit event resets the scores or leaves [run_game] before the code
    modelled here runs.  Sound playback, rendering and the frame-time
    statistics do not touch the variables modelled here. *)

Record Game : Type := mkGame {
  left : Paddle.t;
  right : Paddle.t;
  ball : Ball.t;
  score_left : Z;
  score_right : Z;
  paused : bool;
  particles : list Particle.t;
  trail : list (R * R * R);
  shake_timer : R;
  shake_magnitude : R
}.

(** The state built at the top of [run_game]; the two arguments are the
    random draws of the first serve. *)
Definition new_game (angle : R) (choice : Z) : Game :=
  mkGame (Paddle.init 20 (Z.div HEIGHT 2 - Z.div PADDLE_HEIGHT 2))
         (Paddle.init (WIDTH - 20 - PADDLE_WIDTH)
                      (Z.div HEIGHT 2 - Z.div PADDLE_HEIGHT 2))
         (Ball.init angle choice)
         0 0 false nil nil 0 0.

(** [TRAIL_LIFE_SEC], chosen from the particle quality. *)
Definition trail_life_sec (settings : gmap string pyval) : R :=
  let pq := dict_get settings "particle_quality" (Atom (PStr "Normal")) in
  if eq_str pq "Low" then 0.10%R
  else if eq_str pq "High" then 0.45%R
  else 0.25%R.

(** [dt = clock.tick(FPS) / 1000.0], where [ms] is the integer number of
    milliseconds returned by [clock.tick]. *)
Definition frame_dt (ms : Z) : R := (IZR ms / 1000)%R.



(** The trail update that follows [ball.update]. *)
Definition update_trail (life dt : R) (b : Ball.t) (tr : list (R * R * R))
    : list (R * R * R) :=
  let tr1 := (Ball.x b, Ball.y b, 0%R) :: tr in
  let aged := map (fun s => let '(x, y, age) := s in (x, y, (age + dt)%R)) tr1 in
  let new_trail :=
    List.filter (fun s => let '(_, _, age) := s in
                     if Rlt_dec age life then true else false) aged in
  firstn (Z.to_nat (py_int (life / Rmax dt 0.000001 + 1))) new_trail.

Inductive side : Type := LeftPaddle | RightPaddle.

(** The ball part of a collision block: reposition on the outer edge of
    the paddle, force the horizontal direction, deflect, scale up.  The
    second component is the local [speed], measured after the deflection
    and before the scale-up. *)
Definition bounce (sd : side) (prect : Rect.t) (b : Ball.t) : Ball.t * R :=
  let brect := Ball.rect b in
  let x' :=
    match sd with
    | LeftPaddle => (IZR (Rect.right prect) + IZR (Rect.w brect) / 2)%R
    | RightPaddle => (IZR (Rect.left prect) - IZR (Rect.w brect) / 2)%R
    end in
  let vx1 :=
    match sd with
    | LeftPaddle => Rabs (Ball.vx b)
    | RightPaddle => (- Rabs (Ball.vx b))%R
    end in
  let offset :=
    (IZR (Rect.centery brect - Rect.centery prect)
     / (IZR (Rect.h prect) / 2))%R in
  let vy1 := (Ball.vy b + offset * 150)%R in
  let speed := hypot vx1 vy1 in
  let '(vx2, vy2) :=
    if Rlt_dec speed MAX_BALL_SPEED then
      let scale := (1 + BALL_SPEED_INCREMENT / 10)%R in
      ((vx1 * scale)%R, (vy1 * scale)%R)
    else (vx1, vy1) in
  (Ball.mk brect x' (Ball.y b) vx2 vy2, speed).

(** One of the two collision blocks ([if ball.rect.colliderect(...)]). *)
Definition collide (sd : side) (settings : gmap string pyval)
    (draws : nat -> impact_draw) (g : Game) : Game :=
  let paddle := match sd with LeftPaddle => left g | RightPaddle => right g end in
  let brect := Ball.rect (ball g) in
  if Rect.colliderect brect (Paddle.rect paddle) then
    let '(ball', speed) := bounce sd (Paddle.rect paddle) (ball g) in
    let impact_strength := clamp (speed / BALL_SPEED_START) 0.8 3.0 in
    let particles' :=
      match sd with
      | LeftPaddle =>
          emit_particles (particles g) (Rect.left brect, Rect.centery brect)
                         1 settings impact_strength draws
      | RightPaddle =>
          emit_particles (particles g) (Rect.right brect, Rect.centery brect)
                         (-1) settings impact_strength draws
      end in
    let paddle' :=
      Paddle.mk (Paddle.rect paddle) (Paddle.y paddle) (Paddle.speed paddle)
                0.12%R in
    let shake_timer' := Rmax (shake_timer g) 0.12 in
    let shake_magnitude' :=
      Rmax (shake_magnitude g) (Rmin 18 (6 * impact_strength)) in
    mkGame (match sd with LeftPaddle => paddle' | RightPaddle => left g end)
           (match sd with LeftPaddle => right g | RightPaddle => paddle' end)
           ball' (score_left g) (score_right g) (paused g) particles'
           (trail g) shake_timer' shake_magnitude'
  else g.

(** The scoring block: from [scorer = None] to the raise of the screen
    shake.  Returns the new state and the value of [scorer]. *)
Definition score_block (settings : gmap string pyval)
    (burst : nat -> score_draw) (angle : R) (choice : Z) (g : Game)
    : Game * option Z :=
  let brect := Ball.rect (ball g) in
  let '(sl, sr, scorer) :=
    if Rect.right brect <? 0 then (score_left g, score_right g + 1, Some 1)
    else if Rect.left brect >? WIDTH
         then (score_left g + 1, score_right g, Some (-1))
         else (score_left g, score_right g, None) in
  match scorer with
  | Some sc =>
      let particles' :=
        emit_score_burst (particles g) (Z.div WIDTH 2, Z.div HEIGHT 2)
                         settings burst in
      let serve_dir := - sc in
      let ball' := Ball.reset angle choice (Some serve_dir) (ball g) in
      (mkGame (left g) (right g) ball' sl sr (paused g) particles' nil
              (Rmax (shake_timer g) 0.22) (Rmax (shake_magnitude g) 22),
       scorer)
  | None => (g, None)
  end.

(** What one iteration hands back: the state of the next iteration, or
    the fact that [run_game] returned [None]. *)
Inductive outcome : Type :=
| Returned
| Running (g : Game).

(** The win block, entered only when a point was scored.  [score_to_win]
    stands for the module constant [SCORE_TO_WIN] ([None] when unset);
    [quit_requested] is the value returned by [show_winner_and_wait].
    The first component is the text handed to [show_winner_and_wait],
    if it was called. *)
Definition win_block (score_to_win : option Z) (quit_requested : bool)
    (angle : R) (choice : Z) (g : Game) : option string * outcome :=
  match score_to_win with
  | Some n =>
      if (negb (n =? 0)) && (n >? 0) then
        if (score_left g >=? n) || (score_right g >=? n) then
          let winner := if score_left g >=? n then "Left" else "Right" in
          let winner_text := String.append winner " wins!" in
          if quit_requested then (Some winner_text, Returned)
          else
            (Some winner_text,
             Running (mkGame (left g) (right g)
                        (Ball.reset angle choice None (ball g))
                        0 0 false (particles g) nil
                        (shake_timer g) (shake_magnitude g)))
        else (None, Running g)
      else (None, Running g)
  | None => (None, Running g)
  end.

Definition SCORE_TO_WIN : option Z := Some 5.

(** Particle ageing and pruning, then the decay of the screen shake. *)
Definition effects_block (dt : R) (g : Game) : Game :=
  let particles' :=
    List.filter (fun p => negb (Particle.is_dead p))
           (map (Particle.update dt) (particles g)) in
  let '(st, sm) :=
    if Rgt_dec (shake_timer g) 0 then
      let st := Rmax 0 (shake_timer g - dt) in
      (st, if Rle_dec st 0 then 0%R else shake_magnitude g)
    else (shake_timer g, shake_magnitude g) in
  mkGame (left g) (right g) (ball g) (score_left g) (score_right g)
         (paused g) particles' (trail g) st sm.

(** The external values one iteration consumes. *)
Record FrameInput : Type := mkFrameInput {
  tick_ms : Z;                         (* clock.tick(FPS) *)
  left_draws : nat -> impact_draw;     (* particles of a left-paddle hit *)
  right_draws : nat -> impact_draw;    (* particles of a right-paddle hit *)
  burst_draws : nat -> score_draw;     (* particles of a score burst *)
  serve_angle : R;                     (* reset after a point *)
  serve_choice : Z;
  quit_requested : bool;               (* show_winner_and_wait(...) *)
  restart_angle : R;                   (* reset after a win *)
  restart_choice : Z
}.

(** AI, paddle and ball integration, and the trail. *)
Definition kinematics_block (settings : gmap string pyval) (right_ai : bool)
    (dt : R) (g : Game) : Game :=
  let right1 := if right_ai then ai_move (right g) (ball g) settings
                else right g in
  let left' := Paddle.move dt (left g) in
  let right' := Paddle.move dt right1 in
  let ball' := if negb (paused g) then Ball.update dt (ball g) else ball g in
  let trail' := update_trail (trail_life_sec settings) dt ball' (trail g) in
  mkGame left' right' ball' (score_left g) (score_right g) (paused g)
         (particles g) trail' (shake_timer g) (shake_magnitude g).

(** The part of an iteration that precedes the scoring block: movement,
    then the left and the right collision block. *)
Definition before_scoring (settings : gmap string pyval) (right_ai : bool)
    (inp : FrameInput) (g : Game) : Game :=
  let dt := frame_dt (tick_ms inp) in
  let g1 := kinematics_block settings right_ai dt g in
  let g2 := collide LeftPaddle settings (left_draws inp) g1 in
  collide RightPaddle settings (right_draws inp) g2.

(** One iteration of the [while running] loop. *)
Definition frame (score_to_win : option Z) (settings : gmap string pyval)
    (right_ai : bool) (inp : FrameInput) (g : Game) : option string * outcome :=
  let dt := frame_dt (tick_ms inp) in
  let g3 := before_scoring settings right_ai inp g in
  let '(g4, scorer) :=
    score_block settings (burst_draws inp) (serve_angle inp)
                (serve_choice inp) g3 in
  match scorer with
  | Some _ =>
      match win_block score_to_win (quit_requested inp) (restart_angle inp)
                      (restart_choice inp) g4 with
      | (banner, Returned) => (banner, Returned)
      | (banner, Running g5) => (banner, Running (effects_block dt g5))
      end
  | None => (None, Running (effects_block dt g4))
  end.

(** Iterate [frame] over the inputs of successive iterations. *)
Fixpoint run (score_to_win : option Z) (settings : gmap string pyval)
    (right_ai : bool) (inps : list FrameInput) (g : Game) : outcome :=
  match inps with
  | nil => Running g
  | inp :: rest =>
      match frame score_to_win settings right_ai inp g with
      | (_, Returned) => Returned
      | (_, Running g') => run score_to_win settings right_ai rest g'
      end
  end.

(** A settings object as the program holds it: every key of
    [DEFAULT_SETTINGS] is present and ["controls"] is a dictionary with
    an entry (a key code or [None]) for every action of
    [DEFAULT_CONTROLS]. *)
Definition settings_complete (s : gmap string pyval) : Prop :=
  dom DEFAULT_SETTINGS ⊆ dom s
  /\ exists c, s !! "controls" = Some (Dict c)
               /\ dom DEFAULT_CONTROLS ⊆ dom c.

(** The speed of the ball: the norm of its velocity. *)
Definition ball_speed (b : Ball.t) : R := hypot (Ball.vx b) (Ball.vy b).

(** The normalised hit position computed by a collision block. *)
Definition hit_offset (prect : Rect.t) (b : Ball.t) : R :=
  (IZR (Rect.centery (Ball.rect b) - Rect.centery prect)
   / (IZR (Rect.h prect) / 2))%R.

(** ** Sample states used to exercise the definitions *)

(** Random values of one impact particle, each at the low end of its
    range and with angle 0. *)
Definition still_draw : impact_draw := mkImpactDraw 80 0 0 0.18 2 (255, 220, 120).

(** The left paddle has been moved up by 50 pixels; the ball, served
    level toward the left, overlaps it. *)
Definition low_hit : Game :=
  mkGame (Paddle.mk (Rect.mk 20 200 12 100) 200 0 0)
         (Paddle.init 868 250)
         (Ball.mk (Rect.mk 25 293 14 14) 32 300 (-300) 0)
         0 0 false nil nil 0 0.

(** Random values of one particle of a score burst, chosen likewise. *)
Definition still_burst : score_draw := mkScoreDraw 120 0 0.5 3 (255, 220, 120).

(** A frame that took ten seconds; serves are level and to the right.
    [quit] tells whether the window is closed during a winner banner. *)
Definition blowout (quit : bool) : FrameInput :=
  mkFrameInput 10000 (fun _ => still_draw) (fun _ => still_draw)
               (fun _ => still_burst) 0 1 quit 0 1.

(** The ball right after a level serve to the right, and the same ball
    ten seconds later. *)
Definition serve_ball : Ball.t := Ball.mk (Rect.mk 443 293 14 14) 450 300 300 0.
Definition gone_ball : Ball.t := Ball.mk (Rect.mk 3443 293 14 14) 3450 300 300 0.

(** A paddle standing in its column. *)
Definition paddle_column (x0 : Z) (p : Paddle.t) : Prop :=
  Rect.x (Paddle.rect p) = x0
  /\ Rect.w (Paddle.rect p) = PADDLE_WIDTH
  /\ Rect.h (Paddle.rect p) = PADDLE_HEIGHT.

(** A running game whose ball has just been served level to the right. *)
Definition serving (g : Game) : Prop :=
  ball g = serve_ball /\ paused g = false
  /\ paddle_column 20 (left g) /\ paddle_column 868 (right g).

(** One point short of the match for the left side. *)
Definition match_point : Game :=
  mkGame (Paddle.init 20 250) (Paddle.init 868 250) serve_ball
         4 0 false nil nil 0 0.

(** The same hit at the paddle centre, the ball arriving just below
    [MAX_BALL_SPEED]. *)
Definition fast_hit : Game :=
  mkGame (Paddle.mk (Rect.mk 20 200 12 100) 200 0 0)
         (Paddle.init 868 250)
         (Ball.mk (Rect.mk 25 243 14 14) 32 250 (-1199) 0)
         0 0 false nil nil 0 0.

(** A particle flying to the right, half a second to live. *)
Definition spark : Particle.t :=
  Particle.init (0%R, 0%R) (100%R, 0%R) 0.5%R 2%R (255, 220, 120).

(** The render offset of the screen shake, computed near the end of an
    iteration: [ux] and [uy] are the two values drawn by
    [random.uniform(-mag, mag)]. *)
Definition shake_mag (shake_timer shake_magnitude : R) : R :=
  (shake_magnitude
   * (if Rlt_dec shake_timer 0.12 then shake_timer / 0.12 else 1))%R.

Definition shake_offset (shake_timer shake_magnitude ux uy : R) : Z * Z :=
  if Rgt_dec shake_timer 0 then
    if Rgt_dec shake_magnitude 0 then (py_int ux, py_int uy) else (0, 0)
  else (0, 0).

(** The screen shake within the limits its two sources (a paddle hit and
    a point) can raise it to. *)
Definition shake_bounded (g : Game) : Prop :=
  (0 <= shake_timer g <= 0.22)%R /\ (0 <= shake_magnitude g <= 22)%R.

(** Both scores short of [SCORE_TO_WIN = 5]. *)
Definition scores_in_play (g : Game) : Prop :=
  0 <= score_left g <= 4 /\ 0 <= score_right g <= 4.

(** ** The settings menu: reading and cycling a value *)

(** Python truth value of a stored object. *)
Definition truthy (v : pyval) : bool :=
  match v with
  | Atom PNone => false
  | Atom (PBool b) => b
  | Atom (PInt z) => negb (z =? 0)
  | Atom (PStr s) => negb (bool_decide (s = ""))
  | Dict d => negb (bool_decide (d = ∅))
  end.

(** [settings_get_label_value(settings, label)]. *)
Definition settings_get_label_value (settings : gmap string pyval)
    (label : string) : pyval :=
  if bool_decide (label = "AI Difficulty") then
    dict_get settings "ai_difficulty" (Atom (PStr "Normal"))
  else if bool_decide (label = "Particles") then
    dict_get settings "particle_quality" (Atom (PStr "Normal"))
  else if bool_decide (label = "Sound") then
    Atom (PStr (if truthy (dict_get settings "sound" (Atom (PBool true)))
                then "On" else "Off"))
  else Atom (PStr "").

(** [vals.index(cur)] on a list of strings; [None] stands for the
    [ValueError] raised when [cur] is not in the list. *)
Fixpoint list_index (vals : list string) (cur : pyval) : option nat :=
  match vals with
  | nil => None
  | v :: rest =>
      if eq_str cur v then Some 0%nat
      else match list_index rest cur with
           | Some i => Some (S i)
           | None => None
           end
  end.

(** The body shared by the Left, Right and Enter branches of
    [settings_menu] for an option with a value list: read the current
    value, step [delta] places around the list, store and save.  [None]
    stands for the exception [vals.index] raises. *)
Definition change_value (delta : Z) (label : string) (vals : list string)
    (settings : gmap string pyval) (fs : FS)
    : option (gmap string pyval * FS) :=
  match vals with
  | nil => Some (settings, fs)
  | _ :: _ =>
      let cur := settings_get_label_value settings label in
      match list_index vals cur with
      | None => None
      | Some i =>
          let j := Z.to_nat ((Z.of_nat i + delta) mod Z.of_nat (length vals)) in
          let new := nth j vals "" in
          let settings' := settings_set_label_value settings label new in
          Some (settings', save_settings settings' fs)
      end
  end.

(** The value lists of the [options] table of [settings_menu]. *)
Definition DIFFICULTIES : list string := "Easy" :: "Normal" :: "Hard" :: nil.
Definition QUALITIES : list string := "Low" :: "Normal" :: "High" :: nil.
Definition SOUNDS : list string := "Off" :: "On" :: nil.

(** ** Input: joystick polling and event dispatch of [run_game] *)

(** More pygame key codes. *)
Definition K_ESCAPE : Z := 27.
Definition K_RETURN : Z := 13.
Definition K_SPACE : Z := 32.
Definition K_BACKSPACE : Z := 8.
Definition K_DELETE : Z := 127.

(** What the loop reads from an initialised joystick. *)
Record Joystick : Type := mkJoystick {
  numaxes : Z;          (* get_numaxes() *)
  get_axis : Z -> R;    (* get_axis(i) *)
  numhats : Z;          (* get_numhats() *)
  get_hat0 : Z * Z      (* get_hat(0) *)
}.

Definition AXIS_DEADZONE : R := 0.20.

Definition set_speed (v : R) (p : Paddle.t) : Paddle.t :=
  Paddle.mk (Paddle.rect p) (Paddle.y p) v (Paddle.flash_timer p).

Definition with_left (p : Paddle.t) (g : Game) : Game :=
  mkGame p (right g) (ball g) (score_left g) (score_right g) (paused g)
         (particles g) (trail g) (shake_timer g) (shake_magnitude g).

Definition with_right (p : Paddle.t) (g : Game) : Game :=
  mkGame (left g) p (ball g) (score_left g) (score_right g) (paused g)
         (particles g) (trail g) (shake_timer g) (shake_magnitude g).

(** The speed an axis value commands: zero inside the dead zone. *)
Definition axis_speed (v : R) : R :=
  ((if Rlt_dec (Rabs v) AXIS_DEADZONE then 0 else v) * PADDLE_SPEED)%R.

(** Axis, then hat, of one joystick applied to one paddle. *)
Definition stick_to_paddle (j : Joystick) (p : Paddle.t) : Paddle.t :=
  let p1 := if numaxes j >? 1 then set_speed (axis_speed (get_axis j 1)) p
            else p in
  if numhats j >? 0 then
    let hat_y := snd (get_hat0 j) in
    if negb (hat_y =? 0) then set_speed (IZR (- hat_y) * PADDLE_SPEED)%R p1
    else p1
  else p1.

(** The [if JOYSTICKS:] block at the top of an iteration (no call on a
    joystick raising). *)
Definition poll_joysticks (joysticks : list Joystick) (g : Game) : Game :=
  match joysticks with
  | nil => g
  | j0 :: rest =>
      let g1 := with_left (stick_to_paddle j0 (left g)) g in
      match rest with
      | j1 :: _ => with_right (stick_to_paddle j1 (right g1)) g1
      | nil =>
          if numaxes j0 >? 3
          then with_right (set_speed (axis_speed (get_axis j0 3)) (right g1)) g1
          else g1
      end
  end.

Inductive Event : Type :=
| EvQuit
| EvJoyButtonDown (button : Z)
| EvJoyHatMotion (hat_x hat_y : Z) (joy : option Z)
| EvKeyDown (key : Z)
| EvKeyUp (key : Z)
| EvOther.

(** What handling one event leads to: [run_game] returns a value, an
    uncaught exception ends it, or the loop goes on with a new state and
    debug flag. *)
Inductive dispatch : Type :=
| Exit (result : option string)
| Crash
| Go (g : Game) (debug : bool).

(** [event.key == controls.get(action)]: an unbound or missing action
    compares unequal to every key; a stored boolean compares as 0 or 1. *)
Definition key_is (key : Z) (bound : option pyatom) : bool :=
  match bound with
  | Some (PInt z) => key =? z
  | Some (PBool b) => key =? (if b then 1 else 0)
  | _ => false
  end.

(** [settings.get("controls", {})] as a dictionary; [None] when the
    stored value has no [get] method. *)
Definition controls_of (settings : gmap string pyval)
    : option (gmap string pyatom) :=
  match settings !! "controls" with
  | None => Some ∅
  | Some (Dict c) => Some c
  | Some (Atom _) => None
  end.

(** Scores to zero, a fresh serve in a random direction, trail
    cleared. *)
Definition reset_match (angle : R) (choice : Z) (g : Game) : Game :=
  mkGame (left g) (right g) (Ball.reset angle choice None (ball g)) 0 0
         (paused g) (particles g) nil (shake_timer g) (shake_magnitude g).

(** The body of [for event in pg.event.get()]; [angle] and [choice] are
    the random values a reset would draw. *)
Definition handle_event (settings : gmap string pyval) (right_ai : bool)
    (angle : R) (choice : Z) (ev : Event) (g : Game) (debug : bool)
    : dispatch :=
  match ev with
  | EvQuit => Exit None
  | EvJoyButtonDown b =>
      if b =? 0 then Go (reset_match angle choice g) debug
      else if b =? 1 then Exit (Some "menu")
      else if b =? 2 then Go g (negb debug)
      else Go g debug
  | EvJoyHatMotion _ hat_y jid =>
      match jid with
      | Some 0 =>
          Go (with_left (set_speed (IZR (- hat_y) * PADDLE_SPEED)%R (left g)) g)
             debug
      | Some 1 =>
          Go (with_right (set_speed (IZR (- hat_y) * PADDLE_SPEED)%R (right g)) g)
             debug
      | _ => Go g debug
      end
  | EvKeyDown key =>
      match controls_of settings with
      | None => Crash
      | Some controls =>
          if key_is key (controls !! "left_up") then
            Go (with_left (set_speed (- PADDLE_SPEED)%R (left g)) g) debug
          else if key_is key (controls !! "left_down") then
            Go (with_left (set_speed PADDLE_SPEED (left g)) g) debug
          else if key_is key (controls !! "right_up") && negb right_ai then
            Go (with_right (set_speed (- PADDLE_SPEED)%R (right g)) g) debug
          else if key_is key (controls !! "right_down") && negb right_ai then
            Go (with_right (set_speed PADDLE_SPEED (right g)) g) debug
          else if key_is key (controls !! "reset") then
            Go (reset_match angle choice g) debug
          else if key_is key (controls !! "menu") then Exit (Some "menu")
          else if key_is key (controls !! "debug") then Go g (negb debug)
          else if key =? K_ESCAPE then Exit None
          else Go g debug
      end
  | EvKeyUp key =>
      match controls_of settings with
      | None => Crash
      | Some controls =>
          let stop (action : string) (moving : R -> bool) (p : Paddle.t) :=
            if key_is key (controls !! action) && moving (Paddle.speed p)
            then set_speed 0%R p else p in
          let up (v : R) := if Rlt_dec v 0 then true else false in
          let down (v : R) := if Rgt_dec v 0 then true else false in
          let l1 := stop "left_up" up (left g) in
          let l2 := stop "left_down" down l1 in
          let r1 := stop "right_up" up (right g) in
          let r2 := stop "right_down" down r1 in
          Go (with_right r2 (with_left l2 g)) debug
      end
  | EvOther => Go g debug
  end.

(** The whole [for] loop over the pending events; [draws k] are the
    random values available to event number [k]. *)
Fixpoint dispatch_events (settings : gmap string pyval) (right_ai : bool)
    (draws : nat -> R * Z) (k : nat) (evs : list Event) (g : Game)
    (debug : bool) : dispatch :=
  match evs with
  | nil => Go g debug
  | ev :: rest =>
      match handle_event settings right_ai (fst (draws k)) (snd (draws k))
                         ev g debug with
      | Go g' debug' =>
          dispatch_events settings right_ai draws (S k) rest g' debug'
      | stop => stop
      end
  end.

(** ** The rebinding menu: [controls_rebind_menu] *)

(** The seven rebindable actions, in menu order. *)
Definition ACTIONS : list string :=
  "left_up" :: "left_down" :: "right_up" :: "right_down" :: "reset"
  :: "menu" :: "debug" :: nil.

(** The keys of the [actions] table: the seven actions, then the three
    commands. *)
Definition MENU_KEYS : list string :=
  ACTIONS ++ "__reset_defaults__" :: "__apply__" :: "__back__" :: nil.

(** Python truth value of a stored binding. *)
Definition bound (v : pyatom) : bool := truthy (Atom v).

(** The local state of the menu loop.  [awaiting] is the action waiting
    for a key ([awaiting_key] is true exactly when
    [awaiting_action_key] is set). *)
Record Rebind : Type := mkRebind {
  selected : Z;
  awaiting : option string;
  bindings : gmap string pyatom;
  menu_settings : gmap string pyval;
  menu_fs : FS
}.

Inductive rebind_step : Type :=
| Returns (result : option (gmap string pyval)) (fs : FS)
| Next (st : Rebind).

(** The state on entry; [None] when [settings.get("controls", {})] has
    no [copy] method. *)
Definition rebind_enter (settings : gmap string pyval) (fs : FS)
    : option Rebind :=
  match controls_of settings with
  | Some c => Some (mkRebind 0 None c settings fs)
  | None => None
  end.

(** [all_unbound]: no binding has a true value. *)
Definition all_unbound (b : gmap string pyatom) : bool :=
  bool_decide (map_Forall (fun _ v => bound v = false) b).

(** One event of the menu loop.  [confirm] is the answer of the
    "you have unbound all keys" popup, asked only on Apply with nothing
    bound. *)
Definition rebind_event (confirm : bool) (ev : Event) (st : Rebind)
    : rebind_step :=
  match ev with
  | EvQuit => Returns None (menu_fs st)
  | EvKeyDown key =>
      match awaiting st with
      | Some action =>
          if key =? K_ESCAPE then
            Next (mkRebind (selected st) None (bindings st)
                           (menu_settings st) (menu_fs st))
          else if (key =? K_BACKSPACE) || (key =? K_DELETE) then
            Next (mkRebind (selected st) None
                           (<[action := PNone]> (bindings st))
                           (menu_settings st)
                           (save_settings (menu_settings st) (menu_fs st)))
          else
            Next (mkRebind (selected st) None
                           (<[action := PInt key]> (bindings st))
                           (menu_settings st)
                           (save_settings (menu_settings st) (menu_fs st)))
      | None =>
          let n := Z.of_nat (length MENU_KEYS) in
          let key_at := nth (Z.to_nat (selected st)) MENU_KEYS "" in
          if (key =? K_UP) || (key =? K_w) then
            Next (mkRebind ((selected st - 1) mod n) None (bindings st)
                           (menu_settings st) (menu_fs st))
          else if (key =? K_DOWN) || (key =? K_s) then
            Next (mkRebind ((selected st + 1) mod n) None (bindings st)
                           (menu_settings st) (menu_fs st))
          else if (key =? K_RETURN) || (key =? K_SPACE) then
            if bool_decide (key_at = "__back__") then
              Returns (Some (menu_settings st)) (menu_fs st)
            else if bool_decide (key_at = "__reset_defaults__") then
              Next (mkRebind (selected st) None DEFAULT_CONTROLS
                             (menu_settings st) (menu_fs st))
            else if bool_decide (key_at = "__apply__") then
              if all_unbound (bindings st) && negb confirm then Next st
              else
                let settings' := apply_bindings (menu_settings st) (bindings st) in
                Returns (Some settings') (save_settings settings' (menu_fs st))
            else
              Next (mkRebind (selected st) (Some key_at) (bindings st)
                             (menu_settings st) (menu_fs st))
          else if key =? K_ESCAPE then
            Returns (Some (menu_settings st)) (menu_fs st)
          else if (key =? K_BACKSPACE) || (key =? K_DELETE) then
            if bool_decide (key_at = "__back__")
               || bool_decide (key_at = "__reset_defaults__")
               || bool_decide (key_at = "__apply__")
            then Next st
            else Next (mkRebind (selected st) None
                                (<[key_at := PNone]> (bindings st))
                                (menu_settings st) (menu_fs st))
          else Next st
      end
  | _ => Next st
  end.

(** The menu loop over a sequence of events, each with the answer the
    popup would give. *)
Fixpoint rebind_run (evs : list (Event * bool)) (st : Rebind) : rebind_step :=
  match evs with
  | nil => Next st
  | (ev, confirm) :: rest =>
      match rebind_event confirm ev st with
      | Next st' => rebind_run rest st'
      | done => done
      end
  end.

(** What the menu loop maintains between events. *)
Definition rebind_inv (settings : gmap string pyval) (st : Rebind) : Prop :=
  menu_settings st = settings
  /\ 0 <= selected st < 10
  /\ dom DEFAULT_CONTROLS ⊆ dom (bindings st).

(** ** Values computed for rendering and for the debug overlay *)

Definition WHITE : Z * Z * Z := (240, 240, 240).
Definition ACCENT : Z * Z * Z := (100, 200, 255).

(** The colour [Paddle.draw] paints the paddle with. *)
Definition paddle_color (p : Paddle.t) : Z * Z * Z :=
  if Rgt_dec (Paddle.flash_timer p) 0 then
    let frac := (Paddle.flash_timer p / 0.12)%R in
    let mix (w a : Z) := py_int (IZR w * (1 - frac) + IZR a * frac) in
    let '(wr, wg, wb) := WHITE in
    let '(ar, ag, ab) := ACCENT in
    (mix wr ar, mix wg ag, mix wb ab)
  else WHITE.

(** The flash timers of both paddles within the 0.12 seconds a hit sets
    them to. *)
Definition flash_bounded (g : Game) : Prop :=
  (0 <= Paddle.flash_timer (left g) <= 0.12)%R
  /\ (0 <= Paddle.flash_timer (right g) <= 0.12)%R.

(** The alpha [Particle.draw] uses; [None] when the particle is dead and
    nothing is drawn. *)
Definition particle_alpha (p : Particle.t) : option Z :=
  if Rge_dec (Particle.age p) (Particle.life p) then None
  else Some (Z.max 0 (py_int (255 * (1 - Particle.age p / Particle.life p)))).

Definition MAX_SAMPLES : nat := 200.

(** The three timing lists of the debug overlay after one more frame:
    append the sample to each, then drop the oldest entries once the
    first list holds more than [MAX_SAMPLES]. *)
Definition record_sample (times : list R * list R * list R) (sample : R * R * R)
    : list R * list R * list R :=
  let '(frame_times, update_times, draw_times) := times in
  let '(f, u, d) := sample in
  let ft := frame_times ++ f :: nil in
  let ut := update_times ++ u :: nil in
  let dt := draw_times ++ d :: nil in
  if (MAX_SAMPLES <? length ft)%nat then (tl ft, tl ut, tl dt)
  else (ft, ut, dt).

(** ** Message wrapping of [colored_confirm_popup] *)

(** The space character, code 32. *)
Definition SPACE : Ascii.ascii :=
  Ascii.Ascii false false false false false true false false.

(** [message.split(" ")]: the pieces between single spaces; two spaces
    in a row give an empty piece. *)
Fixpoint split_space (s : string) : list string :=
  match s with
  | EmptyString => EmptyString :: nil
  | String c rest =>
      if Ascii.eqb c SPACE then EmptyString :: split_space rest
      else match split_space rest with
           | w :: ws => String c w :: ws
           | nil => String c EmptyString :: nil
           end
  end.

(** The characters [str.strip()] removes, among the ASCII ones. *)
Definition is_space (c : Ascii.ascii) : bool :=
  let n := Ascii.nat_of_ascii c in
  ((9 <=? n) && (n <=? 13) || (28 <=? n) && (n <=? 32))%nat.

Fixpoint lstrip (s : string) : string :=
  match s with
  | EmptyString => EmptyString
  | String c rest => if is_space c then lstrip rest else s
  end.

Fixpoint rstrip (s : string) : string :=
  match s with
  | EmptyString => EmptyString
  | String c rest =>
      match rstrip rest with
      | EmptyString => if is_space c then EmptyString else String c EmptyString
      | r => String c r
      end
  end.

(** [s.strip()]. *)
Definition strip (s : string) : string := lstrip (rstrip s).

(** The [for word in words] loop and the final [if line:], with [line]
    the line being filled; the result is what is appended to
    [msg_lines]. *)
Fixpoint wrap_words (words : list string) (line : string) : list string :=
  match words with
  | nil => if bool_decide (line = EmptyString) then nil else line :: nil
  | word :: rest =>
      if (60 <? String.length line + String.length word + 1)%nat
      then line :: wrap_words rest word
      else wrap_words rest
             (strip (String.append line (String.append " " word)))
  end.

(** The lines the popup shows for a message. *)
Definition wrap_message (message : string) : list string :=
  wrap_words (split_space message) EmptyString.

(** * Theorems *)

(** Case analysis on every comparison of reals in the goal. *)
Ltac real_cases :=
  repeat match goal with
  | |- context [Rle_dec ?a ?b] => destruct (Rle_dec a b)
  | |- context [Rlt_dec ?a ?b] => destruct (Rlt_dec a b)
  | |- context [Rge_dec ?a ?b] => destruct (Rge_dec a b)
  | |- context [Rgt_dec ?a ?b] => destruct (Rgt_dec a b)
  end.

(** Expose the numeric values of the configuration constants. *)
Ltac unfold_consts :=
  unfold WIDTH, HEIGHT, PADDLE_WIDTH, PADDLE_HEIGHT, PADDLE_SPEED, BALL_SIZE,
    BALL_SPEED_START, BALL_SPEED_INCREMENT, MAX_BALL_SPEED in *.

(** ** Facts about [py_int] *)

Section PyInt.
Local Open Scope R_scope.

Lemma py_int_unique (z : Z) (r : R) :
  0 <= r -> IZR z <= r < IZR z + 1 -> py_int r = z.
Proof.
  intros Hr Hz. unfold py_int. destruct (Rle_dec 0 r) as [_|n]; [|lra].
  symmetry. apply Int_part_spec. lra.
Qed.

Lemma py_int_unique_neg (z : Z) (r : R) :
  r <= 0 -> IZR z - 1 < r <= IZR z -> py_int r = z.
Proof.
  intros Hr Hz. unfold py_int. destruct (Rle_dec 0 r) as [H0|n].
  - assert (z < 1)%Z by (apply lt_IZR; lra).
    assert (0 <= z)%Z by (apply le_IZR; lra).
    assert (z = 0%Z) by lia. subst z.
    symmetry. apply Int_part_spec. lra.
  - assert (E : (- z)%Z = Int_part (- r)).
    { apply Int_part_spec. rewrite opp_IZR. lra. }
    rewrite <- E. lia.
Qed.

Lemma py_int_IZR (z : Z) : py_int (IZR z) = z.
Proof.
  destruct (Rle_dec 0 (IZR z)).
  - apply py_int_unique; lra.
  - apply py_int_unique_neg; lra.
Qed.

Lemma py_int_floor (r : R) :
  0 <= r -> IZR (py_int r) <= r < IZR (py_int r) + 1.
Proof.
  intros Hr. unfold py_int. destruct (Rle_dec 0 r) as [_|n]; [|lra].
  destruct (base_Int_part r). lra.
Qed.

Lemma py_int_ge (r : R) (z : Z) : IZR z <= r -> (0 <= z)%Z -> (z <= py_int r)%Z.
Proof.
  intros Hz H0. assert (0 <= r) by (apply IZR_le in H0; lra).
  destruct (py_int_floor r) as [_ Hu]; [assumption|].
  apply Z.lt_succ_r. apply lt_IZR. rewrite succ_IZR. lra.
Qed.

Lemma py_int_le (r : R) (z : Z) : 0 <= r <= IZR z -> (py_int r <= z)%Z.
Proof.
  intros [H0 Hz]. destruct (py_int_floor r) as [Hl _]; [assumption|].
  apply le_IZR. lra.
Qed.

End PyInt.

Section Kinematics.
Local Open Scope R_scope.

(** In exact arithmetic the two stops of [Paddle.move] do what they are
    written for: for a paddle of the height [PADDLE_HEIGHT] and any time
    step the position afterwards lies in [[0, HEIGHT - PADDLE_HEIGHT]],
    and the velocity field is the one the paddle had before the move. *)
Lemma paddle_move_exact_range (p : Paddle.t) (dt : R) :
  Rect.h (Paddle.rect p) = PADDLE_HEIGHT ->
  0 <= Paddle.y (Paddle.move dt p)
  /\ Paddle.y (Paddle.move dt p) + IZR PADDLE_HEIGHT <= IZR HEIGHT
  /\ (0 <= Rect.y (Paddle.rect (Paddle.move dt p)) <= HEIGHT - PADDLE_HEIGHT)%Z
  /\ Paddle.speed (Paddle.move dt p) = Paddle.speed p.
Proof.
  intros Hh.
  assert (Hy : 0 <= Paddle.y (Paddle.move dt p) <= IZR (HEIGHT - PADDLE_HEIGHT)).
  { unfold Paddle.move; cbn [Paddle.y]. rewrite Hh. unfold_consts.
    rewrite minus_IZR. split; real_cases; lra. }
  split; [apply Hy|].
  split; [revert Hy; unfold_consts; rewrite minus_IZR; lra|].
  split; [|reflexivity].
  change (Rect.y (Paddle.rect (Paddle.move dt p)))
    with (py_int (Paddle.y (Paddle.move dt p))).
  split; [apply py_int_ge; [lra|lia] | apply py_int_le; exact Hy].
Qed.

(** C4. The claim does not hold of the running program.  The second
    test of [Paddle.move] is [self.y + self.rect.height > HEIGHT], and in
    double precision the sum can round down to [HEIGHT] while [self.y]
    is above [HEIGHT - PADDLE_HEIGHT].  From the bottom of the board,
    two frames of 7 ms moving up and then frames of 6 ms and 8 ms moving
    down leave the position at the first double above 500: the test does
    not fire ([y + 100] is 600 exactly), the position is outside
    [[0, HEIGHT - PADDLE_HEIGHT]], and a further frame with the paddle
    at rest leaves it there.  The integer rectangle still starts at
    500, and the velocity is the one set by the key. *)
Theorem paddle_move_rounding_escape :
  exists p : Paddle64.t,
    Paddle64.drive Paddle64.up_and_back Paddle64.bottom_stop = Some p
    /\ Paddle64.y p = next_up 500
    /\ (Z2float (HEIGHT - PADDLE_HEIGHT) <? Paddle64.y p)%float = true
    /\ (Z2float HEIGHT <? Paddle64.y p + Z2float PADDLE_HEIGHT)%float = false
    /\ Rect.y (Paddle64.rect p) = 500%Z
    /\ Paddle64.speed p = 360%float
    /\ Paddle64.drive ((0%float, 7%Z) :: nil) p
       = Some (Paddle64.mk (Paddle64.rect p) (next_up 500) 0 0).
Proof.
  exists (Paddle64.mk (Rect.mk 20 500 12 100) (next_up 500) 360 0).
  vm_compute. repeat split; reflexivity.
Qed.

Lemma ball_update_x (dt : R) (b : Ball.t) :
  Ball.x (Ball.update dt b) = Ball.x b + Ball.vx b * dt.
Proof.
  unfold Ball.update. destruct (Rle_dec _ _); cbv beta iota zeta;
    destruct (Rge_dec _ _); reflexivity.
Qed.

Lemma ball_update_vx (dt : R) (b : Ball.t) :
  Ball.vx (Ball.update dt b) = Ball.vx b.
Proof.
  unfold Ball.update. destruct (Rle_dec _ _); cbv beta iota zeta;
    destruct (Rge_dec _ _); reflexivity.
Qed.

(** C3. For every ball and every [dt >= 0], after [Ball.update] the
    vertical centre lies in [[halfSize, HEIGHT - halfSize]] with
    [halfSize = BALL_SIZE / 2], and the vertical velocity is negated
    exactly once when the integrated position reached or passed the top
    or the bottom bound, and left as it was otherwise. *)
Theorem ball_update_bounce (b : Ball.t) (dt : R) :
  Rect.h (Ball.rect b) = BALL_SIZE ->
  0 <= dt ->
  let half := IZR BALL_SIZE / 2 in
  let y1 := Ball.y b + Ball.vy b * dt in
  let crossed := y1 - half <= 0 \/ y1 + half >= IZR HEIGHT in
  half <= Ball.y (Ball.update dt b) <= IZR HEIGHT - half
  /\ (crossed -> Ball.vy (Ball.update dt b) = - Ball.vy b)
  /\ (~ crossed -> Ball.vy (Ball.update dt b) = Ball.vy b)
  /\ (Ball.vy b <> 0 ->
      (Ball.vy (Ball.update dt b) = - Ball.vy b <-> crossed)).
Proof.
  intros Hh _ half y1 crossed. subst half y1 crossed.
  unfold Ball.update. rewrite Hh. unfold_consts.
  destruct (Rle_dec (Ball.y b + Ball.vy b * dt - 14 / 2) 0) as [Ht|Ht];
    cbv beta iota zeta;
    match goal with
    | |- context [Rge_dec ?a ?c] => destruct (Rge_dec a c) as [Hb|Hb]
    end; cbn [Ball.y Ball.vy];
    (split; [lra|]); (split; [intros; lra|]);
    (split; [intros Hn; try lra; exfalso; apply Hn; lra|]);
    intros Hv; split; intros H; lra.
Qed.

Lemma ball_update_bounce_witness :
  let b := Ball.mk (Rect.mk 443 3 14 14) 450 10 300 (-200) in
  let half := IZR BALL_SIZE / 2 in
  half <= Ball.y (Ball.update 0.05 b) <= IZR HEIGHT - half
  /\ Ball.vy (Ball.update 0.05 b) = 200.
Proof.
  intros b half.
  destruct (ball_update_bounce b 0.05) as (Hy & Hc & _);
    [reflexivity | lra |].
  split; [exact Hy|].
  rewrite Hc; [simpl; lra|]. left. simpl. unfold_consts. lra.
Defined.

(** C10. After [Ball.reset] with a requested direction [d] in [{-1, 1}]
    the ball sits at the board centre [(450, 300)], the horizontal
    velocity has the sign of [d], [|vx|] lies in
    [[BALL_SPEED_START, 1.5 * BALL_SPEED_START] = [300, 450]] (so it is
    never zero) and [|vy| <= BALL_SPEED_START]. *)
Theorem ball_reset_serve (angle : R) (choice d : Z) (b : Ball.t) :
  -0.5 <= angle <= 0.5 ->
  (d = -1 \/ d = 1)%Z ->
  let b' := Ball.reset angle choice (Some d) b in
  Ball.x b' = 450 /\ Ball.y b' = 300
  /\ Rect.centerx (Ball.rect b') = 450%Z /\ Rect.centery (Ball.rect b') = 300%Z
  /\ (d = 1%Z -> 0 < Ball.vx b') /\ (d = (-1)%Z -> Ball.vx b' < 0)
  /\ BALL_SPEED_START <= Rabs (Ball.vx b') <= 1.5 * BALL_SPEED_START
  /\ BALL_SPEED_START = 300
  /\ Rabs (Ball.vx b') <> 0
  /\ Rabs (Ball.vy b') <= BALL_SPEED_START.
Proof.
  intros Ha Hd b'. subst b'. unfold Ball.reset.
  cbn [Ball.x Ball.y Ball.vx Ball.vy Ball.rect].
  change (Z.div WIDTH 2) with 450%Z. change (Z.div HEIGHT 2) with 300%Z.
  rewrite !py_int_IZR. unfold_consts.
  assert (Hab : 0 <= Rabs angle <= 0.5).
  { split; [apply Rabs_pos|]. apply Rabs_le. lra. }
  assert (Hvx : 300 <= Rabs (IZR d * 300 * (1 + Rabs angle)) <= 1.5 * 300).
  { destruct Hd as [-> | ->].
    - rewrite Rabs_left by nra. nra.
    - rewrite Rabs_right by nra. nra. }
  repeat split; try lra.
  - unfold Rect.centerx, Rect.set_center; cbn. lia.
  - unfold Rect.centery, Rect.set_center; cbn. lia.
  - intros ->. nra.
  - intros ->. nra.
  - apply Rabs_le. nra.
Qed.

Lemma ball_reset_serve_witness :
  let b' := Ball.reset 0.25 1 (Some (-1)%Z) (Ball.init 0 1) in
  Ball.x b' = 450 /\ Ball.vx b' < 0 /\ Rabs (Ball.vy b') <= BALL_SPEED_START.
Proof.
  intro b'.
  destruct (ball_reset_serve 0.25 1 (-1) (Ball.init 0 1))
    as (Hx & _ & _ & _ & _ & Hneg & _ & _ & _ & Hvy); [lra | lia |].
  split; [exact Hx|]. split; [apply Hneg; reflexivity | exact Hvy].
Defined.

End Kinematics.

Section Controller.
Local Open Scope R_scope.

Lemma dict_get_lookup {A : Type} (d : gmap string A) (k : string) (v dflt : A) :
  d !! k = Some v -> dict_get d k dflt = v.
Proof. intros H. unfold dict_get. rewrite H. reflexivity. Qed.

(** C9. With difficulty "Easy": when the ball's vertical centre is within
    14 pixels of the paddle's vertical centre (both read from the
    rectangles, as the controller does), [ai_move] sets the paddle
    velocity to zero; otherwise the velocity has magnitude exactly
    [0.7 * PADDLE_SPEED] and points toward the ball (positive, i.e.
    downward, when the ball is below the paddle centre). *)
Theorem ai_move_easy (paddle : Paddle.t) (ball0 : Ball.t)
    (settings : gmap string pyval) :
  settings !! "ai_difficulty" = Some (Atom (PStr "Easy")) ->
  let pc := Rect.centery (Paddle.rect paddle) in
  let bc := Rect.centery (Ball.rect ball0) in
  let v := Paddle.speed (ai_move paddle ball0 settings) in
  ((Z.abs (bc - pc) <= 14)%Z -> v = 0)
  /\ ((14 < Z.abs (bc - pc))%Z ->
      Rabs v = 0.7 * PADDLE_SPEED
      /\ ((pc < bc)%Z -> v = 0.7 * PADDLE_SPEED)
      /\ ((bc < pc)%Z -> v = - (0.7 * PADDLE_SPEED))).
Proof.
  intros Hs pc bc v. subst v. unfold ai_move.
  rewrite (dict_get_lookup _ _ _ _ Hs). cbn [eq_str].
  rewrite bool_decide_eq_true_2 by reflexivity.
  cbn [Paddle.speed]. fold pc bc. unfold_consts. split.
  - intros Hn.
    assert (IZR bc - 14 <= IZR pc <= IZR bc + 14).
    { split; [rewrite <- minus_IZR | rewrite <- plus_IZR]; apply IZR_le; lia. }
    real_cases; lra.
  - intros Hf. destruct (Z_lt_le_dec pc (bc - 14)) as [Hlt|Hge].
    + assert (IZR pc < IZR bc - 14) by (rewrite <- minus_IZR; apply IZR_lt; lia).
      real_cases; try lra.
      rewrite Rabs_right by lra. repeat split; intros; try lra; lia.
    + assert (Hgt : (bc + 14 < pc)%Z) by lia.
      assert (IZR bc + 14 < IZR pc) by (rewrite <- plus_IZR; apply IZR_lt; lia).
      real_cases; try lra.
      rewrite Rabs_left by lra. repeat split; intros; try lra; lia.
Qed.

Lemma ai_move_easy_witness :
  let settings := <["ai_difficulty" := Atom (PStr "Easy")]> DEFAULT_SETTINGS in
  let paddle := Paddle.init 868 250 in
  let far := Ball.mk (Rect.mk 443 393 14 14) 450 400 300 0 in
  Paddle.speed (ai_move paddle far settings) = 0.7 * PADDLE_SPEED.
Proof.
  intros settings paddle far.
  destruct (ai_move_easy paddle far settings) as [_ Hfar];
    [apply lookup_insert_eq|].
  destruct Hfar as (_ & Hdown & _); [vm_compute; reflexivity|].
  apply Hdown. vm_compute. reflexivity.
Defined.

Lemma impact_count_bounds (settings : gmap string pyval) (intensity : R) :
  (2 <= impact_count settings intensity <= 200)%Z.
Proof. unfold impact_count. lia. Qed.

Lemma emit_particles_length l pos direction settings intensity draws :
  length (emit_particles l pos direction settings intensity draws)
  = (length l + Z.to_nat (impact_count settings intensity))%nat.
Proof.
  unfold emit_particles. rewrite length_app, length_map, length_seq.
  reflexivity.
Qed.

Lemma particle_count_low (s : gmap string pyval) (base : Z) :
  s !! "particle_quality" = Some (Atom (PStr "Low")) ->
  get_particle_count s base = Z.max 1 (py_int (IZR base * 0.5)).
Proof.
  intros H. unfold get_particle_count. rewrite (dict_get_lookup _ _ _ _ H).
  reflexivity.
Qed.

Lemma particle_count_high (s : gmap string pyval) (base : Z) :
  s !! "particle_quality" = Some (Atom (PStr "High")) ->
  get_particle_count s base = py_int (IZR base * 1.8).
Proof.
  intros H. unfold get_particle_count. rewrite (dict_get_lookup _ _ _ _ H).
  reflexivity.
Qed.

Lemma particle_count_normal (s : gmap string pyval) (base : Z) :
  s !! "particle_quality" = Some (Atom (PStr "Normal")) ->
  get_particle_count s base = base.
Proof.
  intros H. unfold get_particle_count. rewrite (dict_get_lookup _ _ _ _ H).
  reflexivity.
Qed.

(** C8 (as amended). An impact burst emits between 2 and 200 particles
    for every settings object and every intensity; and for every base
    count of at least 2 (the game uses 12 and 48) the counts returned by
    [get_particle_count] satisfy Low < Normal < High. *)
Theorem particle_count_bounds_and_order :
  (forall l pos direction settings intensity draws,
     exists n : Z,
       (2 <= n <= 200)%Z
       /\ length (emit_particles l pos direction settings intensity draws)
          = (length l + Z.to_nat n)%nat)
  /\ (forall (lo no hi : gmap string pyval) (base : Z),
        lo !! "particle_quality" = Some (Atom (PStr "Low")) ->
        no !! "particle_quality" = Some (Atom (PStr "Normal")) ->
        hi !! "particle_quality" = Some (Atom (PStr "High")) ->
        (2 <= base)%Z ->
        (get_particle_count lo base < get_particle_count no base
         < get_particle_count hi base)%Z).
Proof.
  split.
  - intros. exists (impact_count settings intensity).
    split; [apply impact_count_bounds | apply emit_particles_length].
  - intros lo no hi base Hlo Hno Hhi Hb.
    rewrite (particle_count_low _ _ Hlo), (particle_count_normal _ _ Hno),
      (particle_count_high _ _ Hhi).
    assert (HbR : 2 <= IZR base) by (apply IZR_le in Hb; exact Hb).
    destruct (py_int_floor (IZR base * 0.5)) as [Hl _]; [lra|].
    destruct (py_int_floor (IZR base * 1.8)) as [_ Hh]; [lra|].
    split.
    + assert (py_int (IZR base * 0.5) < base)%Z by (apply lt_IZR; lra). lia.
    + apply lt_IZR. lra.
Qed.

Lemma particle_count_bounds_and_order_witness :
  (get_particle_count (<["particle_quality" := Atom (PStr "Low")]> DEFAULT_SETTINGS) 12
   < get_particle_count DEFAULT_SETTINGS 12
   < get_particle_count (<["particle_quality" := Atom (PStr "High")]> DEFAULT_SETTINGS) 12)%Z.
Proof.
  apply (proj2 particle_count_bounds_and_order);
    [apply lookup_insert_eq | reflexivity | apply lookup_insert_eq | lia].
Defined.

(** C8 as first stated does not hold: at base count 1 the three qualities
    all yield one particle. *)
Lemma particle_order_fails_at_base_1 :
  ~ (get_particle_count (<["particle_quality" := Atom (PStr "Low")]> DEFAULT_SETTINGS) 1
     < get_particle_count DEFAULT_SETTINGS 1
     < get_particle_count (<["particle_quality" := Atom (PStr "High")]> DEFAULT_SETTINGS) 1)%Z.
Proof.
  rewrite (particle_count_low _ 1) by apply lookup_insert_eq.
  rewrite (particle_count_normal _ 1) by reflexivity.
  rewrite (py_int_unique 0 (1 * 0.5)) by lra.
  lia.
Qed.

End Controller.

Section Persistence.

Lemma union_absorb {A : Type} (m d : gmap string A) :
  dom d ⊆ dom m -> m ∪ d = m.
Proof.
  intros Hsub. apply map_eq. intros k. rewrite lookup_union.
  destruct (m !! k) as [v|] eqn:Hm.
  - destruct (d !! k); reflexivity.
  - assert (Hd : d !! k = None).
    { apply not_elem_of_dom. intros Hin. apply Hsub in Hin.
      apply elem_of_dom in Hin. rewrite Hm in Hin. destruct Hin; discriminate. }
    rewrite Hd. reflexivity.
Qed.

Lemma merge_settings_complete (data : gmap string pyval) :
  settings_complete data -> merge_settings data = data.
Proof.
  intros [Hdom (c & Hc & Hcdom)]. unfold merge_settings. rewrite Hc.
  rewrite (union_absorb c) by exact Hcdom.
  rewrite (union_absorb data) by exact Hdom.
  apply insert_id. exact Hc.
Qed.

Lemma merge_settings_is_complete (data : gmap string pyval) :
  settings_complete (merge_settings data).
Proof.
  unfold merge_settings, settings_complete. split.
  - rewrite dom_insert_L, dom_union_L.
    apply union_subseteq_r', union_subseteq_r.
  - eexists. split; [apply lookup_insert_eq|].
    destruct (data !! "controls") as [[a|c]|]; try reflexivity.
    rewrite dom_union_L. apply union_subseteq_r.
Qed.

(** Whatever the file holds, [load_settings] hands the program a
    complete settings object. *)
Lemma load_settings_complete (fs : FS) : settings_complete (load_settings fs).
Proof.
  assert (Hd : settings_complete DEFAULT_SETTINGS).
  { split; [reflexivity|]. exists DEFAULT_CONTROLS. split; reflexivity. }
  assert (Hd' : settings_complete
                  (<["controls" := Dict DEFAULT_CONTROLS]> DEFAULT_SETTINGS)).
  { rewrite insert_id by reflexivity. exact Hd. }
  unfold load_settings.
  destruct (primary_file fs) as [[[data|]|]|]; auto using merge_settings_is_complete.
Qed.

(** The settings menu keeps the object complete. *)
Lemma settings_set_label_value_complete (s : gmap string pyval) (label value : string) :
  settings_complete s -> settings_complete (settings_set_label_value s label value).
Proof.
  intros [Hdom (c & Hc & Hcdom)]. unfold settings_set_label_value.
  repeat case_bool_decide; try (split; [exact Hdom | eauto]);
    (split; [rewrite dom_insert_L; apply union_subseteq_r'; exact Hdom
            | exists c; split; [rewrite lookup_insert_ne by discriminate; exact Hc
                               | exact Hcdom]]).
Qed.

(** Clearing or rebinding an action and committing keeps it complete. *)
Lemma apply_bindings_complete (s : gmap string pyval) (c : gmap string pyatom)
    (action : string) (key : pyatom) :
  settings_complete s ->
  s !! "controls" = Some (Dict c) ->
  settings_complete (apply_bindings s (<[action := key]> c)).
Proof.
  intros [Hdom (c' & Hc' & Hcdom)] Hc. rewrite Hc in Hc'. injection Hc' as <-.
  unfold apply_bindings. split.
  - rewrite dom_insert_L. apply union_subseteq_r'; exact Hdom.
  - eexists. split; [apply lookup_insert_eq|]. rewrite dom_insert_L.
    apply union_subseteq_r'; exact Hcdom.
Qed.

(** C7. Saving a settings object and loading it again, the file being
    written at the per-user path and left untouched, yields the object
    that was saved, nested control bindings included; a control bound to
    [None] is read back as [None], not as the default key. *)
Theorem settings_round_trip (settings : gmap string pyval) (fs : FS) :
  settings_complete settings ->
  primary_dir fs || mkdir_ok fs = true ->
  open_ok fs = true ->
  load_settings (save_settings settings fs) = settings
  /\ (forall c action,
        settings !! "controls" = Some (Dict c) ->
        c !! action = Some PNone ->
        exists c', load_settings (save_settings settings fs) !! "controls"
                   = Some (Dict c')
                   /\ c' !! action = Some PNone).
Proof.
  intros Hs Hdir Hopen.
  assert (Hrt : load_settings (save_settings settings fs) = settings).
  { unfold save_settings. rewrite Hopen, Hdir. unfold load_settings.
    cbn [primary_file]. apply merge_settings_complete. exact Hs. }
  split; [exact Hrt|].
  intros c action Hc Hnone. rewrite Hrt. exists c. split; assumption.
Qed.

Lemma settings_round_trip_witness :
  let unbound := apply_bindings DEFAULT_SETTINGS
                   (<["reset" := PNone]> DEFAULT_CONTROLS) in
  let fs := mkFS false None None true true in
  load_settings (save_settings unbound fs) = unbound.
Proof.
  intros unbound fs.
  apply (settings_round_trip unbound fs); [|reflexivity|reflexivity].
  apply apply_bindings_complete; [|reflexivity].
  split; [reflexivity|]. exists DEFAULT_CONTROLS. split; reflexivity.
Defined.

End Persistence.

Section Collision.
Local Open Scope R_scope.



Lemma hypot_scale (k a b : R) : 0 <= k -> hypot (a * k) (b * k) = hypot a b * k.
Proof.
  intros Hk. unfold hypot.
  replace (a * k * (a * k) + b * k * (b * k)) with ((a * a + b * b) * (k * k))
    by ring.
  rewrite sqrt_mult by nra. rewrite (sqrt_square k Hk). reflexivity.
Qed.


Lemma hypot_lt (a b m : R) : 0 <= m -> a * a + b * b < m * m -> hypot a b < m.
Proof.
  intros Hm H. unfold hypot. rewrite <- (sqrt_square m Hm).
  apply sqrt_lt_1_alt. split; [nra | exact H].
Qed.

Lemma hypot_gt (a b m : R) : 0 <= m -> m * m < a * a + b * b -> m < hypot a b.
Proof.
  intros Hm H. unfold hypot. rewrite <- (sqrt_square m Hm) at 1.
  apply sqrt_lt_1_alt. split; [nra | exact H].
Qed.


Lemma bounce_fields (sd : side) (prect : Rect.t) (b : Ball.t) :
  let vx1 := match sd with
             | LeftPaddle => Rabs (Ball.vx b)
             | RightPaddle => - Rabs (Ball.vx b)
             end in
  let vy1 := Ball.vy b + hit_offset prect b * 150 in
  let k := if Rlt_dec (hypot vx1 vy1) MAX_BALL_SPEED
           then 1 + BALL_SPEED_INCREMENT / 10 else 1 in
  Ball.vx (fst (bounce sd prect b)) = vx1 * k
  /\ Ball.vy (fst (bounce sd prect b)) = vy1 * k
  /\ snd (bounce sd prect b) = hypot vx1 vy1.
Proof.
  intros vx1 vy1 k. subst vx1 vy1 k. unfold bounce, hit_offset.
  destruct sd; cbv zeta;
    match goal with
    | |- context [Rlt_dec ?a ?c] => destruct (Rlt_dec a c)
    end; cbn [fst snd Ball.vx Ball.vy]; repeat split; ring.
Qed.

Lemma collide_ball (sd : side) settings draws (g : Game) :
  Rect.colliderect (Ball.rect (ball g))
    (Paddle.rect (match sd with LeftPaddle => left g | RightPaddle => right g end))
  = true ->
  ball (collide sd settings draws g)
  = fst (bounce sd (Paddle.rect (match sd with
                                 | LeftPaddle => left g
                                 | RightPaddle => right g
                                 end)) (ball g)).
Proof.
  intros Hc. unfold collide. rewrite Hc.
  destruct (bounce sd _ (ball g)) as [b' sp]. reflexivity.
Qed.

(** Velocity and speed of the ball after a collision block. *)
Lemma collide_velocity (sd : side) (settings : gmap string pyval)
    (draws : nat -> impact_draw) (g : Game) :
  let paddle := match sd with LeftPaddle => left g | RightPaddle => right g end in
  Rect.colliderect (Ball.rect (ball g)) (Paddle.rect paddle) = true ->
  let b := ball g in
  let b' := ball (collide sd settings draws g) in
  let offset := hit_offset (Paddle.rect paddle) b in
  let deflected := hypot (Ball.vx b) (Ball.vy b + offset * 150) in
  let k := if Rlt_dec deflected MAX_BALL_SPEED
           then 1 + BALL_SPEED_INCREMENT / 10 else 1 in
  Ball.vx b' = match sd with
               | LeftPaddle => Rabs (Ball.vx b)
               | RightPaddle => - Rabs (Ball.vx b)
               end * k
  /\ Ball.vy b' = (Ball.vy b + offset * 150) * k
  /\ ball_speed b' = deflected * k.
Proof.
  intros paddle Hc b b' offset deflected k.
  assert (Hb' : b' = fst (bounce sd (Paddle.rect paddle) b))
    by (apply collide_ball; exact Hc).
  destruct (bounce_fields sd (Paddle.rect paddle) b) as (Hvx & Hvy & _).
  fold offset in Hvx, Hvy. rewrite <- Hb' in Hvx, Hvy.
  set (vx1 := match sd with
              | LeftPaddle => Rabs (Ball.vx b)
              | RightPaddle => - Rabs (Ball.vx b)
              end) in *.
  assert (Hdef : hypot vx1 (Ball.vy b + offset * 150) = deflected).
  { subst deflected vx1. unfold hypot. f_equal.
    destruct sd; unfold Rabs; destruct (Rcase_abs (Ball.vx b)); ring. }
  rewrite Hdef in Hvx, Hvy. fold k in Hvx, Hvy.
  split; [exact Hvx|]. split; [exact Hvy|].
  unfold ball_speed. rewrite Hvx, Hvy, hypot_scale, Hdef; [reflexivity|].
  subst k. unfold_consts. destruct (Rlt_dec deflected 1200); lra.
Qed.


(** The horizontal velocity is never zero in play: a serve makes it
    non-zero, and neither [Ball.update] nor a collision block can cancel
    it. *)
Lemma reset_vx_nonzero (angle : R) (choice : Z) (direction : option Z)
    (b : Ball.t) :
  match direction with
  | Some d => d = 1%Z \/ d = (-1)%Z
  | None => choice = 1%Z \/ choice = (-1)%Z
  end ->
  Ball.vx (Ball.reset angle choice direction b) <> 0.
Proof.
  intros Hd. unfold Ball.reset. cbn [Ball.vx]. unfold_consts.
  pose proof (Rabs_pos angle).
  destruct direction as [d|]; destruct Hd as [-> | ->]; nra.
Qed.

Lemma collide_vx_nonzero (sd : side) (settings : gmap string pyval)
    (draws : nat -> impact_draw) (g : Game) :
  Ball.vx (ball g) <> 0 -> Ball.vx (ball (collide sd settings draws g)) <> 0.
Proof.
  intros Hne.
  destruct (Rect.colliderect (Ball.rect (ball g))
              (Paddle.rect (match sd with
                            | LeftPaddle => left g
                            | RightPaddle => right g
                            end))) eqn:Hc.
  - destruct (collide_velocity sd settings draws g Hc) as (Hvx & _).
    rewrite Hvx. pose proof (Rabs_pos_lt _ Hne). unfold_consts.
    destruct sd; destruct (Rlt_dec _ _); nra.
  - unfold collide. rewrite Hc. exact Hne.
Qed.

(** A left-paddle hit on the lower end of the paddle: the ball flies
    level toward the left at the serve speed and meets the paddle 50
    pixels below its centre. *)
Lemma low_hit_collides :
  Rect.colliderect (Ball.rect (ball low_hit)) (Paddle.rect (left low_hit)) = true.
Proof. reflexivity. Qed.




(** The source calls [MAX_BALL_SPEED] a cap on the speed, yet the test
    [speed < MAX_BALL_SPEED] is made before the growth factor is applied
    and nothing bounds the speed afterwards: a ball that arrives level at
    1199 at the paddle centre leaves at 1294.92, above the cap. *)
Lemma collision_speed_passes_max :
  Rect.colliderect (Ball.rect (ball fast_hit)) (Paddle.rect (left fast_hit)) = true
  /\ MAX_BALL_SPEED
     < ball_speed (ball (collide LeftPaddle DEFAULT_SETTINGS
                                 (fun _ => still_draw) fast_hit)).
Proof.
  split; [reflexivity|].
  destruct (collide_velocity LeftPaddle DEFAULT_SETTINGS (fun _ => still_draw)
              fast_hit eq_refl) as (_ & _ & Hsp).
  rewrite Hsp. clear Hsp.
  assert (Hoff : hit_offset (Paddle.rect (left fast_hit)) (ball fast_hit) = 0).
  { unfold hit_offset.
    change (Rect.centery (Ball.rect (ball fast_hit))
            - Rect.centery (Paddle.rect (left fast_hit)))%Z with 0%Z.
    change (Rect.h (Paddle.rect (left fast_hit))) with 100%Z. lra. }
  rewrite Hoff. cbn [ball fast_hit Ball.vx Ball.vy].
  assert (Hlo : 1198.9 < hypot (-1199) (0 + 0 * 150)) by (apply hypot_gt; lra).
  assert (Hhi : hypot (-1199) (0 + 0 * 150) < 1200) by (apply hypot_lt; lra).
  unfold_consts.
  destruct (Rlt_dec (hypot (-1199) (0 + 0 * 150)) 1200) as [_|Hn]; lra.
Qed.

End Collision.

Section FrameTime.
Local Open Scope R_scope.




End FrameTime.

Section Scoring.
Local Open Scope R_scope.

Lemma collide_scores (sd : side) settings draws (g : Game) :
  score_left (collide sd settings draws g) = score_left g
  /\ score_right (collide sd settings draws g) = score_right g
  /\ Ball.rect (ball (collide sd settings draws g)) = Ball.rect (ball g)
  /\ paused (collide sd settings draws g) = paused g.
Proof.
  unfold collide. destruct (Rect.colliderect _ _); [|repeat split].
  unfold bounce. destruct (Rlt_dec _ _); repeat split.
Qed.

Lemma ball_update_size (dt : R) (b : Ball.t) :
  Rect.w (Ball.rect (Ball.update dt b)) = Rect.w (Ball.rect b)
  /\ Rect.h (Ball.rect (Ball.update dt b)) = Rect.h (Ball.rect b).
Proof.
  unfold Ball.update. destruct (Rle_dec _ _); cbv beta iota zeta;
    destruct (Rge_dec _ _); split; reflexivity.
Qed.

Lemma before_scoring_keeps (settings : gmap string pyval) (right_ai : bool)
    (inp : FrameInput) (g : Game) :
  let g3 := before_scoring settings right_ai inp g in
  score_left g3 = score_left g /\ score_right g3 = score_right g
  /\ Rect.w (Ball.rect (ball g3)) = Rect.w (Ball.rect (ball g))
  /\ Rect.h (Ball.rect (ball g3)) = Rect.h (Ball.rect (ball g)).
Proof.
  intros g3. subst g3. unfold before_scoring.
  set (g1 := kinematics_block _ _ _ g).
  set (g2 := collide LeftPaddle _ _ g1).
  destruct (collide_scores RightPaddle settings (right_draws inp) g2)
    as (-> & -> & -> & _).
  destruct (collide_scores LeftPaddle settings (left_draws inp) g1)
    as (Hl & Hr & Hrect & _). fold g2 in Hl, Hr, Hrect.
  rewrite Hl, Hr, Hrect. subst g1. unfold kinematics_block.
  cbn [score_left score_right ball].
  split; [reflexivity|]. split; [reflexivity|].
  destruct (negb (paused g)); [apply ball_update_size | split; reflexivity].
Qed.

Lemma effects_block_keeps (dt : R) (g : Game) :
  ball (effects_block dt g) = ball g
  /\ score_left (effects_block dt g) = score_left g
  /\ score_right (effects_block dt g) = score_right g.
Proof.
  unfold effects_block. destruct (Rgt_dec _ _); repeat split.
Qed.

(** The serve that follows a point, for a draw of [random.uniform] in
    its range. *)
Lemma serve_direction (angle : R) (choice d : Z) (b : Ball.t) :
  -0.5 <= angle <= 0.5 ->
  Ball.x (Ball.reset angle choice (Some d) b) = 450
  /\ Ball.y (Ball.reset angle choice (Some d) b) = 300
  /\ (d = 1%Z -> 0 < Ball.vx (Ball.reset angle choice (Some d) b))
  /\ (d = (-1)%Z -> Ball.vx (Ball.reset angle choice (Some d) b) < 0).
Proof.
  intros Ha. unfold Ball.reset. cbn [Ball.x Ball.y Ball.vx].
  change (Z.div WIDTH 2) with 450%Z. change (Z.div HEIGHT 2) with 300%Z.
  unfold_consts. pose proof (Rabs_pos angle).
  repeat split; try (intros ->); nra.
Qed.

(** C5. In every iteration in which the ball has fully left the board on
    the left (resp. right), the scoring block adds exactly one to the
    right (resp. left) score and leaves the other score alone, and the
    ball is put back at the centre with a horizontal velocity pointing
    left (resp. right), i.e. toward the side that lost the point.  When
    that point does not end the match, this is the state the iteration
    hands to the next one. *)
Theorem point_scored (score_to_win : option Z) (settings : gmap string pyval)
    (right_ai : bool) (inp : FrameInput) (g : Game) :
  Rect.w (Ball.rect (ball g)) = BALL_SIZE ->
  -0.5 <= serve_angle inp <= 0.5 ->
  let g3 := before_scoring settings right_ai inp g in
  let exit_left := (Rect.right (Ball.rect (ball g3)) < 0)%Z in
  let exit_right := (Rect.left (Ball.rect (ball g3)) > WIDTH)%Z in
  let g4 := fst (score_block settings (burst_draws inp) (serve_angle inp)
                             (serve_choice inp) g3) in
  (exit_left ->
     score_right g4 = (score_right g + 1)%Z /\ score_left g4 = score_left g
     /\ Ball.vx (ball g4) < 0)
  /\ (exit_right ->
     score_left g4 = (score_left g + 1)%Z /\ score_right g4 = score_right g
     /\ 0 < Ball.vx (ball g4))
  /\ (exit_left \/ exit_right ->
      Ball.x (ball g4) = 450 /\ Ball.y (ball g4) = 300
      /\ (match score_to_win with
          | Some n => (n <= 0 \/ (score_left g4 < n /\ score_right g4 < n))%Z
          | None => True
          end ->
          exists g', frame score_to_win settings right_ai inp g
                     = (None, Running g')
                     /\ ball g' = ball g4
                     /\ score_left g' = score_left g4
                     /\ score_right g' = score_right g4)).
Proof.
  intros Hw Ha g3 exit_left exit_right g4.
  destruct (before_scoring_keeps settings right_ai inp g) as (Hsl & Hsr & Hw3 & _).
  fold g3 in Hsl, Hsr, Hw3. rewrite Hw in Hw3.
  assert (Hexcl : exit_left -> ~ exit_right).
  { subst exit_left exit_right. unfold Rect.right, Rect.left.
    rewrite Hw3. unfold_consts. lia. }
  destruct (serve_direction (serve_angle inp) (serve_choice inp) 1 (ball g3) Ha)
    as (Hx1 & Hy1 & Hpos & _).
  destruct (serve_direction (serve_angle inp) (serve_choice inp) (-1) (ball g3) Ha)
    as (Hx2 & Hy2 & _ & Hneg).
  assert (HL : exit_left ->
               score_block settings (burst_draws inp) (serve_angle inp)
                           (serve_choice inp) g3
               = (mkGame (left g3) (right g3)
                    (Ball.reset (serve_angle inp) (serve_choice inp)
                                (Some (-1)%Z) (ball g3))
                    (score_left g3) (score_right g3 + 1) (paused g3)
                    (emit_score_burst (particles g3)
                       (Z.div WIDTH 2, Z.div HEIGHT 2) settings (burst_draws inp))
                    nil (Rmax (shake_timer g3) 0.22)
                    (Rmax (shake_magnitude g3) 22),
                  Some 1%Z)).
  { intros He. unfold score_block.
    destruct (Z.ltb_spec (Rect.right (Ball.rect (ball g3))) 0) as [_|Hn];
      [reflexivity | subst exit_left; lia]. }
  assert (HR : exit_right ->
               score_block settings (burst_draws inp) (serve_angle inp)
                           (serve_choice inp) g3
               = (mkGame (left g3) (right g3)
                    (Ball.reset (serve_angle inp) (serve_choice inp)
                                (Some 1%Z) (ball g3))
                    (score_left g3 + 1) (score_right g3) (paused g3)
                    (emit_score_burst (particles g3)
                       (Z.div WIDTH 2, Z.div HEIGHT 2) settings (burst_draws inp))
                    nil (Rmax (shake_timer g3) 0.22)
                    (Rmax (shake_magnitude g3) 22),
                  Some (-1)%Z)).
  { intros He. unfold score_block.
    destruct (Z.ltb_spec (Rect.right (Ball.rect (ball g3))) 0) as [Hl|_];
      [exfalso; exact (Hexcl Hl He)|].
    destruct (Z.gtb_spec (Rect.left (Ball.rect (ball g3))) WIDTH) as [_|Hn];
      [reflexivity | subst exit_right; lia]. }
  split; [|split].
  - intros He. subst g4. rewrite (HL He). cbn [fst score_left score_right ball].
    rewrite Hsl, Hsr. repeat split. apply Hneg. reflexivity.
  - intros He. subst g4. rewrite (HR He). cbn [fst score_left score_right ball].
    rewrite Hsl, Hsr. repeat split. apply Hpos. reflexivity.
  - intros He.
    assert (Hsb : exists sc,
               score_block settings (burst_draws inp) (serve_angle inp)
                           (serve_choice inp) g3 = (g4, Some sc)
               /\ Ball.x (ball g4) = 450 /\ Ball.y (ball g4) = 300).
    { subst g4. destruct He as [He|He]; [rewrite (HL He) | rewrite (HR He)];
        eexists; (split; [reflexivity|]); cbn [fst ball]; split; assumption. }
    destruct Hsb as (sc & Hsb & Hx & Hy).
    split; [exact Hx|]. split; [exact Hy|].
    intros Hnowin. exists (effects_block (frame_dt (tick_ms inp)) g4).
    destruct (effects_block_keeps (frame_dt (tick_ms inp)) g4) as (Hb & Hl & Hr).
    split; [|split; [exact Hb | split; [exact Hl | exact Hr]]].
    unfold frame. fold g3. rewrite Hsb. unfold win_block.
    destruct score_to_win as [n|]; [|reflexivity].
    destruct (Z.eqb_spec n 0) as [->|Hn0]; [reflexivity|]. cbn [negb andb].
    destruct (Z.gtb_spec n 0) as [Hpos0|Hnp]; [|reflexivity].
    destruct Hnowin as [Hle|[Hl4 Hr4]]; [lia|].
    destruct (Z.geb_spec (score_left g4) n); [lia|].
    destruct (Z.geb_spec (score_right g4) n); [lia|]. reflexivity.
Qed.

End Scoring.

Section WinCondition.
Local Open Scope R_scope.

Lemma reset_level (c : Z) (b : Ball.t) :
  Rect.w (Ball.rect b) = BALL_SIZE -> Rect.h (Ball.rect b) = BALL_SIZE ->
  Ball.reset 0 c (Some 1%Z) b = serve_ball.
Proof.
  intros Hw Hh. unfold Ball.reset, serve_ball, Rect.set_center.
  rewrite Hw, Hh. change (Z.div WIDTH 2) with 450%Z.
  change (Z.div HEIGHT 2) with 300%Z. rewrite !py_int_IZR.
  unfold_consts. rewrite Rabs_R0. f_equal; lra.
Qed.

Lemma new_game_serving : serving (new_game 0 1).
Proof.
  unfold serving, new_game. cbn [ball paused left right].
  split; [apply reset_level; reflexivity|].
  repeat split.
Qed.

Lemma update_serve_ball (dt : R) : dt = 10 -> Ball.update dt serve_ball = gone_ball.
Proof.
  intros ->. unfold Ball.update, serve_ball, gone_ball.
  cbn [Ball.x Ball.y Ball.vx Ball.vy Ball.rect Rect.h]. unfold_consts.
  destruct (Rle_dec (300 + 0 * 10 - 14 / 2) 0) as [H|_]; [lra|].
  cbv beta iota zeta.
  destruct (Rge_dec (300 + 0 * 10 + 14 / 2) 600) as [H|_]; [lra|].
  replace (450 + 300 * 10) with 3450 by lra.
  replace (300 + 0 * 10) with 300 by lra.
  rewrite !py_int_IZR. reflexivity.
Qed.

Lemma ai_move_rect (p : Paddle.t) (b : Ball.t) (s : gmap string pyval) :
  Paddle.rect (ai_move p b s) = Paddle.rect p.
Proof.
  unfold ai_move. destruct (eq_str _ "Easy"); [reflexivity|].
  destruct (eq_str _ "Hard"); reflexivity.
Qed.

Lemma gone_ball_misses (x0 : Z) (p : Paddle.t) :
  (x0 <= 1000)%Z -> paddle_column x0 p ->
  Rect.colliderect (Ball.rect gone_ball) (Paddle.rect p) = false.
Proof.
  intros Hx (Hx0 & Hw & Hh). unfold Rect.colliderect. rewrite Hx0, Hw, Hh.
  unfold_consts. cbn [gone_ball Ball.rect Rect.x Rect.y Rect.w Rect.h].
  change ((14 =? 0) || (14 =? 0) || (12 =? 0) || (100 =? 0))%Z with false.
  cbv iota.
  destruct (Z.ltb_spec (Z.min 3443 (3443 + 14)) (Z.max x0 (x0 + 12))) as [H|_];
    [lia | reflexivity].
Qed.

Lemma blowout_before_scoring (settings : gmap string pyval) (right_ai quit : bool)
    (g : Game) :
  serving g ->
  let g3 := before_scoring settings right_ai (blowout quit) g in
  ball g3 = gone_ball /\ paused g3 = false
  /\ paddle_column 20 (left g3) /\ paddle_column 868 (right g3)
  /\ score_left g3 = score_left g /\ score_right g3 = score_right g.
Proof.
  intros (Hb & Hp & Hl & Hr) g3. subst g3. unfold before_scoring.
  set (g1 := kinematics_block settings right_ai (frame_dt (tick_ms (blowout quit))) g).
  assert (H1 : ball g1 = gone_ball /\ paused g1 = false
               /\ paddle_column 20 (left g1) /\ paddle_column 868 (right g1)
               /\ score_left g1 = score_left g /\ score_right g1 = score_right g).
  { subst g1. unfold kinematics_block.
    cbn [ball paused left right score_left score_right].
    rewrite Hp, Hb. cbn [negb]. split.
    - apply update_serve_ball. unfold frame_dt. cbn [tick_ms blowout]. lra.
    - split; [reflexivity|]. split; [exact Hl|]. split; [|split; reflexivity].
      destruct right_ai; [|exact Hr].
      unfold paddle_column. cbn [Paddle.move Paddle.rect Rect.set_y Rect.x Rect.w Rect.h].
      rewrite ai_move_rect. exact Hr. }
  destruct H1 as (Hb1 & Hp1 & Hl1 & Hr1 & Hsl1 & Hsr1).
  assert (E2 : collide LeftPaddle settings (left_draws (blowout quit)) g1 = g1).
  { unfold collide. rewrite Hb1, (gone_ball_misses 20 (left g1)); [reflexivity|lia|exact Hl1]. }
  rewrite E2.
  assert (E3 : collide RightPaddle settings (right_draws (blowout quit)) g1 = g1).
  { unfold collide. rewrite Hb1, (gone_ball_misses 868 (right g1)); [reflexivity|lia|exact Hr1]. }
  rewrite E3. repeat split; try assumption; try apply Hl1; apply Hr1.
Qed.

(** In a ten-second frame the served ball leaves on the right: the left
    side scores and the ball is served to the right again. *)
Lemma blowout_point (settings : gmap string pyval) (right_ai quit : bool)
    (g : Game) :
  serving g ->
  exists g4,
    score_block settings (burst_draws (blowout quit)) (serve_angle (blowout quit))
                (serve_choice (blowout quit))
                (before_scoring settings right_ai (blowout quit) g)
    = (g4, Some (-1)%Z)
    /\ serving g4
    /\ score_left g4 = (score_left g + 1)%Z /\ score_right g4 = score_right g.
Proof.
  intros Hs.
  destruct (blowout_before_scoring settings right_ai quit g Hs)
    as (Hb & Hp & Hl & Hr & Hsl & Hsr).
  set (g3 := before_scoring settings right_ai (blowout quit) g) in *.
  unfold score_block. rewrite Hb.
  change (Rect.right (Ball.rect gone_ball) <? 0)%Z with false.
  change (Rect.left (Ball.rect gone_ball) >? WIDTH)%Z with true.
  cbv iota beta. eexists. split; [reflexivity|].
  cbn [score_left score_right]. split; [|split; [rewrite Hsl; reflexivity|exact Hsr]].
  unfold serving. cbn [ball paused left right].
  split; [apply reset_level; reflexivity|]. split; [exact Hp|].
  split; assumption.
Qed.

Lemma effects_block_serving (dt : R) (g : Game) :
  serving g -> serving (effects_block dt g).
Proof.
  unfold serving, effects_block. destruct (Rgt_dec _ _); intros H; exact H.
Qed.

Lemma win_block_disabled (score_to_win : option Z) (quit : bool) (angle : R)
    (choice : Z) (g : Game) :
  score_to_win = None \/ score_to_win = Some 0%Z ->
  win_block score_to_win quit angle choice g = (None, Running g).
Proof. intros [-> | ->]; reflexivity. Qed.

(** With the win condition off, [n] ten-second frames give the left side
    [n] points. *)
Lemma endless_rally (score_to_win : option Z) (settings : gmap string pyval)
    (right_ai : bool) (n : nat) (g : Game) :
  score_to_win = None \/ score_to_win = Some 0%Z ->
  serving g ->
  exists g', run score_to_win settings right_ai (repeat (blowout false) n) g
             = Running g'
             /\ serving g'
             /\ score_left g' = (score_left g + Z.of_nat n)%Z
             /\ score_right g' = score_right g.
Proof.
  intros Hoff. revert g. induction n as [|n IH]; intros g Hs.
  - exists g. cbn [repeat run]. split; [reflexivity|]. split; [exact Hs|].
    split; [lia | reflexivity].
  - destruct (blowout_point settings right_ai false g Hs)
      as (g4 & Hsb & Hs4 & Hl4 & Hr4).
    set (g5 := effects_block (frame_dt (tick_ms (blowout false))) g4).
    assert (Hf : frame score_to_win settings right_ai (blowout false) g
                 = (None, Running g5)).
    { unfold frame. rewrite Hsb, (win_block_disabled _ _ _ _ _ Hoff). reflexivity. }
    destruct (IH g5 (effects_block_serving _ _ Hs4)) as (g' & Hrun & Hs' & Hl' & Hr').
    destruct (effects_block_keeps (frame_dt (tick_ms (blowout false))) g4)
      as (_ & Hl5 & Hr5). fold g5 in Hl5, Hr5.
    exists g'. cbn [repeat run]. rewrite Hf.
    split; [exact Hrun|]. split; [exact Hs'|]. split; lia.
Qed.

(** The banner text chosen by the win block. *)
Lemma winner_text_eq (g : Game) :
  String.append (if (score_left g >=? 5)%Z then "Left" else "Right") " wins!"
  = if (score_left g >=? 5)%Z then "Left wins!" else "Right wins!".
Proof. destruct (score_left g >=? 5)%Z; reflexivity. Qed.

Lemma win_block_enabled (quit : bool) (angle : R) (choice : Z) (g : Game) :
  (5 <= score_left g \/ 5 <= score_right g)%Z ->
  win_block SCORE_TO_WIN quit angle choice g
  = (Some (if (score_left g >=? 5)%Z then "Left wins!" else "Right wins!"),
     if quit then Returned
     else Running (mkGame (left g) (right g)
                     (Ball.reset angle choice None (ball g))
                     0 0 false (particles g) nil
                     (shake_timer g) (shake_magnitude g))).
Proof.
  intros Hw. unfold win_block, SCORE_TO_WIN. cbn [Z.eqb negb andb Z.gtb Z.compare].
  rewrite winner_text_eq.
  destruct (Z.geb_spec (score_left g) 5) as [Hl|Hl];
    destruct (Z.geb_spec (score_right g) 5) as [Hr|Hr];
    try (exfalso; lia); destruct quit; reflexivity.
Qed.

(** An iteration in which a point brings a score to 5. *)
Lemma frame_win (settings : gmap string pyval) (right_ai : bool)
    (inp : FrameInput) (g g4 : Game) (sc : Z) :
  score_block settings (burst_draws inp) (serve_angle inp) (serve_choice inp)
              (before_scoring settings right_ai inp g) = (g4, Some sc) ->
  (5 <= score_left g4 \/ 5 <= score_right g4)%Z ->
  frame SCORE_TO_WIN settings right_ai inp g
  = (Some (if (score_left g4 >=? 5)%Z then "Left wins!" else "Right wins!"),
     if quit_requested inp then Returned
     else Running
            (effects_block (frame_dt (tick_ms inp))
               (mkGame (left g4) (right g4)
                  (Ball.reset (restart_angle inp) (restart_choice inp) None
                              (ball g4))
                  0 0 false (particles g4) nil
                  (shake_timer g4) (shake_magnitude g4)))).
Proof.
  intros Hsb Hw. unfold frame. rewrite Hsb, (win_block_enabled _ _ _ _ Hw).
  destruct (quit_requested inp); reflexivity.
Qed.

Lemma match_point_serving : serving match_point.
Proof. repeat split. Qed.

(** The ten-second frame at match point, as an instance of the scoring
    theorem: the left side gets its fifth point and the serve goes right. *)
Lemma point_scored_witness :
  let g4 := fst (score_block DEFAULT_SETTINGS (burst_draws (blowout false))
                   (serve_angle (blowout false)) (serve_choice (blowout false))
                   (before_scoring DEFAULT_SETTINGS false (blowout false)
                                   match_point)) in
  score_left g4 = 5%Z /\ score_right g4 = 0%Z /\ 0 < Ball.vx (ball g4).
Proof.
  intro g4.
  destruct (point_scored SCORE_TO_WIN DEFAULT_SETTINGS false (blowout false)
              match_point) as (_ & Hright & _);
    [reflexivity | simpl; lra |].
  apply Hright.
  destruct (blowout_before_scoring DEFAULT_SETTINGS false false match_point
              match_point_serving) as (Hb & _).
  rewrite Hb. reflexivity.
Defined.

(** C6 (as amended). With [SCORE_TO_WIN = 5]: when the point scored in an
    iteration brings either score to 5, the winner banner is shown; if
    the window is not closed while it is up, the next iteration starts
    with both scores at 0 and a freshly served ball; if it is closed,
    [run_game] returns at once.  With the win condition off
    ([SCORE_TO_WIN] 0 or unset) the win block changes nothing, and the
    scores grow without bound. *)
Theorem win_condition :
  (forall settings right_ai inp g g4 sc,
     score_block settings (burst_draws inp) (serve_angle inp) (serve_choice inp)
                 (before_scoring settings right_ai inp g) = (g4, Some sc) ->
     (5 <= score_left g4 \/ 5 <= score_right g4)%Z ->
     let text := if (score_left g4 >=? 5)%Z then "Left wins!" else "Right wins!" in
     (quit_requested inp = false ->
      exists g', frame SCORE_TO_WIN settings right_ai inp g
                 = (Some text, Running g')
                 /\ score_left g' = 0%Z /\ score_right g' = 0%Z
                 /\ ball g' = Ball.reset (restart_angle inp) (restart_choice inp)
                                         None (ball g4)
                 /\ Ball.x (ball g') = 450 /\ Ball.y (ball g') = 300)
     /\ (quit_requested inp = true ->
         frame SCORE_TO_WIN settings right_ai inp g = (Some text, Returned)))
  /\ (forall score_to_win,
        score_to_win = None \/ score_to_win = Some 0%Z ->
        (forall quit angle choice g,
           win_block score_to_win quit angle choice g = (None, Running g))
        /\ (forall settings right_ai (n : nat),
              exists inps g',
                run score_to_win settings right_ai inps (new_game 0 1)
                = Running g'
                /\ score_left g' = Z.of_nat n)).
Proof.
  split.
  - intros settings right_ai inp g g4 sc Hsb Hw text.
    pose proof (frame_win settings right_ai inp g g4 sc Hsb Hw) as Hf.
    fold text in Hf. split; intros Hq; rewrite Hq in Hf; [|exact Hf].
    eexists. split; [exact Hf|].
    destruct (effects_block_keeps (frame_dt (tick_ms inp))
                (mkGame (left g4) (right g4)
                   (Ball.reset (restart_angle inp) (restart_choice inp) None
                               (ball g4))
                   0 0 false (particles g4) nil
                   (shake_timer g4) (shake_magnitude g4))) as (Hb & Hl & Hr).
    rewrite Hb, Hl, Hr. cbn [ball score_left score_right].
    do 3 (split; [reflexivity|]).
    unfold Ball.reset; cbn [Ball.x Ball.y].
    change (Z.div WIDTH 2) with 450%Z. change (Z.div HEIGHT 2) with 300%Z.
    split; reflexivity.
  - intros score_to_win Hoff. split.
    + intros. apply win_block_disabled. exact Hoff.
    + intros settings right_ai n.
      destruct (endless_rally score_to_win settings right_ai n (new_game 0 1)
                  Hoff new_game_serving) as (g' & Hrun & _ & Hl & _).
      exists (repeat (blowout false) n), g'. split; [exact Hrun|].
      rewrite Hl. reflexivity.
Qed.

Lemma win_condition_witness :
  exists g', frame SCORE_TO_WIN DEFAULT_SETTINGS false (blowout false) match_point
             = (Some "Left wins!", Running g')
             /\ score_left g' = 0%Z /\ score_right g' = 0%Z.
Proof.
  destruct (blowout_point DEFAULT_SETTINGS false false match_point
              match_point_serving) as (g4 & Hsb & _ & Hl & _).
  assert (Hl5 : score_left g4 = 5%Z) by exact Hl.
  destruct (proj1 win_condition DEFAULT_SETTINGS false (blowout false)
              match_point g4 (-1)%Z Hsb (or_introl (Z.eq_le_incl _ _ (eq_sym Hl5))))
    as [Hgo _].
  destruct (Hgo eq_refl) as (g' & Hf & H0 & H1 & _).
  rewrite Hl5 in Hf. exists g'. split; [exact Hf|]. split; assumption.
Defined.

(** C6 as first stated does not hold: when the window is closed while the
    banner is up, the scores are not reset and no ball is served; the
    iteration makes [run_game] return. *)
Lemma banner_quit_skips_reset :
  frame SCORE_TO_WIN DEFAULT_SETTINGS false (blowout true) match_point
  = (Some "Left wins!", Returned)
  /\ ~ (exists g',
          snd (frame SCORE_TO_WIN DEFAULT_SETTINGS false (blowout true)
                     match_point) = Running g'
          /\ score_left g' = 0%Z /\ score_right g' = 0%Z).
Proof.
  destruct (blowout_point DEFAULT_SETTINGS false true match_point
              match_point_serving) as (g4 & Hsb & _ & Hl & _).
  assert (Hl5 : score_left g4 = 5%Z) by exact Hl.
  assert (Hf : frame SCORE_TO_WIN DEFAULT_SETTINGS false (blowout true) match_point
               = (Some "Left wins!", Returned)).
  { rewrite (frame_win _ _ _ _ g4 (-1)%Z Hsb) by lia. rewrite Hl5. reflexivity. }
  split; [exact Hf|]. rewrite Hf. intros (g' & Hrun & _). discriminate Hrun.
Qed.

End WinCondition.

(** * Further properties of the simulation core *)

Section MoreKinematics.
Local Open Scope R_scope.

(** X1. [Paddle.move] lets the flash timer run down: for a time step
    [dt >= 0] and a timer that is not negative, the timer afterwards is
    the old one less [dt], stopped at zero; it never goes below zero and
    never grows. *)
Theorem paddle_flash_decay (p : Paddle.t) (dt : R) :
  0 <= dt ->
  0 <= Paddle.flash_timer p ->
  let f' := Paddle.flash_timer (Paddle.move dt p) in
  0 <= f' <= Paddle.flash_timer p
  /\ (Paddle.flash_timer p <= dt -> f' = 0)
  /\ (dt < Paddle.flash_timer p -> f' = Paddle.flash_timer p - dt).
Proof.
  intros Hdt Hf f'. subst f'. unfold Paddle.move. cbn [Paddle.flash_timer].
  destruct (Rgt_dec (Paddle.flash_timer p) 0) as [Hpos|Hnpos].
  - unfold Rmax. destruct (Rle_dec 0 (Paddle.flash_timer p - dt));
      repeat split; intros; lra.
  - repeat split; intros; lra.
Qed.

Lemma paddle_flash_decay_witness :
  Paddle.flash_timer
    (Paddle.move 0.2 (Paddle.mk (Rect.mk 20 250 12 100) 250 0 0.12)) = 0.
Proof.
  destruct (paddle_flash_decay (Paddle.mk (Rect.mk 20 250 12 100) 250 0 0.12) 0.2)
    as (_ & Hz & _); [lra | simpl; lra |].
  apply Hz. simpl. lra.
Defined.

Lemma ball_update_y_range (dt : R) (b : Ball.t) :
  Rect.h (Ball.rect b) = BALL_SIZE ->
  7 <= Ball.y (Ball.update dt b) <= 593.
Proof.
  intros Hh. unfold Ball.update. rewrite Hh. unfold_consts.
  destruct (Rle_dec _ _); cbv beta iota zeta; destruct (Rge_dec _ _);
    cbn [Ball.y]; lra.
Qed.

Lemma ball_update_rect (dt : R) (b : Ball.t) :
  Ball.rect (Ball.update dt b)
  = Rect.set_centery (py_int (Ball.y (Ball.update dt b)))
      (Rect.set_centerx (py_int (Ball.x (Ball.update dt b))) (Ball.rect b)).
Proof.
  unfold Ball.update. destruct (Rle_dec _ _); cbv beta iota zeta;
    destruct (Rge_dec _ _); reflexivity.
Qed.

(** X2. Take the 14 by 14 pixel ball and a time step after which the
    truncated horizontal position [int(x + vx * dt)], less and plus the
    half width 7, fits the C integers a [pg.Rect] holds (true of every
    position within two thousand million pixels of the board).  Then
    after [Ball.update] the integer rectangle is centred on the truncated
    position, [centerx = int(x)] and [centery = int(y)], its vertical
    centre lies between 7 and 593, and it is inside the board vertically:
    its top is at least 0 and its bottom at most [HEIGHT].  Nothing is
    said of steps that carry [int(x)] out of that range. *)
Theorem ball_update_rect_on_board (dt : R) (b : Ball.t) :
  Rect.w (Ball.rect b) = BALL_SIZE ->
  Rect.h (Ball.rect b) = BALL_SIZE ->
  Rect.fits (py_int (Ball.x b + Ball.vx b * dt) - 7) ->
  Rect.fits (py_int (Ball.x b + Ball.vx b * dt) + 7) ->
  let b' := Ball.update dt b in
  Rect.centerx (Ball.rect b') = py_int (Ball.x b')
  /\ Rect.left (Ball.rect b') = (py_int (Ball.x b') - 7)%Z
  /\ Rect.right (Ball.rect b') = (py_int (Ball.x b') + 7)%Z
  /\ Rect.centery (Ball.rect b') = py_int (Ball.y b')
  /\ (7 <= Rect.centery (Ball.rect b') <= 593)%Z
  /\ (0 <= Rect.top (Ball.rect b'))%Z
  /\ (Rect.bottom (Ball.rect b') <= HEIGHT)%Z.
Proof.
  intros Hw Hh _ _ b'. subst b'. rewrite ball_update_rect.
  pose proof (ball_update_y_range dt b Hh) as Hy.
  set (y' := Ball.y (Ball.update dt b)) in *.
  set (x' := Ball.x (Ball.update dt b)) in *.
  assert (H7 : (7 <= py_int y')%Z) by (apply py_int_ge; [lra | lia]).
  assert (H593 : (py_int y' <= 593)%Z) by (apply py_int_le; lra).
  unfold Rect.centerx, Rect.centery, Rect.top, Rect.bottom, Rect.left,
    Rect.right, Rect.set_centery, Rect.set_centerx.
  cbn [Rect.x Rect.y Rect.w Rect.h]. rewrite Hh, Hw.
  unfold_consts. change (Z.quot 14 2) with 7%Z.
  repeat split; lia.
Qed.

Lemma ball_update_rect_on_board_witness :
  Rect.centerx (Ball.rect (Ball.update 10 serve_ball)) = 3450%Z
  /\ (0 <= Rect.top (Ball.rect (Ball.update 10 serve_ball)))%Z
  /\ (Rect.bottom (Ball.rect (Ball.update 10 serve_ball)) <= HEIGHT)%Z.
Proof.
  assert (Hx : py_int (Ball.x serve_ball + Ball.vx serve_ball * 10) = 3450%Z).
  { cbn [Ball.x Ball.vx serve_ball].
    replace (450 + 300 * 10) with (IZR 3450) by lra. apply py_int_IZR. }
  destruct (ball_update_rect_on_board 10 serve_ball)
    as (Hc & _ & _ & _ & _ & Ht & Hb).
  - reflexivity.
  - reflexivity.
  - rewrite Hx. unfold Rect.fits, Rect.INT_MIN, Rect.INT_MAX. lia.
  - rewrite Hx. unfold Rect.fits, Rect.INT_MIN, Rect.INT_MAX. lia.
  - split; [|split; [exact Ht | exact Hb]].
    rewrite Hc, ball_update_x. exact Hx.
Defined.

(** X3. The drag of [Particle.update] never speeds a particle up
    sideways and never reverses it, as long as the time step is at most
    [1 / 0.3] seconds. *)
Theorem particle_drag (p : Particle.t) (dt : R) :
  0 <= dt <= 10 / 3 ->
  Rabs (Particle.vx (Particle.update dt p)) <= Rabs (Particle.vx p)
  /\ 0 <= Particle.vx (Particle.update dt p) * Particle.vx p.
Proof.
  intros Hdt. unfold Particle.update. cbn [Particle.vx].
  assert (Hk : 0 <= 1 - 0.3 * dt <= 1) by lra.
  split.
  - rewrite Rabs_mult, (Rabs_right (1 - 0.3 * dt)) by lra.
    pose proof (Rabs_pos (Particle.vx p)). nra.
  - replace (Particle.vx p * (1 - 0.3 * dt) * Particle.vx p)
      with ((Particle.vx p * Particle.vx p) * (1 - 0.3 * dt)) by ring.
    apply Rmult_le_pos; [nra | lra].
Qed.

Lemma particle_drag_witness :
  Rabs (Particle.vx (Particle.update 0.01 spark)) <= Rabs (Particle.vx spark).
Proof. apply (particle_drag spark 0.01). lra. Defined.

End MoreKinematics.

Section MoreEffects.
Local Open Scope R_scope.

Lemma effects_block_particles (dt : R) (g : Game) :
  particles (effects_block dt g)
  = List.filter (fun p => negb (Particle.is_dead p))
                (map (Particle.update dt) (particles g)).
Proof. unfold effects_block. destruct (Rgt_dec _ _); reflexivity. Qed.

(** X4. The particle step of an iteration keeps exactly the particles
    that are still short of their life after ageing by [dt], each moved
    by [Particle.update]; no dead particle is left in the list and the
    list never grows. *)
Theorem effects_block_prunes (dt : R) (g : Game) :
  (forall p', In p' (particles (effects_block dt g)) <->
              exists p, In p (particles g) /\ p' = Particle.update dt p
                        /\ Particle.age p + dt < Particle.life p)
  /\ (forall p', In p' (particles (effects_block dt g)) ->
                 Particle.age p' < Particle.life p')
  /\ (length (particles (effects_block dt g)) <= length (particles g))%nat.
Proof.
  rewrite effects_block_particles.
  assert (Hchar : forall p',
             In p' (List.filter (fun p => negb (Particle.is_dead p))
                      (map (Particle.update dt) (particles g))) <->
             exists p, In p (particles g) /\ p' = Particle.update dt p
                       /\ Particle.age p + dt < Particle.life p).
  { intros p'. rewrite filter_In, in_map_iff. split.
    - intros [(p & <- & Hin) Hlive]. exists p. split; [exact Hin|].
      split; [reflexivity|]. unfold Particle.is_dead in Hlive.
      cbn [Particle.update Particle.age Particle.life] in Hlive.
      destruct (Rge_dec _ _) as [|Hn]; [discriminate | lra].
    - intros (p & Hin & -> & Hlt). split; [exists p; split; trivial|].
      unfold Particle.is_dead. cbn [Particle.update Particle.age Particle.life].
      destruct (Rge_dec _ _) as [Hge|]; [lra | reflexivity]. }
  split; [exact Hchar|]. split.
  - intros p' Hin. apply Hchar in Hin. destruct Hin as (p & _ & -> & Hlt).
    exact Hlt.
  - etransitivity; [apply filter_length_le|]. rewrite length_map. reflexivity.
Qed.

Lemma effects_block_prunes_witness :
  let g := mkGame (Paddle.init 20 250) (Paddle.init 868 250) serve_ball
                  0 0 false (spark :: nil) nil 0 0 in
  In (Particle.update 0.1 spark) (particles (effects_block 0.1 g))
  /\ particles (effects_block 0.6 g) = nil.
Proof.
  intros g.
  destruct (effects_block_prunes 0.1 g) as (Hin & _ & _).
  destruct (effects_block_prunes 0.6 g) as (Hout & _ & _).
  split.
  - apply Hin. exists spark. split; [left; reflexivity|].
    split; [reflexivity|]. cbn. lra.
  - destruct (particles (effects_block 0.6 g)) as [|p' l] eqn:E; [reflexivity|].
    exfalso. destruct (proj1 (Hout p') (or_introl eq_refl)) as (p & Hp & _ & Hlt).
    destruct Hp as [<-|[]]. cbn in Hlt. lra.
Defined.

End MoreEffects.

Section MoreController.
Local Open Scope R_scope.

(** The top speed and the dead zone [ai_move] picks for a settings
    object. *)
Lemma ai_move_speed (paddle : Paddle.t) (ball0 : Ball.t)
    (settings : gmap string pyval) :
  let diff := dict_get settings "ai_difficulty" (Atom (PStr "Normal")) in
  let maxspeed := if eq_str diff "Easy" then PADDLE_SPEED * 0.7
                  else if eq_str diff "Hard" then PADDLE_SPEED * 1.35
                  else PADDLE_SPEED in
  let deadzone := if eq_str diff "Easy" then 14
                  else if eq_str diff "Hard" then 4 else 8 in
  let pc := IZR (Rect.centery (Paddle.rect paddle)) in
  let bc := IZR (Rect.centery (Ball.rect ball0)) in
  ai_move paddle ball0 settings
  = Paddle.mk (Paddle.rect paddle) (Paddle.y paddle)
      (if Rlt_dec pc (bc - deadzone) then maxspeed
       else if Rgt_dec pc (bc + deadzone) then - maxspeed else 0)
      (Paddle.flash_timer paddle).
Proof.
  cbv zeta. unfold ai_move.
  destruct (eq_str _ "Easy"); [reflexivity|].
  destruct (eq_str _ "Hard"); reflexivity.
Qed.

(** X5. Whatever the settings hold, [ai_move] only sets the paddle
    velocity: rectangle, position and flash timer are untouched, the
    velocity is zero or one of the three top speeds [PADDLE_SPEED * 0.7],
    [PADDLE_SPEED] and [PADDLE_SPEED * 1.35] with either sign, so its
    magnitude is at most the Hard top speed [PADDLE_SPEED * 1.35] (the
    product as the source writes it, not a decimal value of it), and it
    never points away from the ball. *)
Theorem ai_move_bounded (paddle : Paddle.t) (ball0 : Ball.t)
    (settings : gmap string pyval) :
  let p' := ai_move paddle ball0 settings in
  let pc := Rect.centery (Paddle.rect paddle) in
  let bc := Rect.centery (Ball.rect ball0) in
  Paddle.rect p' = Paddle.rect paddle
  /\ Paddle.y p' = Paddle.y paddle
  /\ Paddle.flash_timer p' = Paddle.flash_timer paddle
  /\ (exists m, (m = 0 \/ m = PADDLE_SPEED * 0.7 \/ m = PADDLE_SPEED
                 \/ m = PADDLE_SPEED * 1.35)
                /\ (Paddle.speed p' = m \/ Paddle.speed p' = - m))
  /\ Rabs (Paddle.speed p') <= PADDLE_SPEED * 1.35
  /\ 0 <= Paddle.speed p' * IZR (bc - pc).
Proof.
  intros p' pc bc. subst p'. rewrite ai_move_speed.
  cbn [Paddle.rect Paddle.y Paddle.flash_timer Paddle.speed].
  fold pc bc. rewrite minus_IZR.
  do 3 (split; [reflexivity|]).
  set (diff := dict_get settings "ai_difficulty" (Atom (PStr "Normal"))).
  split; [|unfold_consts; split].
  - destruct (eq_str diff "Easy"); [|destruct (eq_str diff "Hard")];
      real_cases;
      first [ exists 0; split; [tauto | left; reflexivity]
            | eexists; split; [| left; reflexivity]; tauto
            | eexists; split; [| right; reflexivity]; tauto ].
  - apply Rabs_le.
    destruct (eq_str diff "Easy"); [|destruct (eq_str diff "Hard")];
      real_cases; lra.
  - destruct (eq_str diff "Easy"); [|destruct (eq_str diff "Hard")];
      real_cases; nra.
Qed.

(** X6. A difficulty that is neither "Easy" nor "Hard" - "Normal", a
    missing key, or any other value - gives the Normal controller: zero
    velocity within 8 pixels, [PADDLE_SPEED] toward the ball beyond.  With
    "Hard" the dead zone is 4 pixels and the speed [1.35 * PADDLE_SPEED]. *)
Theorem ai_move_levels (paddle : Paddle.t) (ball0 : Ball.t)
    (settings : gmap string pyval) :
  let v := Paddle.speed (ai_move paddle ball0 settings) in
  let pc := Rect.centery (Paddle.rect paddle) in
  let bc := Rect.centery (Ball.rect ball0) in
  (settings !! "ai_difficulty" <> Some (Atom (PStr "Easy")) ->
   settings !! "ai_difficulty" <> Some (Atom (PStr "Hard")) ->
   ((Z.abs (bc - pc) <= 8)%Z -> v = 0)
   /\ ((pc < bc - 8)%Z -> v = PADDLE_SPEED)
   /\ ((bc + 8 < pc)%Z -> v = - PADDLE_SPEED))
  /\ (settings !! "ai_difficulty" = Some (Atom (PStr "Hard")) ->
      ((Z.abs (bc - pc) <= 4)%Z -> v = 0)
      /\ ((pc < bc - 4)%Z -> v = PADDLE_SPEED * 1.35)
      /\ ((bc + 4 < pc)%Z -> v = - (PADDLE_SPEED * 1.35))).
Proof.
  intros v pc bc. subst v. rewrite ai_move_speed. cbn [Paddle.speed].
  fold pc bc.
  assert (Hcmp : forall k : Z,
            ((Z.abs (bc - pc) <= k)%Z ->
             ~ IZR pc < IZR bc - IZR k /\ ~ IZR pc > IZR bc + IZR k)
            /\ ((pc < bc - k)%Z -> IZR pc < IZR bc - IZR k)
            /\ ((bc + k < pc)%Z -> (0 <= k)%Z ->
                ~ IZR pc < IZR bc - IZR k /\ IZR pc > IZR bc + IZR k)).
  { intros k. split; [|split].
    - intros H. rewrite <- minus_IZR, <- plus_IZR. split.
      + apply Rle_not_lt, IZR_le. lia.
      + apply Rle_not_gt, IZR_le. lia.
    - intros H. rewrite <- minus_IZR. apply IZR_lt. lia.
    - intros H Hk. rewrite <- minus_IZR, <- plus_IZR. split.
      + apply Rle_not_lt, IZR_le. lia.
      + apply Rlt_gt, IZR_lt. lia. }
  split.
  - intros HnE HnH.
    assert (HE : eq_str (dict_get settings "ai_difficulty" (Atom (PStr "Normal")))
                        "Easy" = false).
    { unfold dict_get.
      destruct (settings !! "ai_difficulty") as [[[| |?|s]|?]|] eqn:E;
        try reflexivity. cbn. apply bool_decide_eq_false_2. intros ->.
      apply HnE. reflexivity. }
    assert (HH : eq_str (dict_get settings "ai_difficulty" (Atom (PStr "Normal")))
                        "Hard" = false).
    { unfold dict_get.
      destruct (settings !! "ai_difficulty") as [[[| |?|s]|?]|] eqn:E;
        try reflexivity. cbn. apply bool_decide_eq_false_2. intros ->.
      apply HnH. reflexivity. }
    rewrite HE, HH. destruct (Hcmp 8%Z) as (H1 & H2 & H3).
    split; [|split]; intros H.
    + destruct (H1 H). real_cases; lra.
    + specialize (H2 H). real_cases; lra.
    + destruct (H3 H ltac:(lia)). real_cases; lra.
  - intros HH. rewrite (dict_get_lookup _ _ _ _ HH). cbn [eq_str].
    rewrite bool_decide_eq_false_2 by discriminate.
    rewrite bool_decide_eq_true_2 by reflexivity.
    destruct (Hcmp 4%Z) as (H1 & H2 & H3).
    split; [|split]; intros H.
    + destruct (H1 H). real_cases; lra.
    + specialize (H2 H). real_cases; lra.
    + destruct (H3 H ltac:(lia)). real_cases; lra.
Qed.

Lemma ai_move_levels_witness :
  Paddle.speed
    (ai_move (Paddle.init 868 250) serve_ball
             (<["ai_difficulty" := Atom (PInt 7)]> DEFAULT_SETTINGS)) = 0.
Proof.
  destruct (ai_move_levels (Paddle.init 868 250) serve_ball
              (<["ai_difficulty" := Atom (PInt 7)]> DEFAULT_SETTINGS))
    as [Hnormal _].
  destruct Hnormal as (Hzero & _ & _).
  - rewrite lookup_insert_eq. discriminate.
  - rewrite lookup_insert_eq. discriminate.
  - apply Hzero. vm_compute. discriminate.
Defined.

End MoreController.

Section MoreCollision.
Local Open Scope R_scope.

Lemma clamp_range (n a b : R) : a <= b -> a <= clamp n a b <= b.
Proof.
  intros Hab. unfold clamp, Rmax, Rmin. real_cases; lra.
Qed.

Lemma py_int_abs_le (r : R) (k : Z) : Rabs r <= IZR k -> (Z.abs (py_int r) <= k)%Z.
Proof.
  intros H. pose proof (Rabs_pos r) as Hp.
  assert (Hk : (0 <= k)%Z) by (apply le_IZR; lra).
  unfold py_int. destruct (Rle_dec 0 r) as [H0|H0].
  - rewrite Rabs_right in H by lra. destruct (base_Int_part r) as [Hl Hu].
    assert (0 <= Int_part r)%Z.
    { apply Z.lt_succ_r, lt_IZR. rewrite succ_IZR. lra. }
    assert (Int_part r <= k)%Z by (apply le_IZR; lra). lia.
  - rewrite Rabs_left in H by lra. destruct (base_Int_part (- r)) as [Hl Hu].
    assert (0 <= Int_part (- r))%Z.
    { apply Z.lt_succ_r, lt_IZR. rewrite succ_IZR. lra. }
    assert (Int_part (- r) <= k)%Z by (apply le_IZR; lra). lia.
Qed.

(** The three values [get_particle_count] can return for the base count
    of an impact burst. *)
Lemma impact_base_count (settings : gmap string pyval) :
  get_particle_count settings 12 = 6%Z
  \/ get_particle_count settings 12 = 12%Z
  \/ get_particle_count settings 12 = 21%Z.
Proof.
  unfold get_particle_count.
  destruct (eq_str _ "Low").
  - left. rewrite (py_int_unique 6 (12 * 0.5)) by lra. reflexivity.
  - destruct (eq_str _ "High").
    + right. right. apply py_int_unique; lra.
    + right. left. reflexivity.
Qed.

Lemma impact_count_in_play (settings : gmap string pyval) (intensity : R) :
  0.8 <= intensity <= 3 ->
  (4 <= impact_count settings intensity <= 63)%Z.
Proof.
  intros Hi. unfold impact_count.
  assert (H : (4 <= py_int (IZR (get_particle_count settings 12) * intensity)
               <= 63)%Z).
  { destruct (impact_base_count settings) as [-> | [-> | ->]];
      (split; [apply py_int_ge; [lra | lia] | apply py_int_le; lra]). }
  lia.
Qed.

Lemma collide_particles (sd : side) (settings : gmap string pyval)
    (draws : nat -> impact_draw) (g : Game) :
  let paddle := match sd with LeftPaddle => left g | RightPaddle => right g end in
  Rect.colliderect (Ball.rect (ball g)) (Paddle.rect paddle) = true ->
  exists pos direction,
    particles (collide sd settings draws g)
    = emit_particles (particles g) pos direction settings
        (clamp (snd (bounce sd (Paddle.rect paddle) (ball g)) / BALL_SPEED_START)
               0.8 3.0) draws.
Proof.
  intros paddle Hc. unfold collide. fold paddle. rewrite Hc.
  destruct (bounce sd (Paddle.rect paddle) (ball g)) as [b' sp] eqn:Hb.
  cbn [snd]. destruct sd.
  - exists (Rect.left (Ball.rect (ball g)), Rect.centery (Ball.rect (ball g))),
      1%Z. reflexivity.
  - exists (Rect.right (Ball.rect (ball g)), Rect.centery (Ball.rect (ball g))),
      (-1)%Z. reflexivity.
Qed.

(** X7. A collision block appends between 4 and 63 particles to the list
    and leaves the particles already there in place: the intensity it
    passes is clamped to [[0.8, 3]], so the [[2, 200]] limits of
    [emit_particles] are never reached from a paddle hit.  Without a
    collision the list is unchanged. *)
Theorem collision_burst_size (sd : side) (settings : gmap string pyval)
    (draws : nat -> impact_draw) (g : Game) :
  let paddle := match sd with LeftPaddle => left g | RightPaddle => right g end in
  let ps' := particles (collide sd settings draws g) in
  (Rect.colliderect (Ball.rect (ball g)) (Paddle.rect paddle) = true ->
   exists n : Z,
     (4 <= n <= 63)%Z
     /\ length ps' = (length (particles g) + Z.to_nat n)%nat
     /\ firstn (length (particles g)) ps' = particles g)
  /\ (Rect.colliderect (Ball.rect (ball g)) (Paddle.rect paddle) = false ->
      ps' = particles g).
Proof.
  intros paddle ps'. subst ps'. split.
  - intros Hc. destruct (collide_particles sd settings draws g Hc)
      as (pos & direction & Hp). fold paddle in Hp. rewrite Hp.
    set (i := clamp _ _ _).
    exists (impact_count settings i). split; [|split].
    + apply impact_count_in_play. subst i.
      match goal with
      | |- _ <= clamp ?n ?a ?b <= _ =>
          pose proof (clamp_range n a b ltac:(lra)); lra
      end.
    + apply emit_particles_length.
    + unfold emit_particles. rewrite firstn_app, Nat.sub_diag, firstn_all.
      cbn [firstn]. apply app_nil_r.
  - intros Hc. unfold collide. fold paddle. rewrite Hc. reflexivity.
Qed.

Lemma collision_burst_size_witness :
  exists n : Z,
    (4 <= n <= 63)%Z
    /\ length (particles (collide LeftPaddle DEFAULT_SETTINGS
                                  (fun _ => still_draw) low_hit))
       = Z.to_nat n.
Proof.
  destruct (collision_burst_size LeftPaddle DEFAULT_SETTINGS
              (fun _ => still_draw) low_hit) as [Hhit _].
  destruct (Hhit low_hit_collides) as (n & Hn & Hlen & _).
  exists n. split; [exact Hn | exact Hlen].
Defined.

(** X8. A score burst appends 24, 48 or 86 particles for the qualities
    Low, Normal (or anything else) and High, after the particles already
    in the list. *)
Theorem score_burst_size (l : list Particle.t) (pos : Z * Z)
    (settings : gmap string pyval) (draws : nat -> score_draw) :
  let q := dict_get settings "particle_quality" (Atom (PStr "Normal")) in
  let n := if eq_str q "Low" then 24%nat
           else if eq_str q "High" then 86%nat else 48%nat in
  length (emit_score_burst l pos settings draws) = (length l + n)%nat
  /\ firstn (length l) (emit_score_burst l pos settings draws) = l.
Proof.
  intros q n. unfold emit_score_burst. split.
  - rewrite length_app, length_map, length_seq. f_equal. subst n.
    unfold get_particle_count. fold q.
    destruct (eq_str q "Low").
    + rewrite (py_int_unique 24 (48 * 0.5)) by lra. reflexivity.
    + destruct (eq_str q "High"); [|reflexivity].
      rewrite (py_int_unique 86 (48 * 1.8)) by lra. reflexivity.
  - rewrite firstn_app, Nat.sub_diag, firstn_all. cbn [firstn].
    apply app_nil_r.
Qed.

(** X9. At most one paddle is hit in an iteration: with the paddles in
    their columns (x = 20 and x = 868, 12 wide) the 14 pixel rectangle of
    the ball cannot overlap both. *)
Theorem one_paddle_per_frame (g : Game) :
  paddle_column 20 (left g) ->
  paddle_column 868 (right g) ->
  Rect.w (Ball.rect (ball g)) = BALL_SIZE ->
  Rect.colliderect (Ball.rect (ball g)) (Paddle.rect (left g)) = true ->
  Rect.colliderect (Ball.rect (ball g)) (Paddle.rect (right g)) = false.
Proof.
  intros (Hlx & Hlw & Hlh) (Hrx & Hrw & Hrh) Hw.
  unfold Rect.colliderect. rewrite Hlx, Hlw, Hlh, Hrx, Hrw, Hrh, Hw.
  unfold_consts.
  destruct (Rect.h (Ball.rect (ball g)) =? 0)%Z; cbn [orb Z.eqb];
    [discriminate|].
  intros H. apply andb_prop in H. destruct H as [H _].
  apply andb_prop in H. destruct H as [H _].
  apply andb_prop in H. destruct H as [H _].
  apply Z.ltb_lt in H.
  destruct (Z.ltb_spec (Z.min 868 (868 + 12))
              (Z.max (Rect.x (Ball.rect (ball g)))
                     (Rect.x (Ball.rect (ball g)) + 14))) as [H2|H2]; [lia|].
  rewrite andb_false_r. reflexivity.
Qed.

Lemma one_paddle_per_frame_witness :
  Rect.colliderect (Ball.rect (ball low_hit)) (Paddle.rect (right low_hit)) = false.
Proof.
  apply (one_paddle_per_frame low_hit); repeat split.
Defined.

End MoreCollision.

Section MoreLoop.
Local Open Scope R_scope.

Lemma collide_shake (sd : side) settings draws (g : Game) :
  shake_bounded g -> shake_bounded (collide sd settings draws g).
Proof.
  intros [Ht Hm]. unfold collide.
  destruct (Rect.colliderect _ _); [|split; assumption].
  destruct (bounce sd _ (ball g)) as [b' sp].
  unfold shake_bounded. cbn [shake_timer shake_magnitude].
  pose proof (clamp_range (sp / BALL_SPEED_START) 0.8 3.0 ltac:(lra)) as Hc.
  unfold Rmax, Rmin. split; real_cases; lra.
Qed.

Lemma before_scoring_shake settings right_ai inp (g : Game) :
  shake_bounded g -> shake_bounded (before_scoring settings right_ai inp g).
Proof.
  intros H. unfold before_scoring. do 2 apply collide_shake. exact H.
Qed.

Lemma score_block_shake settings burst angle choice (g : Game) :
  shake_bounded g ->
  shake_bounded (fst (score_block settings burst angle choice g)).
Proof.
  intros [Ht Hm]. unfold score_block.
  destruct (_ <? 0)%Z; [|destruct (_ >? WIDTH)%Z]; cbn [fst];
    try (split; assumption);
    unfold shake_bounded; cbn [shake_timer shake_magnitude];
    unfold Rmax; split; real_cases; lra.
Qed.

Lemma win_block_shake stw quit angle choice (g g' : Game) banner :
  shake_bounded g ->
  win_block stw quit angle choice g = (banner, Running g') ->
  shake_bounded g'.
Proof.
  intros H. unfold win_block.
  destruct stw as [n|]; [|intros [= _ <-]; exact H].
  destruct (negb (n =? 0)%Z && (n >? 0)%Z); [|intros [= _ <-]; exact H].
  destruct ((score_left g >=? n)%Z || (score_right g >=? n)%Z);
    [|intros [= _ <-]; exact H].
  destruct quit; [discriminate|]. intros [= _ <-]. exact H.
Qed.

Lemma effects_block_shake (dt : R) (g : Game) :
  0 <= dt -> shake_bounded g -> shake_bounded (effects_block dt g).
Proof.
  intros Hdt [Ht Hm]. unfold effects_block, shake_bounded.
  destruct (Rgt_dec (shake_timer g) 0); cbn [shake_timer shake_magnitude];
    [|split; assumption].
  unfold Rmax. destruct (Rle_dec 0 (shake_timer g - dt));
    destruct (Rle_dec _ 0); split; lra.
Qed.

Lemma frame_running (stw : option Z) settings right_ai inp (g g' : Game) banner :
  frame stw settings right_ai inp g = (banner, Running g') ->
  let g4 := fst (score_block settings (burst_draws inp) (serve_angle inp)
                   (serve_choice inp) (before_scoring settings right_ai inp g)) in
  exists g5, g' = effects_block (frame_dt (tick_ms inp)) g5
             /\ (g5 = g4
                 \/ exists b, win_block stw (quit_requested inp)
                                (restart_angle inp) (restart_choice inp) g4
                              = (b, Running g5)).
Proof.
  unfold frame.
  destruct (score_block _ _ _ _ _) as [g4 sc] eqn:Hsb. cbn [fst].
  destruct sc as [sc|].
  - destruct (win_block _ _ _ _ g4) as [b [|g5]] eqn:Hw; [discriminate|].
    intros [= _ <-]. exists g5. split; [reflexivity|]. right. exists b.
    reflexivity.
  - intros [= _ <-]. exists g4. split; [reflexivity|]. left. reflexivity.
Qed.

(** X10. The screen shake stays within its limits from one iteration to
    the next: the timer in [[0, 0.22]] seconds and the magnitude in
    [[0, 22]] pixels; the render offset drawn from it is therefore at
    most 22 pixels on each axis. *)
Theorem shake_stays_bounded (stw : option Z) (settings : gmap string pyval)
    (right_ai : bool) (inp : FrameInput) (g g' : Game) (banner : option string) :
  (0 <= tick_ms inp)%Z ->
  shake_bounded g ->
  frame stw settings right_ai inp g = (banner, Running g') ->
  shake_bounded g'
  /\ forall ux uy : R,
       let mag := shake_mag (shake_timer g') (shake_magnitude g') in
       - mag <= ux <= mag -> - mag <= uy <= mag ->
       (Z.abs (fst (shake_offset (shake_timer g') (shake_magnitude g') ux uy))
        <= 22)%Z
       /\ (Z.abs (snd (shake_offset (shake_timer g') (shake_magnitude g') ux uy))
           <= 22)%Z.
Proof.
  intros Hms Hg Hf.
  assert (Hdt : 0 <= frame_dt (tick_ms inp)).
  { unfold frame_dt. apply IZR_le in Hms. lra. }
  destruct (frame_running _ _ _ _ _ _ _ Hf) as (g5 & -> & Hg5).
  assert (H4 : shake_bounded
                 (fst (score_block settings (burst_draws inp) (serve_angle inp)
                         (serve_choice inp)
                         (before_scoring settings right_ai inp g)))).
  { apply score_block_shake, before_scoring_shake, Hg. }
  assert (H5 : shake_bounded g5).
  { destruct Hg5 as [-> | (b & Hw)]; [exact H4|].
    eapply win_block_shake; [exact H4 | exact Hw]. }
  pose proof (effects_block_shake _ _ Hdt H5) as H'.
  split; [exact H'|]. destruct H' as [Ht Hm].
  set (st := shake_timer (effects_block (frame_dt (tick_ms inp)) g5)) in *.
  set (sm := shake_magnitude (effects_block (frame_dt (tick_ms inp)) g5)) in *.
  intros ux uy mag Hux Huy.
  assert (Hmag : mag <= 22).
  { subst mag. unfold shake_mag. destruct (Rlt_dec st 0.12); [|lra].
    assert (0 <= st / 0.12 <= 1) by lra.
    nra. }
  unfold shake_offset.
  destruct (Rgt_dec st 0); [|cbn; lia].
  destruct (Rgt_dec sm 0); [|cbn; lia]. cbn [fst snd].
  split; apply py_int_abs_le, Rabs_le; lra.
Qed.

Lemma new_game_shake (angle : R) (choice : Z) : shake_bounded (new_game angle choice).
Proof. unfold shake_bounded, new_game. cbn. lra. Qed.

Lemma shake_stays_bounded_witness :
  exists g', frame SCORE_TO_WIN DEFAULT_SETTINGS false (blowout false) match_point
             = (Some "Left wins!", Running g')
             /\ shake_bounded g'.
Proof.
  destruct (blowout_point DEFAULT_SETTINGS false false match_point
              match_point_serving) as (g4 & Hsb & _ & Hl & _).
  assert (Hl5 : score_left g4 = 5%Z) by exact Hl.
  pose proof (frame_win DEFAULT_SETTINGS false (blowout false) match_point g4
                (-1)%Z Hsb (or_introl (Z.eq_le_incl _ _ (eq_sym Hl5)))) as Hf.
  rewrite Hl5 in Hf. cbn [quit_requested blowout] in Hf.
  eexists. split; [exact Hf|].
  refine (proj1 (shake_stays_bounded SCORE_TO_WIN DEFAULT_SETTINGS false
                   (blowout false) match_point _ _ _ _ Hf)).
  - cbn. lia.
  - unfold shake_bounded, match_point. cbn. lra.
Defined.

Lemma score_block_scores settings burst angle choice (g : Game) :
  let r := score_block settings burst angle choice g in
  (snd r = None /\ fst r = g)
  \/ (snd r <> None
      /\ ((score_left (fst r) = score_left g
           /\ score_right (fst r) = (score_right g + 1)%Z)
          \/ (score_left (fst r) = (score_left g + 1)%Z
              /\ score_right (fst r) = score_right g))).
Proof.
  unfold score_block.
  destruct (_ <? 0)%Z; [|destruct (_ >? WIDTH)%Z]; cbn [fst snd score_left score_right].
  - right. split; [discriminate|]. left. split; reflexivity.
  - right. split; [discriminate|]. right. split; reflexivity.
  - left. split; reflexivity.
Qed.

Lemma frame_unfold (stw : option Z) settings right_ai inp (g : Game) :
  let r := score_block settings (burst_draws inp) (serve_angle inp)
             (serve_choice inp) (before_scoring settings right_ai inp g) in
  frame stw settings right_ai inp g
  = match snd r with
    | Some _ =>
        match win_block stw (quit_requested inp) (restart_angle inp)
                        (restart_choice inp) (fst r) with
        | (banner, Returned) => (banner, Returned)
        | (banner, Running g5) =>
            (banner, Running (effects_block (frame_dt (tick_ms inp)) g5))
        end
    | None => (None, Running (effects_block (frame_dt (tick_ms inp)) (fst r)))
    end.
Proof.
  cbv zeta. unfold frame. destruct (score_block _ _ _ _ _) as [g4 sc].
  reflexivity.
Qed.

Lemma win_block_below (quit : bool) (angle : R) (choice : Z) (g : Game) :
  (score_left g < 5)%Z -> (score_right g < 5)%Z ->
  win_block SCORE_TO_WIN quit angle choice g = (None, Running g).
Proof.
  intros Hl Hr. unfold win_block, SCORE_TO_WIN.
  cbn [Z.eqb negb andb Z.gtb Z.compare].
  destruct (Z.geb_spec (score_left g) 5); [lia|].
  destruct (Z.geb_spec (score_right g) 5); [lia|]. reflexivity.
Qed.

Lemma frame_scores_in_play settings right_ai inp (g g' : Game) banner :
  scores_in_play g ->
  frame SCORE_TO_WIN settings right_ai inp g = (banner, Running g') ->
  scores_in_play g'.
Proof.
  intros [Hl Hr]. rewrite frame_unfold.
  destruct (before_scoring_keeps settings right_ai inp g) as (Hl3 & Hr3 & _).
  pose proof (score_block_scores settings (burst_draws inp) (serve_angle inp)
                (serve_choice inp) (before_scoring settings right_ai inp g)) as Hsc.
  cbv zeta in Hsc.
  set (r := score_block settings (burst_draws inp) (serve_angle inp)
              (serve_choice inp) (before_scoring settings right_ai inp g)) in *.
  assert (Heff : forall g5, (0 <= score_left g5 <= 4)%Z ->
                            (0 <= score_right g5 <= 4)%Z ->
             scores_in_play (effects_block (frame_dt (tick_ms inp)) g5)).
  { intros g5 H1 H2.
    destruct (effects_block_keeps (frame_dt (tick_ms inp)) g5) as (_ & El & Er).
    unfold scores_in_play. rewrite El, Er. split; assumption. }
  destruct Hsc as [[Hnone Hfst] | [Hsome Hsc]].
  - rewrite Hnone, Hfst. intros [= _ <-]. apply Heff; lia.
  - destruct (snd r) as [sc|]; [|congruence].
    destruct (Z_lt_le_dec (score_left (fst r)) 5) as [H5l|H5l];
      [destruct (Z_lt_le_dec (score_right (fst r)) 5) as [H5r|H5r]|].
    + rewrite win_block_below by assumption. intros [= _ <-].
      apply Heff; lia.
    + rewrite win_block_enabled by (right; exact H5r).
      destruct (quit_requested inp); [discriminate|]. intros [= _ <-].
      apply Heff; cbn; lia.
    + rewrite win_block_enabled by (left; exact H5l).
      destruct (quit_requested inp); [discriminate|]. intros [= _ <-].
      apply Heff; cbn; lia.
Qed.

(** X11. With [SCORE_TO_WIN = 5] no iteration ever hands a score of 5 or
    more to the next one: along any sequence of iterations that starts
    with both scores in [[0, 4]] and does not leave [run_game], both
    scores stay in [[0, 4]]. *)
Theorem scores_never_reach_win (settings : gmap string pyval) (right_ai : bool)
    (inps : list FrameInput) (g g' : Game) :
  scores_in_play g ->
  run SCORE_TO_WIN settings right_ai inps g = Running g' ->
  scores_in_play g'.
Proof.
  revert g. induction inps as [|inp rest IH]; intros g Hg.
  - cbn [run]. intros [= <-]. exact Hg.
  - cbn [run].
    destruct (frame SCORE_TO_WIN settings right_ai inp g) as [b [|g1]] eqn:Hf;
      [discriminate|].
    intros Hrun. apply (IH g1); [|exact Hrun].
    eapply frame_scores_in_play; [exact Hg | exact Hf].
Qed.

Lemma match_point_frame :
  exists g', frame SCORE_TO_WIN DEFAULT_SETTINGS false (blowout false) match_point
             = (Some "Left wins!", Running g').
Proof.
  destruct (blowout_point DEFAULT_SETTINGS false false match_point
              match_point_serving) as (g4 & Hsb & _ & Hl & _).
  assert (Hl5 : score_left g4 = 5%Z) by exact Hl.
  pose proof (frame_win DEFAULT_SETTINGS false (blowout false) match_point g4
                (-1)%Z Hsb (or_introl (Z.eq_le_incl _ _ (eq_sym Hl5)))) as Hf.
  rewrite Hl5 in Hf. cbn [quit_requested blowout] in Hf.
  eexists. exact Hf.
Qed.

Lemma scores_never_reach_win_witness :
  exists g', run SCORE_TO_WIN DEFAULT_SETTINGS false (blowout false :: nil)
                 match_point = Running g'
             /\ scores_in_play g'.
Proof.
  destruct match_point_frame as (g' & Hf).
  assert (Hrun : run SCORE_TO_WIN DEFAULT_SETTINGS false (blowout false :: nil)
                     match_point = Running g').
  { cbn [run]. rewrite Hf. reflexivity. }
  exists g'. split; [exact Hrun|].
  apply (scores_never_reach_win DEFAULT_SETTINGS false (blowout false :: nil)
           match_point g'); [|exact Hrun].
  unfold scores_in_play, match_point. cbn. lia.
Defined.

(** X12. With the win condition off ([SCORE_TO_WIN] 0 or unset) an
    iteration never leaves [run_game] and never shows a banner; it adds
    at most one point, to one side, and takes none away. *)
Theorem endless_play (stw : option Z) (settings : gmap string pyval)
    (right_ai : bool) (inp : FrameInput) (g : Game) :
  stw = None \/ stw = Some 0%Z ->
  exists g',
    frame stw settings right_ai inp g = (None, Running g')
    /\ ((score_left g' = score_left g /\ score_right g' = score_right g)
        \/ (score_left g' = score_left g
            /\ score_right g' = (score_right g + 1)%Z)
        \/ (score_left g' = (score_left g + 1)%Z
            /\ score_right g' = score_right g)).
Proof.
  intros Hoff. rewrite frame_unfold.
  destruct (before_scoring_keeps settings right_ai inp g) as (Hl3 & Hr3 & _).
  pose proof (score_block_scores settings (burst_draws inp) (serve_angle inp)
                (serve_choice inp) (before_scoring settings right_ai inp g)) as Hsc.
  cbv zeta in Hsc.
  set (r := score_block settings (burst_draws inp) (serve_angle inp)
              (serve_choice inp) (before_scoring settings right_ai inp g)) in *.
  destruct (effects_block_keeps (frame_dt (tick_ms inp)) (fst r)) as (_ & El & Er).
  exists (effects_block (frame_dt (tick_ms inp)) (fst r)).
  rewrite El, Er. split.
  - destruct (snd r); [|reflexivity].
    rewrite (win_block_disabled _ _ _ _ _ Hoff). reflexivity.
  - destruct Hsc as [[_ ->] | [_ [[-> ->] | [-> ->]]]]; rewrite Hl3, Hr3.
    + left. split; reflexivity.
    + right. left. split; reflexivity.
    + right. right. split; reflexivity.
Qed.

Lemma endless_play_witness :
  exists g', frame None DEFAULT_SETTINGS false (blowout true) match_point
             = (None, Running g').
Proof.
  destruct (endless_play None DEFAULT_SETTINGS false (blowout true) match_point
              (or_introl eq_refl)) as (g' & Hf & _).
  exists g'. exact Hf.
Defined.

End MoreLoop.

Section Trail.
Local Open Scope R_scope.

Lemma in_firstn {A : Type} (n : nat) (l : list A) (a : A) :
  In a (firstn n l) -> In a l.
Proof.
  revert l. induction n as [|n IH]; intros [|b l]; cbn; try tauto.
  intros [->|H]; [left; reflexivity | right; apply IH, H].
Qed.

(** X13. The trail update keeps only samples younger than the trail
    life and at most [int(life / max(dt, 1e-6) + 1)] of them.  After a
    step shorter than the trail life the newest sample, the ball position
    at age [dt], comes first; after a step at least as long as the trail
    life the trail is empty. *)
Theorem trail_update (life dt : R) (b : Ball.t) (tr : list (R * R * R)) :
  let tr' := update_trail life dt b tr in
  (forall s, In s tr' -> snd s < life)
  /\ (length tr' <= Z.to_nat (py_int (life / Rmax dt 0.000001 + 1)))%nat
  /\ (0 <= dt < life ->
      exists rest, tr' = (Ball.x b, Ball.y b, dt) :: rest)
  /\ (life <= dt -> (forall s, In s tr -> 0 <= snd s) -> tr' = nil).
Proof.
  intros tr'. subst tr'. unfold update_trail. split; [|split; [|split]].
  - intros s Hin. apply in_firstn in Hin. apply filter_In in Hin.
    destruct Hin as [_ Hlt]. destruct s as [[x y] age]. cbn [snd].
    destruct (Rlt_dec age life); [assumption | discriminate].
  - apply firstn_le_length.
  - intros [H0 Hlt]. cbn [map List.filter].
    replace (0 + dt) with dt by lra.
    destruct (Rlt_dec dt life) as [_|Hn]; [|lra].
    assert (Hm : 0 < Rmax dt 0.000001).
    { unfold Rmax. destruct (Rle_dec dt 0.000001); lra. }
    assert (Hq : 0 <= life / Rmax dt 0.000001).
    { unfold Rdiv. apply Rmult_le_pos; [lra|].
      left. apply Rinv_0_lt_compat. exact Hm. }
    assert (Hn : (1 <= py_int (life / Rmax dt 0.000001 + 1))%Z)
      by (apply py_int_ge; [lra | lia]).
    destruct (Z.to_nat (py_int (life / Rmax dt 0.000001 + 1))) as [|n] eqn:En;
      [lia|].
    cbn [firstn]. eexists. reflexivity.
  - intros Hge Hages.
    assert (Hnone : List.filter
                      (fun s : R * R * R =>
                         let '(_, _, age) := s in
                         if Rlt_dec age life then true else false)
                      (map (fun s : R * R * R =>
                              let '(x, y, age) := s in (x, y, age + dt))
                           ((Ball.x b, Ball.y b, 0) :: tr)) = nil).
    { assert (Hall : forall s, In s ((Ball.x b, Ball.y b, 0) :: tr) -> 0 <= snd s).
      { intros s [<-|Hin]; [cbn; lra | apply Hages, Hin]. }
      induction ((Ball.x b, Ball.y b, 0) :: tr) as [|[[x y] age] l IH];
        [reflexivity|].
      cbn [map List.filter].
      pose proof (Hall (x, y, age) (or_introl eq_refl)) as Ha. cbn [snd] in Ha.
      destruct (Rlt_dec (age + dt) life) as [Hlt|_]; [lra|].
      apply IH. intros s Hin. apply Hall. right. exact Hin. }
    rewrite Hnone. apply firstn_nil.
Qed.

Lemma trail_update_witness :
  exists rest, update_trail 0.25 0.01 serve_ball nil = (450, 300, 0.01) :: rest.
Proof.
  destruct (trail_update 0.25 0.01 serve_ball nil) as (_ & _ & Hhead & _).
  apply Hhead. lra.
Defined.

End Trail.

Section MorePersistence.

Lemma default_settings_complete : settings_complete DEFAULT_SETTINGS.
Proof. split; [reflexivity|]. exists DEFAULT_CONTROLS. split; reflexivity. Qed.

(** X14. [load_settings] never fails and always hands back a complete
    settings object; when the file is missing, cannot be unpickled or
    does not hold a dictionary, that object is the default one. *)
Theorem load_settings_defaults (fs : FS) :
  settings_complete (load_settings fs)
  /\ match primary_file fs with
     | Some (Pickle (PickDict _)) => True
     | _ => load_settings fs = DEFAULT_SETTINGS
     end.
Proof.
  split.
  - unfold load_settings.
    destruct (primary_file fs) as [[[data|]|]|];
      try apply merge_settings_is_complete;
      try (rewrite insert_id by reflexivity);
      apply default_settings_complete.
  - unfold load_settings.
    destruct (primary_file fs) as [[[data|]|]|]; trivial;
      apply insert_id; reflexivity.
Qed.

(** X15. A dictionary read from the file is merged with the defaults
    field by field: every key the file holds keeps the file's value,
    every other key gets the default; the control bindings are merged
    action by action in the same way, and replaced by the default
    bindings when the file's ["controls"] is not a dictionary. *)
Theorem load_settings_merges (fs : FS) (data : gmap string pyval) :
  primary_file fs = Some (Pickle (PickDict data)) ->
  (forall k, k <> "controls" ->
     load_settings fs !! k
     = match data !! k with
       | Some v => Some v
       | None => DEFAULT_SETTINGS !! k
       end)
  /\ exists c',
       load_settings fs !! "controls" = Some (Dict c')
       /\ forall a,
            c' !! a
            = match data !! "controls" with
              | Some (Dict c) =>
                  match c !! a with
                  | Some key => Some key
                  | None => DEFAULT_CONTROLS !! a
                  end
              | _ => DEFAULT_CONTROLS !! a
              end.
Proof.
  intros Hf. unfold load_settings. rewrite Hf. unfold merge_settings. split.
  - intros k Hk. rewrite lookup_insert_ne by congruence.
    rewrite lookup_union. destruct (data !! k) as [v|];
      destruct (DEFAULT_SETTINGS !! k); reflexivity.
  - eexists. split; [apply lookup_insert_eq|]. intros a.
    destruct (data !! "controls") as [[?|c]|]; try reflexivity.
    rewrite lookup_union. destruct (c !! a);
      destruct (DEFAULT_CONTROLS !! a); reflexivity.
Qed.

Lemma load_settings_merges_witness :
  let data : gmap string pyval := {["sound" := Atom (PBool false)]} in
  let fs := mkFS true (Some (Pickle (PickDict data))) None true true in
  load_settings fs !! "sound" = Some (Atom (PBool false))
  /\ load_settings fs !! "ai_difficulty" = Some (Atom (PStr "Normal")).
Proof.
  intros data fs.
  destruct (load_settings_merges fs data eq_refl) as [Hk _].
  split; rewrite Hk by discriminate; reflexivity.
Defined.

(** X16. A save that cannot be read back: when the file cannot be
    opened for writing nothing changes, and when the per-user directory
    neither exists nor can be created the settings go to the fallback
    file, which [load_settings] never reads; in both cases loading after
    the save gives what loading before it gave. *)
Theorem save_settings_lost (settings : gmap string pyval) (fs : FS) :
  (open_ok fs = false ->
   primary_file (save_settings settings fs) = primary_file fs
   /\ fallback_file (save_settings settings fs) = fallback_file fs
   /\ load_settings (save_settings settings fs) = load_settings fs)
  /\ (open_ok fs = true -> primary_dir fs = false -> mkdir_ok fs = false ->
      fallback_file (save_settings settings fs)
      = Some (Pickle (PickDict settings))
      /\ load_settings (save_settings settings fs) = load_settings fs).
Proof.
  split.
  - intros Ho. unfold save_settings. rewrite Ho. repeat split.
  - intros Ho Hd Hm. unfold save_settings. rewrite Ho, Hd, Hm. cbn [orb].
    split; reflexivity.
Qed.

Lemma save_settings_lost_witness :
  let fs := mkFS false None None false true in
  let s := settings_set_label_value DEFAULT_SETTINGS "Sound" "Off" in
  load_settings (save_settings s fs) = DEFAULT_SETTINGS.
Proof.
  intros fs s.
  destruct (save_settings_lost s fs) as [_ Hfb].
  destruct (Hfb eq_refl eq_refl eq_refl) as [_ ->]. reflexivity.
Defined.

Lemma save_settings_written (settings : gmap string pyval) (fs : FS) :
  primary_dir fs || mkdir_ok fs = true ->
  open_ok fs = true ->
  save_settings settings fs
  = mkFS true (Some (Pickle (PickDict settings))) (fallback_file fs)
         (mkdir_ok fs) true.
Proof.
  intros Hdir Hopen. unfold save_settings. rewrite Hopen, Hdir. reflexivity.
Qed.

(** X17. Of two saves in a row the second one wins: loading afterwards
    gives the settings saved last, and saving the same settings twice
    leaves the files as after the first save. *)
Theorem save_settings_last_wins (s1 s2 : gmap string pyval) (fs : FS) :
  settings_complete s2 ->
  primary_dir fs || mkdir_ok fs = true ->
  open_ok fs = true ->
  load_settings (save_settings s2 (save_settings s1 fs)) = s2
  /\ save_settings s2 (save_settings s2 fs) = save_settings s2 fs.
Proof.
  intros Hs Hdir Hopen.
  rewrite (save_settings_written s1 fs Hdir Hopen).
  rewrite (save_settings_written s2 fs Hdir Hopen).
  rewrite !save_settings_written by reflexivity.
  cbn [fallback_file mkdir_ok]. split; [|reflexivity].
  unfold load_settings. cbn [primary_file].
  apply merge_settings_complete, Hs.
Qed.

Lemma save_settings_last_wins_witness :
  let fs := mkFS false None None true true in
  let s1 := settings_set_label_value DEFAULT_SETTINGS "Sound" "Off" in
  load_settings (save_settings DEFAULT_SETTINGS (save_settings s1 fs))
  = DEFAULT_SETTINGS.
Proof.
  intros fs s1.
  apply (save_settings_last_wins s1 DEFAULT_SETTINGS fs);
    [apply default_settings_complete | reflexivity | reflexivity].
Defined.

End MorePersistence.

Section SettingsMenu.

Lemma eq_str_true (v : pyval) (s : string) :
  eq_str v s = true -> v = Atom (PStr s).
Proof.
  destruct v as [[| | |s']|]; cbn; try discriminate.
  intros H. apply bool_decide_eq_true_1 in H. subst. reflexivity.
Qed.

Lemma list_index_none (vals : list string) (v : pyval) :
  (forall s, In s vals -> v <> Atom (PStr s)) -> list_index vals v = None.
Proof.
  induction vals as [|a vals IH]; intros H; [reflexivity|]. cbn [list_index].
  destruct (eq_str v a) eqn:E.
  - exfalso. apply (H a); [left; reflexivity | apply eq_str_true, E].
  - rewrite IH; [reflexivity|]. intros s Hs. apply H. right. exact Hs.
Qed.

Lemma change_value_at (delta : Z) (label : string) (vals : list string)
    (settings : gmap string pyval) (fs : FS) (i : nat) :
  vals <> nil ->
  list_index vals (settings_get_label_value settings label) = Some i ->
  change_value delta label vals settings fs
  = Some (settings_set_label_value settings label
            (nth (Z.to_nat ((Z.of_nat i + delta) mod Z.of_nat (length vals)))
                 vals ""),
          save_settings
            (settings_set_label_value settings label
               (nth (Z.to_nat ((Z.of_nat i + delta) mod Z.of_nat (length vals)))
                    vals ""))
            fs).
Proof.
  intros Hne Hi. unfold change_value. destruct vals as [|a vals]; [congruence|].
  rewrite Hi. reflexivity.
Qed.

Lemma insert_back {A : Type} (m : gmap string A) (k : string) (v w : A) :
  m !! k = Some v -> <[k := v]> (<[k := w]> m) = m.
Proof. intros H. rewrite insert_insert_eq. apply insert_id, H. Qed.

(** One press on "AI Difficulty", from a stored difficulty [v] at
    position [i] of the list. *)
Lemma press_difficulty (delta : Z) (settings : gmap string pyval) (fs : FS)
    (v : string) (i : nat) :
  settings !! "ai_difficulty" = Some (Atom (PStr v)) ->
  list_index DIFFICULTIES (Atom (PStr v)) = Some i ->
  change_value delta "AI Difficulty" DIFFICULTIES settings fs
  = let s' := <["ai_difficulty" :=
                 Atom (PStr (nth (Z.to_nat ((Z.of_nat i + delta) mod 3))
                                 DIFFICULTIES ""))]> settings in
    Some (s', save_settings s' fs).
Proof.
  intros Hs Hi.
  rewrite (change_value_at delta "AI Difficulty" DIFFICULTIES settings fs i);
    [reflexivity | discriminate |].
  change (settings_get_label_value settings "AI Difficulty")
    with (dict_get settings "ai_difficulty" (Atom (PStr "Normal"))).
  rewrite (dict_get_lookup _ _ _ _ Hs). exact Hi.
Qed.

(** X18. Cycling the difficulty in the settings menu, from any of the
    three stored values: Right moves to a different value of the list and
    touches no other key, Left undoes Right, and three presses of Right
    come back to the settings the menu started from. *)
Theorem difficulty_cycle (settings : gmap string pyval) (v : string) :
  In v DIFFICULTIES ->
  settings !! "ai_difficulty" = Some (Atom (PStr v)) ->
  exists (v1 v2 : string),
    let s1 := <["ai_difficulty" := Atom (PStr v1)]> settings in
    let s2 := <["ai_difficulty" := Atom (PStr v2)]> settings in
    In v1 DIFFICULTIES /\ v1 <> v
    /\ forall fs,
         change_value 1 "AI Difficulty" DIFFICULTIES settings fs
         = Some (s1, save_settings s1 fs)
         /\ change_value (-1) "AI Difficulty" DIFFICULTIES s1 fs
            = Some (settings, save_settings settings fs)
         /\ change_value 1 "AI Difficulty" DIFFICULTIES s1 fs
            = Some (s2, save_settings s2 fs)
         /\ change_value 1 "AI Difficulty" DIFFICULTIES s2 fs
            = Some (settings, save_settings settings fs).
Proof.
  intros Hin Hs.
  assert (Hcases : (v = "Easy" /\ list_index DIFFICULTIES (Atom (PStr v)) = Some 0%nat)
                   \/ (v = "Normal" /\ list_index DIFFICULTIES (Atom (PStr v)) = Some 1%nat)
                   \/ (v = "Hard" /\ list_index DIFFICULTIES (Atom (PStr v)) = Some 2%nat)).
  { destruct Hin as [<-|[<-|[<-|[]]]]; [left | right; left | right; right];
      split; reflexivity. }
  destruct Hcases as [[-> Hi]|[[-> Hi]|[-> Hi]]].
  - exists "Normal", "Hard". cbv zeta.
    split; [right; left; reflexivity|]. split; [discriminate|]. intros fs.
    split; [rewrite (press_difficulty 1 settings fs _ _ Hs Hi); reflexivity|].
    split; [|split].
    + rewrite (press_difficulty (-1) _ fs "Normal" 1%nat)
        by (try apply lookup_insert_eq; reflexivity).
      cbv zeta. change (nth _ DIFFICULTIES "") with "Easy".
      rewrite (insert_back _ _ _ _ Hs). reflexivity.
    + rewrite (press_difficulty 1 _ fs "Normal" 1%nat)
        by (try apply lookup_insert_eq; reflexivity).
      cbv zeta. change (nth _ DIFFICULTIES "") with "Hard".
      rewrite insert_insert_eq. reflexivity.
    + rewrite (press_difficulty 1 _ fs "Hard" 2%nat)
        by (try apply lookup_insert_eq; reflexivity).
      cbv zeta. change (nth _ DIFFICULTIES "") with "Easy".
      rewrite (insert_back _ _ _ _ Hs). reflexivity.
  - exists "Hard", "Easy". cbv zeta.
    split; [right; right; left; reflexivity|]. split; [discriminate|]. intros fs.
    split; [rewrite (press_difficulty 1 settings fs _ _ Hs Hi); reflexivity|].
    split; [|split].
    + rewrite (press_difficulty (-1) _ fs "Hard" 2%nat)
        by (try apply lookup_insert_eq; reflexivity).
      cbv zeta. change (nth _ DIFFICULTIES "") with "Normal".
      rewrite (insert_back _ _ _ _ Hs). reflexivity.
    + rewrite (press_difficulty 1 _ fs "Hard" 2%nat)
        by (try apply lookup_insert_eq; reflexivity).
      cbv zeta. change (nth _ DIFFICULTIES "") with "Easy".
      rewrite insert_insert_eq. reflexivity.
    + rewrite (press_difficulty 1 _ fs "Easy" 0%nat)
        by (try apply lookup_insert_eq; reflexivity).
      cbv zeta. change (nth _ DIFFICULTIES "") with "Normal".
      rewrite (insert_back _ _ _ _ Hs). reflexivity.
  - exists "Easy", "Normal". cbv zeta.
    split; [left; reflexivity|]. split; [discriminate|]. intros fs.
    split; [rewrite (press_difficulty 1 settings fs _ _ Hs Hi); reflexivity|].
    split; [|split].
    + rewrite (press_difficulty (-1) _ fs "Easy" 0%nat)
        by (try apply lookup_insert_eq; reflexivity).
      cbv zeta. change (nth _ DIFFICULTIES "") with "Hard".
      rewrite (insert_back _ _ _ _ Hs). reflexivity.
    + rewrite (press_difficulty 1 _ fs "Easy" 0%nat)
        by (try apply lookup_insert_eq; reflexivity).
      cbv zeta. change (nth _ DIFFICULTIES "") with "Normal".
      rewrite insert_insert_eq. reflexivity.
    + rewrite (press_difficulty 1 _ fs "Normal" 1%nat)
        by (try apply lookup_insert_eq; reflexivity).
      cbv zeta. change (nth _ DIFFICULTIES "") with "Hard".
      rewrite (insert_back _ _ _ _ Hs). reflexivity.
Qed.

Lemma difficulty_cycle_witness :
  let fs := mkFS true None None true true in
  exists s1,
    change_value 1 "AI Difficulty" DIFFICULTIES DEFAULT_SETTINGS fs
    = Some (s1, save_settings s1 fs)
    /\ change_value (-1) "AI Difficulty" DIFFICULTIES s1 fs
       = Some (DEFAULT_SETTINGS, save_settings DEFAULT_SETTINGS fs).
Proof.
  intros fs.
  destruct (difficulty_cycle DEFAULT_SETTINGS "Normal")
    as (v1 & v2 & _ & _ & Hall);
    [right; left; reflexivity | reflexivity |].
  destruct (Hall fs) as (H1 & H2 & _).
  eexists. split; [exact H1 | exact H2].
Defined.

(** X19. The settings menu trusts the stored values.  A difficulty that
    is not one of the three listed strings makes Left, Right or Enter on
    "AI Difficulty" raise ([vals.index] fails), although [load_settings]
    accepts such a file; the "Sound" entry never raises: whatever is
    stored, a press stores the negation of its truth value as a boolean. *)
Theorem menu_value_errors :
  (forall delta settings fs v,
     settings !! "ai_difficulty" = Some v ->
     (forall s, In s DIFFICULTIES -> v <> Atom (PStr s)) ->
     change_value delta "AI Difficulty" DIFFICULTIES settings fs = None)
  /\ (forall delta settings fs,
        delta = 1 \/ delta = -1 ->
        let s' := <["sound" :=
                     Atom (PBool (negb (truthy (dict_get settings "sound"
                                                  (Atom (PBool true))))))]>
                  settings in
        change_value delta "Sound" SOUNDS settings fs
        = Some (s', save_settings s' fs)).
Proof.
  split.
  - intros delta settings fs v Hs Hbad. unfold change_value, DIFFICULTIES.
    change (settings_get_label_value settings "AI Difficulty")
      with (dict_get settings "ai_difficulty" (Atom (PStr "Normal"))).
    rewrite (dict_get_lookup _ _ _ _ Hs).
    rewrite (list_index_none ("Easy" :: "Normal" :: "Hard" :: nil) v Hbad).
    reflexivity.
  - intros delta settings fs Hd. cbv zeta.
    unfold change_value, SOUNDS.
    change (settings_get_label_value settings "Sound")
      with (Atom (PStr (if truthy (dict_get settings "sound" (Atom (PBool true)))
                        then "On" else "Off"))).
    destruct (truthy (dict_get settings "sound" (Atom (PBool true))));
      destruct Hd as [-> | ->]; reflexivity.
Qed.

Lemma menu_value_errors_witness :
  let data : gmap string pyval := {["ai_difficulty" := Atom (PInt 7)]} in
  let fs := mkFS true (Some (Pickle (PickDict data))) None true true in
  change_value 1 "AI Difficulty" DIFFICULTIES (load_settings fs) fs = None.
Proof.
  intros data fs.
  apply (proj1 menu_value_errors 1 (load_settings fs) fs (Atom (PInt 7)));
    [reflexivity|].
  intros s _. discriminate.
Defined.

End SettingsMenu.

Section InputRouter.
Local Open Scope R_scope.

(** X20. Releasing a key stops a paddle only when the paddle is moving
    in that key's direction: with the left paddle moving up, releasing a
    key that is not bound to "left_up" (for instance the "left_down" key)
    leaves its velocity alone, releasing the "left_up" key sets it to
    zero; likewise downward and for the right paddle.  A key release
    never ends the loop and touches nothing but the two velocities: the
    ball, the scores, the pause flag, the particles, the trail, the
    screen shake and the rectangle, position and flash timer of both
    paddles are as before. *)
Theorem keyup_stops_matching_direction (settings : gmap string pyval)
    (c : gmap string pyatom) (right_ai : bool) (angle : R) (choice key : Z)
    (g : Game) (debug : bool) :
  controls_of settings = Some c ->
  exists g',
    handle_event settings right_ai angle choice (EvKeyUp key) g debug
    = Go g' debug
    /\ ball g' = ball g /\ score_left g' = score_left g
    /\ score_right g' = score_right g
    /\ Paddle.speed (left g')
       = (if Rlt_dec (Paddle.speed (left g)) 0
          then if key_is key (c !! "left_up") then 0 else Paddle.speed (left g)
          else if Rgt_dec (Paddle.speed (left g)) 0
               then if key_is key (c !! "left_down") then 0
                    else Paddle.speed (left g)
               else Paddle.speed (left g))
    /\ Paddle.speed (right g')
       = (if Rlt_dec (Paddle.speed (right g)) 0
          then if key_is key (c !! "right_up") then 0 else Paddle.speed (right g)
          else if Rgt_dec (Paddle.speed (right g)) 0
               then if key_is key (c !! "right_down") then 0
                    else Paddle.speed (right g)
               else Paddle.speed (right g))
    /\ paused g' = paused g /\ particles g' = particles g
    /\ trail g' = trail g /\ shake_timer g' = shake_timer g
    /\ shake_magnitude g' = shake_magnitude g
    /\ Paddle.rect (left g') = Paddle.rect (left g)
    /\ Paddle.y (left g') = Paddle.y (left g)
    /\ Paddle.flash_timer (left g') = Paddle.flash_timer (left g)
    /\ Paddle.rect (right g') = Paddle.rect (right g)
    /\ Paddle.y (right g') = Paddle.y (right g)
    /\ Paddle.flash_timer (right g') = Paddle.flash_timer (right g).
Proof.
  intros Hc. unfold handle_event. rewrite Hc. cbv zeta.
  eexists. split; [reflexivity|]. cbn [ball score_left score_right with_right
    with_left left right paused particles trail shake_timer shake_magnitude].
  do 3 (split; [reflexivity|]).
  split; [|split; [|do 5 (split; [reflexivity|]);
    repeat split;
    repeat match goal with
           | |- context [if ?b then _ else _] => destruct b
           end; reflexivity]].
  - destruct (key_is key (c !! "left_up")), (key_is key (c !! "left_down"));
      cbn [andb];
      destruct (Rlt_dec (Paddle.speed (left g)) 0);
      destruct (Rgt_dec (Paddle.speed (left g)) 0);
      cbn [set_speed Paddle.speed]; try lra;
      repeat (destruct (Rgt_dec _ _) || destruct (Rlt_dec _ _));
      cbn [set_speed Paddle.speed]; lra.
  - destruct (key_is key (c !! "right_up")), (key_is key (c !! "right_down"));
      cbn [andb];
      destruct (Rlt_dec (Paddle.speed (right g)) 0);
      destruct (Rgt_dec (Paddle.speed (right g)) 0);
      cbn [set_speed Paddle.speed]; try lra;
      repeat (destruct (Rgt_dec _ _) || destruct (Rlt_dec _ _));
      cbn [set_speed Paddle.speed]; lra.
Qed.

Lemma keyup_stops_matching_direction_witness :
  let g := with_left (set_speed (- PADDLE_SPEED) (left match_point)) match_point in
  exists g',
    handle_event DEFAULT_SETTINGS false 0 1 (EvKeyUp K_s) g false = Go g' false
    /\ Paddle.speed (left g') = - PADDLE_SPEED.
Proof.
  intros g.
  destruct (keyup_stops_matching_direction DEFAULT_SETTINGS DEFAULT_CONTROLS
              false 0 1 K_s g false eq_refl) as (g' & Hgo & _ & _ & _ & Hl & _).
  exists g'. split; [exact Hgo|]. rewrite Hl.
  cbn [g with_left left set_speed Paddle.speed]. unfold_consts.
  destruct (Rlt_dec (- (360)) 0) as [_|Hn]; [|lra].
  change (key_is K_s (DEFAULT_CONTROLS !! "left_up")) with false.
  reflexivity.
Defined.

(** X21. A key that no action is bound to does nothing when pressed,
    except Escape, which always leaves the game; in particular, with all
    seven actions unbound every key but Escape is ignored. *)
Theorem unbound_keys_ignored (settings : gmap string pyval)
    (c : gmap string pyatom) (right_ai : bool) (angle : R) (choice : Z)
    (g : Game) (debug : bool) :
  controls_of settings = Some c ->
  (forall key,
     (forall a, In a ACTIONS -> key_is key (c !! a) = false) ->
     handle_event settings right_ai angle choice (EvKeyDown key) g debug
     = if (key =? K_ESCAPE)%Z then Exit None else Go g debug)
  /\ ((forall a, In a ACTIONS -> c !! a = Some PNone) ->
      forall key,
        handle_event settings right_ai angle choice (EvKeyDown key) g debug
        = if (key =? K_ESCAPE)%Z then Exit None else Go g debug).
Proof.
  intros Hc.
  assert (H1 : forall key,
             (forall a, In a ACTIONS -> key_is key (c !! a) = false) ->
             handle_event settings right_ai angle choice (EvKeyDown key) g debug
             = if (key =? K_ESCAPE)%Z then Exit None else Go g debug).
  { intros key Hno. unfold handle_event. rewrite Hc.
    rewrite !Hno by (unfold ACTIONS; cbn; tauto). reflexivity. }
  split; [exact H1|].
  intros Hall key. apply H1. intros a Ha. rewrite (Hall a Ha). reflexivity.
Qed.

Lemma unbound_keys_ignored_witness :
  let c : gmap string pyatom :=
    list_to_map (map (fun a => (a, PNone)) ACTIONS) in
  handle_event (apply_bindings DEFAULT_SETTINGS c) false 0 1 (EvKeyDown K_w)
               match_point false
  = Go match_point false.
Proof.
  intros c.
  destruct (unbound_keys_ignored (apply_bindings DEFAULT_SETTINGS c) c false
              0 1 match_point false eq_refl) as [_ Hall].
  rewrite Hall; [reflexivity|].
  intros a Ha. unfold ACTIONS in Ha. cbn in Ha.
  destruct Ha as [<-|[<-|[<-|[<-|[<-|[<-|[<-|[]]]]]]]]; reflexivity.
Defined.

Lemma handle_event_keeps (settings : gmap string pyval) (right_ai : bool)
    (angle : R) (choice : Z) (ev : Event) (g g' : Game) (debug debug' : bool) :
  handle_event settings right_ai angle choice ev g debug = Go g' debug' ->
  Paddle.rect (left g') = Paddle.rect (left g)
  /\ Paddle.y (left g') = Paddle.y (left g)
  /\ Paddle.rect (right g') = Paddle.rect (right g)
  /\ Paddle.y (right g') = Paddle.y (right g)
  /\ ((score_left g' = score_left g /\ score_right g' = score_right g
       /\ ball g' = ball g)
      \/ (score_left g' = 0%Z /\ score_right g' = 0%Z
          /\ ball g' = Ball.reset angle choice None (ball g))).
Proof.
  unfold handle_event. destruct ev as [|b|hx hy jid|key|key|].
  - discriminate.
  - destruct (b =? 0)%Z; [intros [= <- _]; repeat split; right; repeat split|].
    destruct (b =? 1)%Z; [discriminate|].
    destruct (b =? 2)%Z; intros [= <- _]; repeat split; left; repeat split.
  - destruct jid as [[|[| |]|]|]; intros [= <- _]; repeat split;
      left; repeat split.
  - destruct (controls_of settings) as [c|]; [|discriminate].
    repeat (match goal with
            | |- context [if ?b then _ else _] => destruct b
            end; try discriminate;
            try (intros [= <- _]; repeat split;
                 first [left; repeat split; reflexivity
                       | right; repeat split; reflexivity])).
  - destruct (controls_of settings) as [c|]; [|discriminate]. cbv zeta.
    intros [= <- _]. cbn [with_left with_right left right score_left
      score_right ball].
    repeat split;
      repeat (match goal with
              | |- context [if ?b then _ else _] => destruct b
              end); try reflexivity.
    left. repeat split.
  - intros [= <- _]. repeat split. left. repeat split.
Qed.

(** X22. Input dispatch only steers: over a whole batch of events that
    does not end the loop, the paddles keep their rectangles and
    positions (only velocities change), and scores that were in [[0, 4]]
    stay there, since the only change an event makes to the scores is a
    reset of both to 0. *)
Theorem dispatch_events_steers (settings : gmap string pyval) (right_ai : bool)
    (draws : nat -> R * Z) (evs : list Event) (k : nat) (g g' : Game)
    (debug debug' : bool) :
  dispatch_events settings right_ai draws k evs g debug = Go g' debug' ->
  Paddle.rect (left g') = Paddle.rect (left g)
  /\ Paddle.y (left g') = Paddle.y (left g)
  /\ Paddle.rect (right g') = Paddle.rect (right g)
  /\ Paddle.y (right g') = Paddle.y (right g)
  /\ ((score_left g' = score_left g /\ score_right g' = score_right g)
      \/ (score_left g' = 0%Z /\ score_right g' = 0%Z))
  /\ (scores_in_play g -> scores_in_play g').
Proof.
  revert k g debug. induction evs as [|ev rest IH]; intros k g debug.
  - cbn [dispatch_events]. intros [= <- _]. do 4 (split; [reflexivity|]).
    split; [left; split; reflexivity | tauto].
  - cbn [dispatch_events].
    destruct (handle_event settings right_ai (fst (draws k)) (snd (draws k))
                ev g debug) as [| |g1 d1] eqn:Hev; try discriminate.
    intros Hrest. apply IH in Hrest.
    destruct (handle_event_keeps _ _ _ _ _ _ _ _ _ Hev)
      as (E1 & E2 & E3 & E4 & Hs).
    destruct Hrest as (F1 & F2 & F3 & F4 & Ht & Hin).
    rewrite F1, F2, F3, F4, E1, E2, E3, E4.
    do 4 (split; [reflexivity|]).
    assert (Hsc : (score_left g' = score_left g /\ score_right g' = score_right g)
                  \/ (score_left g' = 0%Z /\ score_right g' = 0%Z)).
    { destruct Ht as [[-> ->]|[-> ->]]; [|right; split; reflexivity].
      destruct Hs as [(-> & -> & _)|(-> & -> & _)];
        [left | right]; split; reflexivity. }
    split; [exact Hsc|].
    intros [Hl Hr]. unfold scores_in_play.
    destruct Hsc as [[-> ->]|[-> ->]]; [split; assumption | lia].
Qed.

Lemma dispatch_events_steers_witness :
  exists g',
    dispatch_events DEFAULT_SETTINGS false (fun _ => (0, 1%Z)) 0
                    (EvKeyDown K_w :: EvKeyDown K_r :: nil) match_point false
    = Go g' false
    /\ scores_in_play g'.
Proof.
  eexists. split; [reflexivity|].
  refine (proj2 (proj2 (proj2 (proj2 (proj2
            (dispatch_events_steers DEFAULT_SETTINGS false (fun _ => (0, 1%Z))
               (EvKeyDown K_w :: EvKeyDown K_r :: nil) 0%nat match_point _
               false false eq_refl))))) _).
  unfold scores_in_play, match_point. cbn. lia.
Defined.

End InputRouter.

Section Joysticks.
Local Open Scope R_scope.

Lemma stick_axis_speed (j : Joystick) (p : Paddle.t) :
  (numaxes j > 1)%Z ->
  Paddle.speed (stick_to_paddle j p)
  = if (numhats j >? 0)%Z && negb (snd (get_hat0 j) =? 0)%Z
    then IZR (- snd (get_hat0 j)) * PADDLE_SPEED
    else axis_speed (get_axis j 1).
Proof.
  intros Hax. unfold stick_to_paddle.
  destruct (Z.gtb_spec (numaxes j) 1) as [_|Hn]; [|lia].
  destruct (numhats j >? 0)%Z; cbn [andb]; [|reflexivity].
  destruct (snd (get_hat0 j) =? 0)%Z; reflexivity.
Qed.

(** X23. Joystick steering of the left paddle.  An axis value inside the
    dead zone ([|v| < 0.2]) commands zero velocity; outside it, for
    [|v| <= 1], the velocity is [v * PADDLE_SPEED], between 72 and 360 in
    magnitude.  An active hat overrides the axis.  With a joystick that
    has an axis 1 the poll overwrites whatever velocity the paddle had,
    so a velocity set from the keyboard lasts for one iteration only. *)
Theorem joystick_steering :
  (forall v, Rabs v < 0.2 -> axis_speed v = 0)
  /\ (forall v, 0.2 <= Rabs v <= 1 ->
        axis_speed v = v * PADDLE_SPEED
        /\ 72 <= Rabs (axis_speed v) <= 360)
  /\ (forall j0 rest g,
        (numaxes j0 > 1)%Z ->
        let v := Paddle.speed (left (poll_joysticks (j0 :: rest) g)) in
        ((numhats j0 > 0)%Z -> snd (get_hat0 j0) <> 0%Z ->
         v = IZR (- snd (get_hat0 j0)) * PADDLE_SPEED)
        /\ ((numhats j0 <= 0)%Z \/ snd (get_hat0 j0) = 0%Z ->
            v = axis_speed (get_axis j0 1))
        /\ forall w,
             Paddle.speed
               (left (poll_joysticks (j0 :: rest)
                        (with_left (set_speed w (left g)) g))) = v)
  /\ (forall g, poll_joysticks nil g = g).
Proof.
  split; [|split; [|split; [|reflexivity]]].
  - intros v Hv. unfold axis_speed, AXIS_DEADZONE.
    destruct (Rlt_dec (Rabs v) 0.20); lra.
  - intros v Hv. unfold axis_speed, AXIS_DEADZONE.
    destruct (Rlt_dec (Rabs v) 0.20) as [H|_]; [lra|].
    split; [reflexivity|]. unfold_consts.
    rewrite Rabs_mult, (Rabs_right 360) by lra. lra.
  - intros j0 rest g Hax v.
    assert (Hleft : forall g0,
               Paddle.speed (left (poll_joysticks (j0 :: rest) g0))
               = Paddle.speed (stick_to_paddle j0 (left g0))).
    { intros g0. unfold poll_joysticks. destruct rest as [|j1 rest'].
      - destruct (numaxes j0 >? 3)%Z; reflexivity.
      - reflexivity. }
    subst v. rewrite Hleft, stick_axis_speed by exact Hax.
    split; [|split].
    + intros Hh Hy. destruct (Z.gtb_spec (numhats j0) 0) as [_|Hn]; [|lia].
      destruct (Z.eqb_spec (snd (get_hat0 j0)) 0) as [E|_]; [contradiction|].
      reflexivity.
    + intros [Hh|Hy].
      * destruct (Z.gtb_spec (numhats j0) 0) as [Hp|_]; [lia|]. reflexivity.
      * rewrite Hy. cbn [Z.eqb negb]. rewrite andb_false_r. reflexivity.
    + intros w. rewrite Hleft, stick_axis_speed by exact Hax. reflexivity.
Qed.

Lemma joystick_steering_witness :
  let idle := mkJoystick 2 (fun _ => 0.05) 0 (0%Z, 0%Z) in
  Paddle.speed
    (left (poll_joysticks (idle :: nil)
             (with_left (set_speed (- PADDLE_SPEED) (left match_point))
                        match_point))) = 0.
Proof.
  intros idle.
  destruct joystick_steering as (Hdead & _ & Hpoll & _).
  destruct (Hpoll idle nil match_point) as (_ & Haxis & Hover); [cbn; lia|].
  rewrite Hover, Haxis by (left; cbn; lia).
  apply Hdead. cbn [get_axis idle]. rewrite Rabs_right; lra.
Defined.

Lemma ai_move_ignores_speed (v : R) (p : Paddle.t) (b : Ball.t)
    (settings : gmap string pyval) :
  ai_move (set_speed v p) b settings = ai_move p b settings.
Proof. rewrite !ai_move_speed. reflexivity. Qed.

(** X24. In the one-player mode the right paddle is the AI's alone: the
    velocity that keyboard, hat or joystick gave it is overwritten before
    the paddles move, so the iteration's movement step is the same
    whatever that velocity was. *)
Theorem ai_overrides_input (settings : gmap string pyval) (dt v : R) (g : Game) :
  kinematics_block settings true dt (with_right (set_speed v (right g)) g)
  = kinematics_block settings true dt g.
Proof.
  unfold kinematics_block.
  cbn [with_right right left ball score_left score_right paused particles
       trail shake_timer shake_magnitude].
  rewrite ai_move_ignores_speed. reflexivity.
Qed.

End Joysticks.

Section RebindMenu.

Lemma rebind_event_inv (settings : gmap string pyval) (confirm : bool)
    (ev : Event) (st : Rebind) :
  rebind_inv settings st ->
  match rebind_event confirm ev st with
  | Next st' => rebind_inv settings st'
  | Returns None _ => True
  | Returns (Some s) _ =>
      s = settings \/ s = apply_bindings settings (bindings st)
  end.
Proof.
  intros (Hs & Hsel & Hdom).
  assert (Hins : forall a v, dom DEFAULT_CONTROLS ⊆ dom (<[a := v]> (bindings st))).
  { intros a v. rewrite dom_insert_L. apply union_subseteq_r'. exact Hdom. }
  assert (Hmod : forall z, 0 <= z mod Z.of_nat (length MENU_KEYS) < 10).
  { intros z. change (Z.of_nat (length MENU_KEYS)) with 10.
    apply Z.mod_pos_bound. lia. }
  unfold rebind_event. destruct ev as [| | |key| |]; trivial;
    try (split; [exact Hs | split; assumption]).
  destruct (awaiting st) as [action|].
  - destruct (key =? K_ESCAPE); [split; [exact Hs | split; assumption]|].
    destruct ((key =? K_BACKSPACE) || (key =? K_DELETE));
      (split; [exact Hs | split; [exact Hsel | apply Hins]]).
  - cbv zeta.
    destruct ((key =? K_UP) || (key =? K_w));
      [split; [exact Hs | split; [apply Hmod | exact Hdom]]|].
    destruct ((key =? K_DOWN) || (key =? K_s));
      [split; [exact Hs | split; [apply Hmod | exact Hdom]]|].
    destruct ((key =? K_RETURN) || (key =? K_SPACE)).
    + destruct (bool_decide (_ = "__back__")); [left; exact Hs|].
      destruct (bool_decide (_ = "__reset_defaults__"));
        [split; [exact Hs | split; [exact Hsel | reflexivity]]|].
      destruct (bool_decide (_ = "__apply__")).
      * destruct (all_unbound (bindings st) && negb confirm);
          [split; [exact Hs | split; assumption]|].
        right. rewrite Hs. reflexivity.
      * split; [exact Hs | split; assumption].
    + destruct (key =? K_ESCAPE); [left; exact Hs|].
      destruct ((key =? K_BACKSPACE) || (key =? K_DELETE));
        [|split; [exact Hs | split; assumption]].
      destruct (bool_decide (_ = "__back__") || bool_decide (_ = "__reset_defaults__")
                || bool_decide (_ = "__apply__"));
        [split; [exact Hs | split; assumption]|].
      split; [exact Hs | split; [exact Hsel | apply Hins]].
Qed.

Lemma rebind_enter_inv (settings : gmap string pyval) (fs : FS) (st : Rebind) :
  settings_complete settings ->
  rebind_enter settings fs = Some st ->
  rebind_inv settings st.
Proof.
  intros [_ (c & Hc & Hdom)]. unfold rebind_enter, controls_of. rewrite Hc.
  intros [= <-]. split; [reflexivity|]. split; [cbn; lia | exact Hdom].
Qed.

(** X25. Whatever keys are pressed in the rebinding menu, a complete
    settings object comes out complete: the menu returns either the
    settings it was given (Back, Escape) or those settings with the
    control bindings replaced by the edited ones (Apply), which still
    hold an entry for every action; every other settings key is
    untouched, and the selection never leaves the ten menu rows. *)
Theorem rebind_menu_result (settings s : gmap string pyval) (fs fs' : FS)
    (st : Rebind) (evs : list (Event * bool)) :
  settings_complete settings ->
  rebind_enter settings fs = Some st ->
  rebind_run evs st = Returns (Some s) fs' ->
  settings_complete s
  /\ (forall k, k <> "controls" -> s !! k = settings !! k)
  /\ (s = settings \/ exists b, s = apply_bindings settings b).
Proof.
  intros Hcomplete Henter.
  pose proof (rebind_enter_inv _ _ _ Hcomplete Henter) as Hinv.
  clear Henter. revert st Hinv.
  induction evs as [|[ev confirm] rest IH]; intros st Hinv; [discriminate|].
  cbn [rebind_run].
  pose proof (rebind_event_inv settings confirm ev st Hinv) as Hstep.
  destruct (rebind_event confirm ev st) as [[s0|] fs0|st'].
  - intros [= -> ->]. destruct Hinv as (_ & _ & Hdom).
    destruct Hstep as [-> | ->].
    + split; [exact Hcomplete|]. split; [reflexivity | left; reflexivity].
    + split; [|split].
      * destruct Hcomplete as [Hd _]. unfold apply_bindings. split.
        -- rewrite dom_insert_L. apply union_subseteq_r'. exact Hd.
        -- eexists. split; [apply lookup_insert_eq | exact Hdom].
      * intros k Hk. unfold apply_bindings.
        rewrite lookup_insert_ne by congruence. reflexivity.
      * right. eexists. reflexivity.
  - discriminate.
  - apply IH. exact Hstep.
Qed.

Lemma rebind_menu_result_witness :
  let fs := mkFS true None None true true in
  let evs := (EvKeyDown K_BACKSPACE, false) :: (EvKeyDown K_UP, false)
             :: (EvKeyDown K_UP, false) :: (EvKeyDown K_RETURN, false) :: nil in
  exists s fs',
    rebind_run evs (mkRebind 0 None DEFAULT_CONTROLS DEFAULT_SETTINGS fs)
    = Returns (Some s) fs'
    /\ settings_complete s.
Proof.
  intros fs evs. eexists. eexists. split; [reflexivity|].
  refine (proj1 (rebind_menu_result DEFAULT_SETTINGS _ fs _
                   (mkRebind 0 None DEFAULT_CONTROLS DEFAULT_SETTINGS fs) evs
                   _ eq_refl eq_refl)).
  split; [reflexivity|]. exists DEFAULT_CONTROLS. split; reflexivity.
Defined.

(** X26. A key pressed while the menu waits for one is recorded in the
    edited bindings only: the action gets the key (no check against the
    other actions, whose bindings stay as they were), but the settings
    are unchanged and it is those unchanged settings that are saved;
    leaving with Escape afterwards returns them, and the new binding is
    gone. *)
Theorem rebind_needs_apply (confirm : bool) (st : Rebind) (action : string)
    (key : Z) :
  awaiting st = Some action ->
  key <> K_ESCAPE -> key <> K_BACKSPACE -> key <> K_DELETE ->
  exists st',
    rebind_event confirm (EvKeyDown key) st = Next st'
    /\ bindings st' !! action = Some (PInt key)
    /\ (forall a, a <> action -> bindings st' !! a = bindings st !! a)
    /\ menu_settings st' = menu_settings st
    /\ menu_fs st' = save_settings (menu_settings st) (menu_fs st)
    /\ rebind_event confirm (EvKeyDown K_ESCAPE) st'
       = Returns (Some (menu_settings st)) (menu_fs st').
Proof.
  intros Haw He Hb Hd. unfold rebind_event at 1. rewrite Haw.
  destruct (Z.eqb_spec key K_ESCAPE); [contradiction|].
  destruct (Z.eqb_spec key K_BACKSPACE); [contradiction|].
  destruct (Z.eqb_spec key K_DELETE); [contradiction|]. cbn [orb].
  eexists. split; [reflexivity|]. cbn [bindings menu_settings menu_fs].
  split; [apply lookup_insert_eq|].
  split; [intros a Ha; apply lookup_insert_ne; congruence|].
  split; [reflexivity|]. split; reflexivity.
Qed.

Lemma rebind_needs_apply_witness :
  let st := mkRebind 0 (Some "left_up") DEFAULT_CONTROLS DEFAULT_SETTINGS
                     (mkFS true None None true true) in
  exists st',
    rebind_event false (EvKeyDown K_s) st = Next st'
    /\ bindings st' !! "left_up" = Some (PInt K_s)
    /\ bindings st' !! "left_down" = Some (PInt K_s)
    /\ load_settings (menu_fs st') = DEFAULT_SETTINGS.
Proof.
  intros st.
  destruct (rebind_needs_apply false st "left_up" K_s eq_refl)
    as (st' & Hev & Hnew & Hold & _ & Hfs & _); try discriminate.
  exists st'. split; [exact Hev|]. split; [exact Hnew|].
  split; [rewrite Hold by discriminate; reflexivity|].
  rewrite Hfs. reflexivity.
Defined.

End RebindMenu.

Section Rendering.
Local Open Scope R_scope.

Lemma move_flash_range (dt : R) (p : Paddle.t) :
  0 <= dt -> 0 <= Paddle.flash_timer p <= 0.12 ->
  0 <= Paddle.flash_timer (Paddle.move dt p) <= 0.12.
Proof.
  intros Hdt Hf. unfold Paddle.move. cbn [Paddle.flash_timer].
  destruct (Rgt_dec (Paddle.flash_timer p) 0); [|exact Hf].
  unfold Rmax. destruct (Rle_dec 0 (Paddle.flash_timer p - dt)); lra.
Qed.

Lemma collide_flash (sd : side) settings draws (g : Game) :
  flash_bounded g -> flash_bounded (collide sd settings draws g).
Proof.
  intros [Hl Hr]. unfold collide.
  destruct (Rect.colliderect _ _); [|split; assumption].
  destruct (bounce sd _ (ball g)) as [b' sp].
  unfold flash_bounded. destruct sd; cbn [left right Paddle.flash_timer];
    split; lra.
Qed.

Lemma frame_flash (stw : option Z) settings right_ai inp (g g' : Game) banner :
  (0 <= tick_ms inp)%Z ->
  flash_bounded g ->
  frame stw settings right_ai inp g = (banner, Running g') ->
  flash_bounded g'.
Proof.
  intros Hms [Hl Hr] Hf.
  assert (Hdt : 0 <= frame_dt (tick_ms inp)).
  { unfold frame_dt. apply IZR_le in Hms. lra. }
  destruct (frame_running _ _ _ _ _ _ _ Hf) as (g5 & -> & Hg5).
  assert (H3 : flash_bounded (before_scoring settings right_ai inp g)).
  { unfold before_scoring. do 2 apply collide_flash.
    unfold kinematics_block, flash_bounded. cbn [left right].
    split; apply move_flash_range; try assumption.
    destruct right_ai; [|exact Hr]. rewrite ai_move_speed. exact Hr. }
  assert (H4 : flash_bounded
                 (fst (score_block settings (burst_draws inp) (serve_angle inp)
                         (serve_choice inp)
                         (before_scoring settings right_ai inp g)))).
  { unfold score_block.
    destruct (_ <? 0)%Z; [|destruct (_ >? WIDTH)%Z]; exact H3. }
  assert (H5 : flash_bounded g5).
  { destruct Hg5 as [-> | (b & Hw)]; [exact H4|].
    revert Hw. unfold win_block.
    destruct stw as [n|]; [|intros [= _ <-]; exact H4].
    destruct (negb (n =? 0)%Z && (n >? 0)%Z); [|intros [= _ <-]; exact H4].
    destruct ((score_left _ >=? n)%Z || (score_right _ >=? n)%Z);
      [|intros [= _ <-]; exact H4].
    destruct (quit_requested inp); [discriminate|]. intros [= _ <-]. exact H4. }
  unfold effects_block. destruct (Rgt_dec _ _); exact H5.
Qed.

Lemma paddle_color_range (p : Paddle.t) :
  0 <= Paddle.flash_timer p <= 0.12 ->
  let '(r, g, b) := paddle_color p in
  (100 <= r <= 240 /\ 200 <= g <= 240 /\ 240 <= b <= 255)%Z.
Proof.
  intros Hf. unfold paddle_color, WHITE, ACCENT.
  destruct (Rgt_dec (Paddle.flash_timer p) 0) as [Hpos|_]; [|lia].
  cbv zeta.
  assert (Hfrac : 0 <= Paddle.flash_timer p / 0.12 <= 1) by lra.
  set (frac := Paddle.flash_timer p / 0.12) in *.
  repeat split;
    first [apply py_int_ge; [nra | lia] | apply py_int_le; nra].
Qed.

(** X27. The colour of a paddle is always a valid one.  The flash timers
    stay in [[0, 0.12]] from one iteration to the next (a hit sets 0.12,
    movement runs it down), and for such a timer [Paddle.draw] mixes
    white and the accent colour channel by channel: red in
    [[100, 240]], green in [[200, 240]], blue in [[240, 255]]. *)
Theorem paddle_color_valid (stw : option Z) (settings : gmap string pyval)
    (right_ai : bool) (inp : FrameInput) (g g' : Game) (banner : option string) :
  (0 <= tick_ms inp)%Z ->
  flash_bounded g ->
  frame stw settings right_ai inp g = (banner, Running g') ->
  flash_bounded g'
  /\ forall p, p = left g' \/ p = right g' ->
       let '(r, gr, b) := paddle_color p in
       (100 <= r <= 240 /\ 200 <= gr <= 240 /\ 240 <= b <= 255)%Z.
Proof.
  intros Hms Hg Hf. pose proof (frame_flash _ _ _ _ _ _ _ Hms Hg Hf) as H'.
  split; [exact H'|]. destruct H' as [Hl Hr].
  intros p [-> | ->]; apply paddle_color_range; assumption.
Qed.

Lemma paddle_color_valid_witness :
  exists g',
    frame SCORE_TO_WIN DEFAULT_SETTINGS false (blowout false) match_point
    = (Some "Left wins!", Running g')
    /\ flash_bounded g'.
Proof.
  destruct match_point_frame as (g' & Hf). exists g'. split; [exact Hf|].
  refine (proj1 (paddle_color_valid SCORE_TO_WIN DEFAULT_SETTINGS false
                   (blowout false) match_point g' _ _ _ Hf)).
  - cbn. lia.
  - unfold flash_bounded, match_point. cbn. lra.
Defined.

(** X28. [Particle.draw] draws nothing for a dead particle, and for a
    live one of non-negative age uses an alpha between 0 and 255, equal
    to 255 at age 0. *)
Theorem particle_alpha_range (p : Particle.t) :
  (Particle.life p <= Particle.age p -> particle_alpha p = None)
  /\ (0 <= Particle.age p < Particle.life p ->
      exists a, particle_alpha p = Some a /\ (0 <= a <= 255)%Z)
  /\ (Particle.age p = 0 -> 0 < Particle.life p ->
      particle_alpha p = Some 255%Z).
Proof.
  unfold particle_alpha. split; [|split].
  - intros H. destruct (Rge_dec _ _) as [_|Hn]; [reflexivity | lra].
  - intros [H0 Hlt]. destruct (Rge_dec _ _) as [Hge|_]; [lra|].
    eexists. split; [reflexivity|].
    assert (Hq : 0 <= Particle.age p / Particle.life p <= 1).
    { split.
      - unfold Rdiv. apply Rmult_le_pos; [lra|].
        left. apply Rinv_0_lt_compat. lra.
      - apply Rmult_le_reg_r with (Particle.life p); [lra|].
        unfold Rdiv. rewrite Rmult_assoc, Rinv_l by lra. lra. }
    assert (py_int (255 * (1 - Particle.age p / Particle.life p)) <= 255)%Z
      by (apply py_int_le; lra).
    lia.
  - intros H0 Hl. rewrite H0. destruct (Rge_dec 0 (Particle.life p)) as [Hge|_];
      [lra|].
    replace (255 * (1 - 0 / Particle.life p)) with 255
      by (unfold Rdiv; rewrite Rmult_0_l; lra).
    rewrite py_int_IZR. reflexivity.
Qed.

Lemma particle_alpha_range_witness :
  particle_alpha spark = Some 255%Z.
Proof.
  apply (proj2 (proj2 (particle_alpha_range spark))); cbn; lra.
Defined.

End Rendering.

Section FrameSamples.

(** X29. The timing lists of the debug overlay form a window of the
    last 200 frames: starting from three lists of one common length of
    at most 200, recording a sample leaves them with one common length,
    still at most 200, the new sample last in each; below 200 entries
    nothing is dropped, at 200 exactly the oldest entry of each list
    is. *)
Theorem record_sample_window (ft ut dt : list R) (f u d : R) :
  length ut = length ft -> length dt = length ft ->
  (length ft <= MAX_SAMPLES)%nat ->
  let '(ft', ut', dt') := record_sample (ft, ut, dt) (f, u, d) in
  length ut' = length ft' /\ length dt' = length ft'
  /\ (length ft' <= MAX_SAMPLES)%nat
  /\ List.last ft' 0%R = f /\ List.last ut' 0%R = u
  /\ List.last dt' 0%R = d
  /\ ((length ft < MAX_SAMPLES)%nat ->
      ft' = ft ++ f :: nil /\ ut' = ut ++ u :: nil /\ dt' = dt ++ d :: nil)
  /\ (length ft = MAX_SAMPLES ->
      ft' = tl ft ++ f :: nil /\ ut' = tl ut ++ u :: nil
      /\ dt' = tl dt ++ d :: nil).
Proof.
  intros Hu Hd Hle. unfold record_sample. rewrite length_app. cbn [length].
  destruct (Nat.ltb_spec MAX_SAMPLES (length ft + 1)) as [Hfull|Hroom].
  - assert (Hn : length ft = MAX_SAMPLES) by lia.
    destruct ft as [|f0 ft]; [discriminate|].
    destruct ut as [|u0 ut]; [discriminate|].
    destruct dt as [|d0 dt]; [discriminate|].
    cbn [tl app]. cbn [length] in *. rewrite !length_app. cbn [length].
    rewrite !List.last_last.
    repeat split; try lia. all: intros; lia.
  - rewrite !length_app. cbn [length]. rewrite !List.last_last.
    repeat split; try lia. all: intros; lia.
Qed.

Lemma record_sample_window_witness :
  record_sample (nil, nil, nil) (7, 2, 3)%R
  = ((7 :: nil)%R, (2 :: nil)%R, (3 :: nil)%R).
Proof.
  pose proof (record_sample_window nil nil nil 7%R 2%R 3%R eq_refl eq_refl
                ltac:(cbn; unfold MAX_SAMPLES; lia)) as H.
  destruct (record_sample (nil, nil, nil) (7%R, 2%R, 3%R)) as [[ft' ut'] dt'].
  destruct H as (_ & _ & _ & _ & _ & _ & Hroom & _).
  destruct Hroom as (-> & -> & ->); [cbn; unfold MAX_SAMPLES; lia|].
  reflexivity.
Defined.

End FrameSamples.

Section MessageWrap.

Lemma lstrip_length (s : string) : (String.length (lstrip s) <= String.length s)%nat.
Proof.
  induction s as [|c s IH]; [reflexivity|]. cbn [lstrip].
  destruct (is_space c); cbn [String.length]; lia.
Qed.

Lemma rstrip_length (s : string) : (String.length (rstrip s) <= String.length s)%nat.
Proof.
  induction s as [|c s IH]; [reflexivity|]. cbn [rstrip].
  destruct (rstrip s) as [|c' r]; [destruct (is_space c)|];
    cbn [String.length] in *; lia.
Qed.

Lemma strip_length (s : string) : (String.length (strip s) <= String.length s)%nat.
Proof.
  unfold strip. etransitivity; [apply lstrip_length | apply rstrip_length].
Qed.

Lemma append_length (a b : string) :
  String.length (String.append a b) = (String.length a + String.length b)%nat.
Proof.
  induction a as [|c a IH]; [reflexivity|]. simpl. f_equal. exact IH.
Qed.

Lemma wrap_words_lines (all words : list string) (line : string) :
  (forall w, In w words -> In w all) ->
  (String.length line <= 60)%nat \/ In line all ->
  forall l, In l (wrap_words words line) ->
            (String.length l <= 60)%nat \/ In l all.
Proof.
  revert line. induction words as [|word rest IH]; intros line Hsub Hline l.
  - cbn [wrap_words]. destruct (bool_decide (line = EmptyString)); [intros []|].
    intros [<-|[]]. exact Hline.
  - cbn [wrap_words].
    assert (Hrest : forall w, In w rest -> In w all)
      by (intros w Hw; apply Hsub; right; exact Hw).
    destruct (Nat.ltb_spec 60 (String.length line + String.length word + 1))
      as [Hlong|Hfits].
    + intros [<-|Hin]; [exact Hline|].
      apply (IH word Hrest); [|exact Hin]. right. apply Hsub. left. reflexivity.
    + apply (IH _ Hrest). left.
      etransitivity; [apply strip_length|].
      rewrite !append_length. cbn [String.length]. lia.
Qed.

(** X30. The popup's word wrap never produces a line longer than 60
    characters unless that line is a single word of the message that is
    itself too long (such a word is not broken); and when the very first
    word is 60 characters or longer, the first line shown is empty. *)
Theorem wrap_message_lines (message : string) :
  (forall l, In l (wrap_message message) ->
             (String.length l <= 60)%nat \/ In l (split_space message))
  /\ (forall word rest,
        split_space message = word :: rest ->
        (60 <= String.length word)%nat ->
        exists more, wrap_message message = EmptyString :: more).
Proof.
  split.
  - intros l. unfold wrap_message.
    apply (wrap_words_lines (split_space message)); [tauto|].
    left. cbn. lia.
  - intros word rest Hsplit Hlong. unfold wrap_message. rewrite Hsplit.
    cbn [wrap_words String.length].
    destruct (Nat.ltb_spec 60 (0 + String.length word + 1)) as [_|Hn]; [|lia].
    eexists. reflexivity.
Qed.

Lemma wrap_message_lines_witness :
  wrap_message "WE ARE ABOUT TO ERASE YOUR WHOLE SETTINGS FILE. ARE YOU SURE?"
  = "WE ARE ABOUT TO ERASE YOUR WHOLE SETTINGS FILE. ARE YOU"
    :: "SURE?" :: nil
  /\ forall l,
       In l (wrap_message
               "WE ARE ABOUT TO ERASE YOUR WHOLE SETTINGS FILE. ARE YOU SURE?") ->
       (String.length l <= 60)%nat.
Proof.
  split; [vm_compute; reflexivity|].
  intros l Hl.
  destruct (proj1 (wrap_message_lines
                     "WE ARE ABOUT TO ERASE YOUR WHOLE SETTINGS FILE. ARE YOU SURE?")
                  l Hl) as [H|H]; [exact H|].
  vm_compute in H.
  repeat (destruct H as [<-|H]; [vm_compute; lia|]). destruct H.
Defined.

End MessageWrap.
